(** * SGA-V2: a shallow embedding of [relic.sga.v2]

    The development follows the two modules of the package:
    [serialization.py] (binary records of the archive) and [filesystem.py]
    (the lazy / in-memory virtual filesystem).  Python values are embedded
    as follows: [int] as [Z], [bytes] as [list byte], [str] as [string],
    [dict] as an insertion-ordered association list, objects that are
    mutated and shared as cells of an explicit heap, and raised exceptions
    as the right injection of a sum. *)

From Stdlib Require Import ZArith String Ascii Bool Lia QArith.
From Stdlib.Strings Require Import Byte.
From Stdlib Require Import List.
Import ListNotations.
Local Open Scope Z_scope.

(* ================================================================== *)
(** * Python prelude *)
(* ================================================================== *)

Module Py.

(** Exception classes met in the two modules.  Messages and the path
    carried by the [fs.errors] classes are not modelled, only the class. *)
Inductive exn : Type :=
| RelicToolError | DriveExistsError
| ResourceError | ResourceNotFound | DirectoryExpected | FileExpected
| FileExists | DirectoryExists | OperationFailed | InvalidPath
| RemoveRootError
| NotImplementedError | AttributeError | TypeError | IndexError
| ValueError | OverflowError | RecursionError | UnicodeDecodeError
| KeyError.

Definition exn_eqb (a b : exn) : bool :=
  match a, b with
  | RelicToolError, RelicToolError | DriveExistsError, DriveExistsError
  | ResourceError, ResourceError | ResourceNotFound, ResourceNotFound
  | DirectoryExpected, DirectoryExpected | FileExpected, FileExpected
  | FileExists, FileExists | DirectoryExists, DirectoryExists
  | OperationFailed, OperationFailed | InvalidPath, InvalidPath
  | RemoveRootError, RemoveRootError
  | NotImplementedError, NotImplementedError
  | AttributeError, AttributeError | TypeError, TypeError
  | IndexError, IndexError | ValueError, ValueError
  | OverflowError, OverflowError | RecursionError, RecursionError
  | UnicodeDecodeError, UnicodeDecodeError | KeyError, KeyError => true
  | _, _ => false
  end.

(** [isinstance e cls]: the class hierarchy behind the [except] clauses.
    [DriveExistsError] derives from [RelicToolError] (filesystem.py), the
    resource errors of [fs.errors] derive from [ResourceError] and
    [RemoveRootError] from [OperationFailed]. *)
Definition isinstance (e cls : exn) : bool :=
  exn_eqb e cls ||
  match cls, e with
  | RelicToolError, DriveExistsError => true
  | ResourceError, (ResourceNotFound | DirectoryExpected | FileExpected
                   | FileExists | DirectoryExists) => true
  | OperationFailed, RemoveRootError => true
  | _, _ => false
  end.

(** A computation that returns a value or raises. *)
Definition result (A : Type) : Type := (A + exn)%type.
Definition ok {A} (a : A) : result A := inl a.
Definition raise {A} (e : exn) : result A := inr e.
Definition bind {A B} (m : result A) (k : A -> result B) : result B :=
  match m with inl a => k a | inr e => inr e end.

Definition returns {A} (m : result A) : Prop := exists a, m = inl a.
Definition raises {A} (m : result A) (e : exn) : Prop := m = inr e.

End Py.
Import Py.

Declare Scope py_scope.
Delimit Scope py_scope with py.
Notation "x <- m ;; k" := (Py.bind m (fun x => k))
  (at level 61, m at next level, right associativity) : py_scope.
Notation "m ;;; k" := (Py.bind m (fun _ => k))
  (at level 61, right associativity) : py_scope.
Local Open Scope py_scope.

(* ================================================================== *)
(** * Bytes and fixed-width integers *)
(* ================================================================== *)

Module Bytes.

Definition Z_of_byte (b : byte) : Z := Z.of_N (Byte.to_N b).

Definition byte_of_Z (z : Z) : byte :=
  match Byte.of_N (Z.to_N (z mod 256)) with
  | Some b => b
  | None => Byte.x00
  end.

(** [int.from_bytes(buf, "little", signed=False)] *)
Fixpoint int_from_bytes_le (buf : list byte) : Z :=
  match buf with
  | [] => 0
  | b :: rest => Z_of_byte b + 256 * int_from_bytes_le rest
  end.

(** The [length] low-order bytes of [v], least significant first. *)
Fixpoint le_bytes (length : nat) (v : Z) : list byte :=
  match length with
  | O => []
  | S n => byte_of_Z v :: le_bytes n (v / 256)
  end.

(** [v.to_bytes(length, "little", signed=signed)]: [OverflowError] when
    [v] does not fit; a negative value is stored in two's complement. *)
Definition int_to_bytes_le (v : Z) (length : nat) (signed : bool)
  : result (list byte) :=
  let bits := 8 * Z.of_nat length in
  let fits :=
    match length with
    | O => v =? 0
    | _ => if signed
           then (- 2 ^ (bits - 1) <=? v) && (v <? 2 ^ (bits - 1))
           else (0 <=? v) && (v <? 2 ^ bits)
    end in
  if fits then ok (le_bytes length (v mod 2 ^ bits)) else raise OverflowError.

(** [buf[offset : offset + size]] for non-negative bounds. *)
Definition slice (buf : list byte) (offset size : Z) : list byte :=
  firstn (Z.to_nat size) (skipn (Z.to_nat offset) buf).

End Bytes.
Import Bytes.

(* ================================================================== *)
(** * serialization.py *)
(* ================================================================== *)

Module Serialization.

Module RelicUnixTimeSerializer.

(** [pack(value)]: [int(value).to_bytes(4, "little", signed=True)].
    The value is taken as an [int]; [int] of an [int] is the identity. *)
Definition pack (value : Z) : result (list byte) :=
  let int_value := value in
  int_to_bytes_le int_value 4 true.

(** [unpack(buffer)]: [int.from_bytes(buffer, "little", signed=False)]. *)
Definition unpack (buffer : list byte) : Z :=
  int_from_bytes_le buffer.

End RelicUnixTimeSerializer.

(** ** Windows over a byte stream *)

(** Modelled from the spec: [BinaryWindow], [BinaryProxySerializer] and
    the converters of [relic.core.lazyio] are not part of the sources.  A
    window is a view [(stream, base, len)]; a sub-window of [W] at
    [(o, l)] is [(W.stream, W.base + o, l)] and reads through [W], so
    that it is bounded by [W] and by every window above [W]: [lo] and
    [hi] keep the absolute range that the enclosing windows leave.  A
    read or write that would leave the window, or a window above it,
    fails.  The spec calls the failure [OutOfBounds] and does not give its
    Python class, which the handlers of [header_is_valid] tell apart; the
    window carries it as [failure], a function of the direction ([true]
    for a write), the absolute position and the size asked for. *)
Record BinaryWindow : Type := mkWindow {
  stream : list byte;
  base : Z;
  len : Z;
  lo : Z;
  hi : Z;
  failure : bool -> Z -> Z -> exn;
}.

(** The window over a whole stream. *)
Definition window_of_bytes (failure : bool -> Z -> Z -> exn) (buf : list byte)
  : BinaryWindow :=
  mkWindow buf 0 (Z.of_nat (length buf)) 0 (Z.of_nat (length buf)) failure.

(** Modelled from the spec: [BinaryWindow(parent, offset, size)], the
    sub-window of [parent] at [(offset, size)].  The spec gives it with
    [offset + size <= parent.len]; the sources build their windows from
    offsets and sizes read from the archive, before anything is checked,
    so that the window is built in every case and the condition is kept
    by its bounds: the part of it that lies outside [parent] can be
    neither read nor written. *)
Definition sub_window (parent : BinaryWindow) (offset size : Z) : BinaryWindow :=
  mkWindow (stream parent) (base parent + offset) size
    (Z.max (lo parent) (base parent))
    (Z.min (hi parent) (base parent + len parent))
    (failure parent).

(** Whether [size] bytes at [offset] lie inside the window, the windows
    above it and the stream. *)
Definition in_window (w : BinaryWindow) (offset size : Z) : bool :=
  (0 <=? offset) && (0 <=? size) && (offset + size <=? len w)
  && (0 <=? base w + offset)
  && (base w + offset + size <=? Z.of_nat (length (stream w)))
  && (lo w <=? base w + offset)
  && (base w + offset + size <=? hi w).

(** Modelled from the spec: [_serializer.read_bytes(offset, size)], a
    read that fails when it would leave the window. *)
Definition read_bytes (w : BinaryWindow) (offset size : Z) : result (list byte) :=
  if in_window w offset size
  then ok (slice (stream w) (base w + offset) size)
  else raise (failure w false (base w + offset) size).

(** Modelled from the spec: [_serializer.write_bytes(buf, offset,
    size)], a write of exactly [size] bytes that fails when it would
    leave the window.  The stream is shared: the result is the window
    over the stream after the write. *)
Definition write_bytes (w : BinaryWindow) (buf : list byte) (offset size : Z)
  : result BinaryWindow :=
  if in_window w offset size && (Z.of_nat (length buf) =? size)
  then
    let start := Z.to_nat (base w + offset) in
    ok (mkWindow (firstn start (stream w) ++ buf
                  ++ skipn (start + Z.to_nat size) (stream w))
                 (base w) (len w) (lo w) (hi w) (failure w))
  else raise (failure w true (base w + offset) size).

(** [window.read(-1)]: the whole window. *)
Definition read_all (w : BinaryWindow) : result (list byte) :=
  read_bytes w 0 (len w).

(** [_serializer.int.read(offset, size, byteorder="little", signed=False)] *)
Definition int_read (w : BinaryWindow) (ptr : Z * Z) : result Z :=
  buf <- read_bytes w (fst ptr) (snd ptr) ;;
  ok (int_from_bytes_le buf).

(** [_serializer.int.write(value, offset, size, byteorder="little", signed=False)] *)
Definition int_write (w : BinaryWindow) (value : Z) (ptr : Z * Z)
  : result BinaryWindow :=
  buf <- int_to_bytes_le value (Z.to_nat (snd ptr)) false ;;
  write_bytes w buf (fst ptr) (snd ptr).

(** ** Storage types *)

(** Modelled from the spec: the enumeration [StorageType] is declared in
    [relic.sga.core.definitions]; its members are [0=STORE,
    1=DEFLATE_BUFFER, 2=DEFLATE_STREAM].  [StorageType(value)] looks a
    member up by value and raises [ValueError] when there is none. *)
Inductive StorageType : Type := STORE | DEFLATE_BUFFER | DEFLATE_STREAM.

Definition StorageType_value (t : StorageType) : Z :=
  match t with STORE => 0 | DEFLATE_BUFFER => 1 | DEFLATE_STREAM => 2 end.

Definition StorageType_of_value (v : Z) : result StorageType :=
  if v =? 0 then ok STORE
  else if v =? 1 then ok DEFLATE_BUFFER
  else if v =? 2 then ok DEFLATE_STREAM
  else raise ValueError.

Definition StorageType_eqb (a b : StorageType) : bool :=
  StorageType_value a =? StorageType_value b.

(** ** TOC file records *)

Definition _next (ptr : Z * Z) : Z := fst ptr + snd ptr.

(** The class constants of a [_SgaTocFileV2] subclass. *)
Record toc_file_class : Type := mkTocFileClass {
  _NAME_OFFSET : Z * Z;
  _FLAGS : Z * Z;
  _DATA_OFFSET : Z * Z;
  _COMP_SIZE : Z * Z;
  _DECOMP_SIZE : Z * Z;
  _SIZE : Z;
}.

Definition SgaTocFileV2Dow : toc_file_class :=
  let _NAME_OFFSET := (0, 4) in
  let _FLAGS := (_next _NAME_OFFSET, 4) in
  let _DATA_OFFSET := (_next _FLAGS, 4) in
  let _COMP_SIZE := (_next _DATA_OFFSET, 4) in
  let _DECOMP_SIZE := (_next _COMP_SIZE, 4) in
  let _SIZE := _next _DECOMP_SIZE in
  mkTocFileClass _NAME_OFFSET _FLAGS _DATA_OFFSET _COMP_SIZE _DECOMP_SIZE _SIZE.

Definition SgaTocFileV2ImpCreatures : toc_file_class :=
  let _NAME_OFFSET := (0, 4) in
  let _FLAGS := (_next _NAME_OFFSET, 1) in
  let _DATA_OFFSET := (_next _FLAGS, 4) in
  let _COMP_SIZE := (_next _DATA_OFFSET, 4) in
  let _DECOMP_SIZE := (_next _COMP_SIZE, 4) in
  let _SIZE := _next _DECOMP_SIZE in
  mkTocFileClass _NAME_OFFSET _FLAGS _DATA_OFFSET _COMP_SIZE _DECOMP_SIZE _SIZE.

Definition _STORAGE_TYPE_MASK : Z := 0xF0.
Definition _STORAGE_TYPE_SHIFT : Z := 4.

(** An instance of [_SgaTocFileV2]: its class and the window it reads. *)
Record _SgaTocFileV2 : Type := mkTocFile {
  cls : toc_file_class;
  _serializer : BinaryWindow;
}.

Definition name_offset (self : _SgaTocFileV2) : result Z :=
  int_read (_serializer self) (_NAME_OFFSET (cls self)).

Definition data_offset (self : _SgaTocFileV2) : result Z :=
  int_read (_serializer self) (_DATA_OFFSET (cls self)).

Definition compressed_size (self : _SgaTocFileV2) : result Z :=
  int_read (_serializer self) (_COMP_SIZE (cls self)).

Definition decompressed_size (self : _SgaTocFileV2) : result Z :=
  int_read (_serializer self) (_DECOMP_SIZE (cls self)).

(** The raw flags field, as both accessors of [storage_type] read it. *)
Definition flags (self : _SgaTocFileV2) : result Z :=
  int_read (_serializer self) (_FLAGS (cls self)).

(** [storage_type] (getter) *)
Definition storage_type (self : _SgaTocFileV2) : result StorageType :=
  value <- flags self ;;
  let value := Z.land value _STORAGE_TYPE_MASK in
  let value := Z.shiftr value _STORAGE_TYPE_SHIFT in
  StorageType_of_value value.

(** [storage_type] (setter): returns the record after the write. *)
Definition set_storage_type (self : _SgaTocFileV2) (value : StorageType)
  : result _SgaTocFileV2 :=
  let flag := Z.shiftl (StorageType_value value) _STORAGE_TYPE_SHIFT in
  buffer_value <- flags self ;;
  let buffer_value := Z.land buffer_value (Z.lnot _STORAGE_TYPE_MASK) in
  let buffer_value := Z.lor buffer_value flag in
  w <- int_write (_serializer self) buffer_value (_FLAGS (cls self)) ;;
  ok (mkTocFile (cls self) w).

(** ** The TOC header and the game format *)

(** [SgaTocHeader.TablePointer] of [relic.sga.core]: where a table of
    the TOC starts and how many records it holds. *)
Record TablePointer : Type := mkPtr {
  offset : Z;
  count : Z;
}.

Definition info (p : TablePointer) : Z * Z := (offset p, count p).

(** The decoded TOC header, with the five pointers that [SgaTocV2] reads
    from it. *)
Record SgaTocHeaderV2 : Type := mkTocHeader {
  drive : TablePointer;
  folder : TablePointer;
  root_folder : TablePointer;
  file : TablePointer;
  name : TablePointer;
}.

(** The class constants of [SgaTocHeaderV2]: where the 24-byte header
    keeps the offset and the count of each table. *)
Module TocHeaderMeta.
Definition _DRIVE_POS : Z * Z := (0, 4).
Definition _DRIVE_COUNT : Z * Z := (4, 2).
Definition _FOLDER_POS : Z * Z := (6, 4).
Definition _FOLDER_COUNT : Z * Z := (10, 2).
Definition _FILE_POS : Z * Z := (12, 4).
Definition _FILE_COUNT : Z * Z := (16, 2).
Definition _NAME_POS : Z * Z := (18, 4).
Definition _NAME_COUNT : Z * Z := (22, 2).
Definition _SIZE : Z := 24.
End TocHeaderMeta.

Inductive SgaV2GameFormat : Type :=
| DawnOfWar | ImpossibleCreatures | Unknown.

(** The dictionary [GAME_FORMAT_TOC_FILE], in insertion order. *)
Definition GAME_FORMAT_TOC_FILE : list (SgaV2GameFormat * toc_file_class) :=
  [ (DawnOfWar, SgaTocFileV2Dow);
    (ImpossibleCreatures, SgaTocFileV2ImpCreatures) ].

Definition SgaV2GameFormat_eqb (a b : SgaV2GameFormat) : bool :=
  match a, b with
  | DawnOfWar, DawnOfWar | ImpossibleCreatures, ImpossibleCreatures
  | Unknown, Unknown => true
  | _, _ => false
  end.

(** [GAME_FORMAT_TOC_FILE.get(game)] *)
Definition GAME_FORMAT_TOC_FILE_get (game : SgaV2GameFormat)
  : option toc_file_class :=
  option_map snd
    (find (fun kv => SgaV2GameFormat_eqb (fst kv) game) GAME_FORMAT_TOC_FILE).

(** [SgaTocV2._determine_next_header_block_ptr(header, toc_end, index)] *)
Definition _determine_next_header_block_ptr
  (header : SgaTocHeaderV2) (toc_end : Z) (index : Z) : Z :=
  let smallest := toc_end in
  let ptrs :=
    [ offset (folder header);
      offset (root_folder header);
      offset (file header);
      offset (name header) ] in
  fold_left
    (fun smallest ptr =>
       if (index <? ptr) && (ptr <? smallest) then ptr else smallest)
    ptrs smallest.

(** [SgaTocV2._determine_game(header, toc_end)].

    [file_block_size / file_count] is Python's true division of two
    integers; it is computed here in [Q].  The count is a 16-bit field and
    the sizes are file offsets, so the float quotient equals 20.0 or 17.0
    exactly when the rational one does. *)
Definition _determine_game (header : SgaTocHeaderV2) (toc_end : Z)
  : result SgaV2GameFormat :=
  let '(file_block_start, file_count) := info (file header) in
  if file_count =? 0 then ok Unknown
  else
    let file_block_end :=
      _determine_next_header_block_ptr header toc_end file_block_start in
    let file_block_size := file_block_end - file_block_start in
    let file_def_size := (inject_Z file_block_size / inject_Z file_count)%Q in
    match find (fun kv => Qeq_bool (inject_Z (_SIZE (snd kv))) file_def_size)
               GAME_FORMAT_TOC_FILE with
    | Some (game_format, _) => ok game_format
    | None => raise RelicToolError
    end.

(** ** The table of contents *)

(** Modelled from the spec: [SgaTocInfoArea] of [relic.sga.core].  Given
    [(base, count)] from the TOC header and the record size of the record
    class, record [i] is the sub-window of that size at
    [base + i * record_size]; [len] is the count. *)
Record SgaTocInfoArea : Type := mkArea {
  area_parent : BinaryWindow;
  area_offset : Z;
  area_count : Z;
  area_cls : option toc_file_class;
}.

Definition area_len (a : SgaTocInfoArea) : Z := area_count a.

(** Iteration over the area.  Without a record class ([cls=None], the
    [Unknown] format) there is nothing to instantiate a record with. *)
Definition area_items (a : SgaTocInfoArea) : result (list _SgaTocFileV2) :=
  match Z.to_nat (area_count a) with
  | O => ok []
  | n =>
      match area_cls a with
      | None => raise TypeError
      | Some c =>
          ok (map (fun i =>
                     mkTocFile c
                       (sub_window (area_parent a)
                          (area_offset a + Z.of_nat i * _SIZE c) (_SIZE c)))
                  (seq 0 n))
      end
  end.

(** The part of [SgaTocV2] that concerns the file table; the drive,
    folder and name tables are built the same way and are not needed
    below. *)
Record SgaTocV2 : Type := mkToc {
  _header : SgaTocHeaderV2;
  _game_format : SgaV2GameFormat;
  _files : SgaTocInfoArea;
}.

(** [SgaHeaderV2.Meta] *)
Module Meta.
Definition name_ptr : Z * Z := (16, 128).
Definition toc_size_ptr : Z * Z := (160, 4).
Definition data_pos_ptr : Z * Z := (164, 4).
Definition size : Z := 168.
Definition toc_pos : Z := 180.
End Meta.

(** [LazySgaTocFileDataHeaderV2Dow.Meta] *)
Module HeaderMeta.
Definition name_ptr : Z * Z := (0, 256).
Definition modified_ptr : Z * Z := (256, 4).
Definition crc_ptr : Z * Z := (260, 4).
Definition SIZE : Z := 264.
End HeaderMeta.

(** Modelled from the spec: [SgaFile._MAGIC_VERSION_SIZE] of
    [relic.sga.core]; eight bytes of magic word and four of version
    precede the meta block. *)
Definition _MAGIC_VERSION_SIZE : Z := 12.
Definition _META_BLOCK : Z * Z := (_MAGIC_VERSION_SIZE, Meta.size).

Record SgaFileV2 : Type := mkSgaFile {
  _meta : BinaryWindow;
  _header_window : BinaryWindow;
  _data_window : BinaryWindow;
  _toc : SgaTocV2;
  _has_file_data_headers : bool;
  _has_safe_file_data_headers : bool;
}.

Definition has_file_data_header (self : SgaFileV2) : bool :=
  _has_file_data_headers self.

Definition has_safe_file_data_header (self : SgaFileV2) : bool :=
  _has_safe_file_data_headers self.

Section Archive.

(** [SgaTocHeaderV2(parent)]: the decoding of the 24-byte TOC header into
    table pointers is done by the base class [SgaTocHeader] of
    [relic.sga.core]; it is a parameter here. *)
Variable SgaTocHeaderV2_init : BinaryWindow -> result SgaTocHeaderV2.

(** [SgaHeaderV2.Meta.name_converter]: the decoding of the 128 bytes of
    the archive name by [CStringConverter("utf-16-le", "\0", 128)] of
    [relic.core]; it is a parameter here. *)
Variable name_converter : list byte -> result string.

(** [SgaHeaderV2.name] *)
Definition meta_name (_meta : BinaryWindow) : result string :=
  buf <- read_bytes _meta (fst Meta.name_ptr) (snd Meta.name_ptr) ;;
  name_converter buf.

(** [SgaTocV2.__init__(parent, game)] *)
Definition SgaTocV2_init (parent : BinaryWindow) (game : option SgaV2GameFormat)
  : result SgaTocV2 :=
  header <- SgaTocHeaderV2_init parent ;;
  game <- match game with
          | None =>
              let toc_end := len parent in  (* parent.seek(0, os.SEEK_END) *)
              _determine_game header toc_end
          | Some game => ok game
          end ;;
  let toc_class := GAME_FORMAT_TOC_FILE_get game in
  let '(toc_offset, toc_count) := info (file header) in
  ok (mkToc header game (mkArea parent toc_offset toc_count toc_class)).

(** [SgaFileV2.__determine_expected_data_window_size()] *)
Definition __determine_expected_data_window_size (toc : SgaTocV2) : result Z :=
  let total_header_size := area_len (_files toc) * HeaderMeta.SIZE in
  files <- area_items (_files toc) ;;
  total_data_size <-
    fold_left (fun acc file =>
                 total <- acc ;;
                 size <- compressed_size file ;;
                 ok (total + size))
              files (ok 0) ;;
  ok (total_header_size + total_data_size).

(** [SgaFileV2.__init__(parent, game_format)].  [parent] is the whole
    archive, with the failure class of its stream; [tell_end(parent)] is
    its length.  The constructor ends by formatting [self._meta.name]
    into its log message. *)
Definition SgaFileV2_init (failure : bool -> Z -> Z -> exn) (parent : list byte)
  (game_format : option SgaV2GameFormat) : result SgaFileV2 :=
  let parent := window_of_bytes failure parent in
  let _meta := sub_window parent (fst _META_BLOCK) (snd _META_BLOCK) in
  toc_size <- int_read _meta Meta.toc_size_ptr ;;
  let _header_window := sub_window parent Meta.toc_pos toc_size in
  _data_start <- int_read _meta Meta.data_pos_ptr ;;
  let _data_end := len parent in
  let _data_size := _data_end - _data_start in
  let _data_window := sub_window parent _data_start _data_size in
  _toc <- SgaTocV2_init _header_window game_format ;;
  _expected_data_size <- __determine_expected_data_window_size _toc ;;
  let _has_file_data_headers := _expected_data_size <=? _data_size in
  let _has_safe_file_data_headers := _expected_data_size =? _data_size in
  _ <- meta_name _meta ;;
  ok (mkSgaFile _meta _header_window _data_window _toc
        _has_file_data_headers _has_safe_file_data_headers).

End Archive.

(** ** Per-file data headers *)

(** [bytes.decode("ascii")]: any byte above 127 is a [UnicodeDecodeError]. *)
Definition decode_ascii (buf : list byte) : result string :=
  if forallb (fun b => Z_of_byte b <? 128) buf
  then ok (string_of_list_byte buf)
  else raise UnicodeDecodeError.

Fixpoint truncate_at (pad : byte) (buf : list byte) : list byte :=
  match buf with
  | [] => []
  | b :: rest => if Byte.eqb b pad then [] else b :: truncate_at pad rest
  end.

(** Modelled from the spec: [CStringConverter(encoding="ascii",
    padding="\0", size)] of [relic.core.lazyio], decoding direction.
    Decode reads the fixed number of bytes, truncates at the first pad
    byte and decodes. *)
Definition CStringConverter_ascii_decode (buf : list byte) : result string :=
  decode_ascii (truncate_at Byte.x00 buf).

(** [MemSgaTocFileDataHeaderV2Dow]: a plain record.  The modification
    time is a Python number: the [int] read from an archive or the
    [float] of the clock, both rationals. *)
Record MemSgaTocFileDataHeaderV2Dow : Type := mkMemHeader {
  mem_name : string;
  mem_crc32 : Z;
  mem_modified : Q;
}.

(** [LazySgaTocFileDataHeaderV2Dow]: the three fields read through the
    header's 264-byte window. *)
Module LazySgaTocFileDataHeaderV2Dow.

Definition name (self : BinaryWindow) : result string :=
  buf <- read_bytes self (fst HeaderMeta.name_ptr) (snd HeaderMeta.name_ptr) ;;
  CStringConverter_ascii_decode buf.

Definition crc32 (self : BinaryWindow) : result Z :=
  int_read self HeaderMeta.crc_ptr.

Definition modified (self : BinaryWindow) : result Z :=
  buffer <- read_bytes self (fst HeaderMeta.modified_ptr)
                            (snd HeaderMeta.modified_ptr) ;;
  ok (RelicUnixTimeSerializer.unpack buffer).

(** The control flow of [header_is_valid] over the outcomes of the
    three property reads: the inner handlers answer [False] for the
    listed classes; any other exception reaches the outer handler,
    which logs and falls through to [return True]. *)
Definition header_is_valid_of
  (name : result string) (crc32 : result Z) (modified : result Z) : bool :=
  match name with
  | inr e =>
      if isinstance e RelicToolError || isinstance e UnicodeDecodeError
      then false else true
  | inl _name =>
      match crc32 with
      | inr e => if isinstance e RelicToolError then false else true
      | inl _crc32 =>
          match modified with
          | inr e => if isinstance e RelicToolError then false else true
          | inl _modified => true
          end
      end
  end.

Definition header_is_valid (self : BinaryWindow) : bool :=
  header_is_valid_of (name self) (crc32 self) (modified self).

End LazySgaTocFileDataHeaderV2Dow.

(** A value of the protocol [SgaTocFileDataHeaderV2DowProtocol]. *)
Inductive SgaTocFileDataHeaderV2DowProtocol : Type :=
| LazyHeader (window : BinaryWindow)
| MemHeader (header : MemSgaTocFileDataHeaderV2Dow).

(** [SgaNameWindow.get_name] of [relic.sga.core]: the name stored at an
    offset of the TOC name pool. *)
Definition SgaNameWindow : Type := Z -> result string.

(** What [SgaTocFileDataV2Dow.data] hands out: the raw window, or a
    [ZLibFileReader] over it. *)
Inductive BinaryIO : Type :=
| RawWindow (window : BinaryWindow)
| ZLibFileReader (window : BinaryWindow).

Record SgaTocFileDataV2Dow : Type := mkFileData {
  _toc_file : _SgaTocFileV2;
  _name_window : SgaNameWindow;
  _file_data_window : BinaryWindow;
  _data_header : SgaTocFileDataHeaderV2DowProtocol;
}.

(** ASCII characters that print: the range 0x20 .. 0x7E. *)
Definition printable_ascii (s : string) : bool :=
  forallb (fun b => (32 <=? Z_of_byte b) && (Z_of_byte b <=? 126))
          (list_byte_of_string s).

Section FileData.

(** The primitives of the environment: the CRC32 of [hashtools], the
    zlib decompressor behind [ZLibFileReader], and the clock, read as
    [RelicDateTimeSerializer.datetime2unix(datetime.now())]. *)
Variable crc32_hash : list byte -> Z.
Variable zlib_decompress : list byte -> result (list byte).
Variable now : Q.

(** [MemSgaTocFileDataHeaderV2Dow.create(name, data, time)] *)
Definition create (name : string) (data : list byte) (time : option Q)
  : MemSgaTocFileDataHeaderV2Dow :=
  let crc32 := crc32_hash data in
  let time := match time with None => now | Some time => time end in
  mkMemHeader name crc32 time.

(** [LazySgaTocFileDataHeaderV2Dow.get_valid_header(name, data, modified)] *)
Definition get_valid_header (self : BinaryWindow) (name : string)
  (data : list byte) (modified : option Q)
  : result MemSgaTocFileDataHeaderV2Dow :=
  if LazySgaTocFileDataHeaderV2Dow.header_is_valid self
  then
    n <- LazySgaTocFileDataHeaderV2Dow.name self ;;
    c <- LazySgaTocFileDataHeaderV2Dow.crc32 self ;;
    m <- LazySgaTocFileDataHeaderV2Dow.modified self ;;
    ok (mkMemHeader n c (inject_Z m))
  else ok (create name data modified).

(** [BinaryIO.read(-1)] *)
Definition read_io (io : BinaryIO) : result (list byte) :=
  match io with
  | RawWindow w => read_all w
  | ZLibFileReader w => raw <- read_all w ;; zlib_decompress raw
  end.

(** [SgaTocFileDataV2Dow.name], from the fields it reads. *)
Definition file_data_name (toc_file : _SgaTocFileV2) (name_window : SgaNameWindow)
  : result string :=
  o <- name_offset toc_file ;; name_window o.

(** [SgaTocFileDataV2Dow.data(decompress)], from the fields it reads. *)
Definition file_data_data (toc_file : _SgaTocFileV2) (data_window : BinaryWindow)
  (decompress : bool) : result BinaryIO :=
  offset <- data_offset toc_file ;;
  size <- compressed_size toc_file ;;
  let window := sub_window data_window offset size in
  if decompress
  then
    t <- storage_type toc_file ;;
    if negb (StorageType_eqb t STORE)
    then ok (ZLibFileReader window) else ok (RawWindow window)
  else ok (RawWindow window).

(** [SgaTocFileDataV2Dow.__init__].  Both branches format [self.name]
    into their log message before anything else. *)
Definition SgaTocFileDataV2Dow_init
  (toc_file : _SgaTocFileV2) (name_window : SgaNameWindow)
  (data_window : BinaryWindow)
  (has_data_header has_safe_data_header : bool)
  : result SgaTocFileDataV2Dow :=
  let size := HeaderMeta.SIZE in
  data_offset <- data_offset toc_file ;;
  let offset := data_offset - size in
  let _data_header_window := sub_window data_window offset size in
  let _lazy_data_header := _data_header_window in
  if has_safe_data_header
     || (has_data_header
         && LazySgaTocFileDataHeaderV2Dow.header_is_valid _lazy_data_header)
  then
    _ <- file_data_name toc_file name_window ;;
    ok (mkFileData toc_file name_window data_window
          (LazyHeader _lazy_data_header))
  else
    _ <- file_data_name toc_file name_window ;;
    _name <- file_data_name toc_file name_window ;;
    io <- file_data_data toc_file data_window true ;;
    _data <- read_io io ;;
    ok (mkFileData toc_file name_window data_window
          (MemHeader (create _name _data None))).

End FileData.

(** ** More of the TOC file record *)

(** [name_offset], [data_offset], [compressed_size] and
    [decompressed_size] (setters): each returns the record after the
    write. *)
Definition set_name_offset (self : _SgaTocFileV2) (value : Z)
  : result _SgaTocFileV2 :=
  w <- int_write (_serializer self) value (_NAME_OFFSET (cls self)) ;;
  ok (mkTocFile (cls self) w).

Definition set_data_offset (self : _SgaTocFileV2) (value : Z)
  : result _SgaTocFileV2 :=
  w <- int_write (_serializer self) value (_DATA_OFFSET (cls self)) ;;
  ok (mkTocFile (cls self) w).

Definition set_compressed_size (self : _SgaTocFileV2) (value : Z)
  : result _SgaTocFileV2 :=
  w <- int_write (_serializer self) value (_COMP_SIZE (cls self)) ;;
  ok (mkTocFile (cls self) w).

Definition set_decompressed_size (self : _SgaTocFileV2) (value : Z)
  : result _SgaTocFileV2 :=
  w <- int_write (_serializer self) value (_DECOMP_SIZE (cls self)) ;;
  ok (mkTocFile (cls self) w).

(** The five slots of a record class, in layout order. *)
Definition slots (c : toc_file_class) : list (Z * Z) :=
  [ _NAME_OFFSET c; _FLAGS c; _DATA_OFFSET c; _COMP_SIZE c; _DECOMP_SIZE c ].

(** ** Integrity checks of the archive *)

Definition _FILE_MD5_EIGEN : list byte :=
  list_byte_of_string "E01519D6-2DB7-4640-AF54-0A23319C56C3".
Definition _TOC_MD5_EIGEN : list byte :=
  list_byte_of_string "DFC9AF62-FC1B-4180-BC27-11CCE87D3EFF".

(** [SgaHeaderV2.Meta.file_md5_ptr] and [toc_md5_ptr] *)
Definition file_md5_ptr : Z * Z := (0, 16).
Definition toc_md5_ptr : Z * Z := (144, 16).

(** The keyword arguments handed to the hasher. *)
Record hash_kwargs : Type := mkKwargs {
  kw_start : Z;
  kw_size : option Z;
  kw_eigen : list byte;
  kw_stream : list byte;
  kw_expected : list byte;
}.

(** The attributes [__verified_file] and [__verified_header] that
    [__verify] sets on the archive object; [None] while unset. *)
Record verified : Type := mkVerified {
  verified_file : option bool;
  verified_header : option bool;
}.

Inductive cache_name : Type := NAME_file | NAME_header.

Definition getattr (self : verified) (name : cache_name) : option bool :=
  match name with
  | NAME_file => verified_file self
  | NAME_header => verified_header self
  end.

Definition setattr (self : verified) (name : cache_name) (value : bool)
  : verified :=
  match name with
  | NAME_file => mkVerified (Some value) (verified_header self)
  | NAME_header => mkVerified (verified_file self) (Some value)
  end.

Section Verify.

(** The MD5 hasher of [relic.sga.core.hashtools] is a parameter:
    [check] answers whether the hash matches, [validate] raises the
    hasher's mismatch error when it does not. *)
Variable md5_check : hash_kwargs -> bool.
Variable mismatch : exn.

(** The decoding of the archive name, as for [SgaFileV2.__init__]. *)
Variable name_converter : list byte -> result string.

Definition md5_validate (kwargs : hash_kwargs) : result unit :=
  if md5_check kwargs then ok tt else raise mismatch.

(** [SgaFileV2.__verify(cached, error, hasher, hash_kwargs, expected,
    cache_name)]: the answer and the archive object afterwards.
    [writable] is [self._serializer.stream.writable()]. *)
Definition __verify (self : verified) (writable : bool) (stream : list byte)
  (cached error : bool) (start : Z) (size : option Z) (eigen : list byte)
  (expected : list byte) (name : cache_name) : result bool * verified :=
  let hasattr := match getattr self name with Some _ => true | None => false end in
  if writable || error || negb cached || negb hasattr
  then
    let kwargs := mkKwargs start size eigen stream expected in
    if negb error
    then
      let result := md5_check kwargs in
      (ok result, setattr self name result)
    else
      match md5_validate kwargs with
      | inl _ => (ok true, setattr self name true)
      | inr e => (raise e, self)
      end
  else
    match getattr self name with
    | Some result => (ok result, self)
    | None => (raise AttributeError, self)
    end.

(** [SgaFileV2.verify_file(cached, error)] on the archive bytes.  The
    archive name is formatted into the log message first; the expected
    hash is read from the meta block before the call. *)
Definition verify_file (self : verified) (writable : bool)
  (failure : bool -> Z -> Z -> exn) (archive : list byte)
  (cached error : bool) : result bool * verified :=
  let meta := sub_window (window_of_bytes failure archive)
                (fst _META_BLOCK) (snd _META_BLOCK) in
  match meta_name name_converter meta with
  | inr e => (raise e, self)
  | inl _ =>
      match read_bytes meta (fst file_md5_ptr) (snd file_md5_ptr) with
      | inr e => (raise e, self)
      | inl file_md5 =>
          __verify self writable archive cached error Meta.toc_pos None
            _FILE_MD5_EIGEN file_md5 NAME_file
      end
  end.

(** [SgaFileV2.verify_header(cached, error)] *)
Definition verify_header (self : verified) (writable : bool)
  (failure : bool -> Z -> Z -> exn) (archive : list byte)
  (cached error : bool) : result bool * verified :=
  let meta := sub_window (window_of_bytes failure archive)
                (fst _META_BLOCK) (snd _META_BLOCK) in
  match meta_name name_converter meta with
  | inr e => (raise e, self)
  | inl _ =>
      match int_read meta Meta.toc_size_ptr with
      | inr e => (raise e, self)
      | inl toc_size =>
          match read_bytes meta (fst toc_md5_ptr) (snd toc_md5_ptr) with
          | inr e => (raise e, self)
          | inl toc_md5 =>
              __verify self writable archive cached error Meta.toc_pos
                (Some toc_size) _TOC_MD5_EIGEN toc_md5 NAME_header
          end
      end
  end.

End Verify.

(** ** Sample records *)

Module Examples.

(** A stream whose out-of-bounds failure is a [RelicToolError], and an
    archive name that decodes to the empty string. *)
Definition failure : bool -> Z -> Z -> exn := fun _ _ _ => RelicToolError.
Definition decode_name (buf : list byte) : result string := ok EmptyString.

(** A Dawn-of-War file record: name offset 0, flags [0x07], data
    offset 264, three bytes stored, three bytes unpacked. *)
Definition dow_record : list byte :=
  le_bytes 4 0 ++ le_bytes 4 0x07 ++ le_bytes 4 264
  ++ le_bytes 4 3 ++ le_bytes 4 3.

Definition dow_file : _SgaTocFileV2 :=
  mkTocFile SgaTocFileV2Dow (window_of_bytes failure dow_record).

(** An Impossible-Creatures file record with flags [0x2B]. *)
Definition ic_record : list byte :=
  le_bytes 4 0 ++ le_bytes 1 0x2B ++ le_bytes 4 264
  ++ le_bytes 4 3 ++ le_bytes 4 3.

Definition ic_file : _SgaTocFileV2 :=
  mkTocFile SgaTocFileV2ImpCreatures (window_of_bytes failure ic_record).

(** A Dawn-of-War file record whose flags are [0x12345678]: the high
    nibble of the low byte is 7, the value of no storage type. *)
Definition odd_record : list byte :=
  le_bytes 4 0 ++ le_bytes 4 0x12345678 ++ le_bytes 4 264
  ++ le_bytes 4 3 ++ le_bytes 4 3.

Definition odd_file : _SgaTocFileV2 :=
  mkTocFile SgaTocFileV2Dow (window_of_bytes failure odd_record).

(** The payload [b"hi\n"]. *)
Definition payload : list byte := [x68; x69; x0a].

(** A header whose name field starts with the byte [0xFF]: it does not
    decode as ASCII. *)
Definition corrupt_header : list byte := xff :: repeat x00 263.

(** A header whose name is the single control character [0x01],
    modified 0, CRC32 0. *)
Definition control_header : list byte := x01 :: repeat x00 263.

Definition names : SgaNameWindow := fun _ => ok "hello.txt"%string.

Definition hash (data : list byte) : Z := int_from_bytes_le data.
Definition inflate (data : list byte) : result (list byte) := ok data.
Definition clock : Q := inject_Z 1700000000.

(** A TOC header: no drives or folders, one file record at 24, the name
    pool at 44. *)
Definition toc_header : SgaTocHeaderV2 :=
  mkTocHeader (mkPtr 24 0) (mkPtr 24 0) (mkPtr 24 0) (mkPtr 24 1) (mkPtr 44 0).

(** The same header as the 24 bytes of an archive. *)
Definition toc_header_bytes : list byte :=
  le_bytes 4 24 ++ le_bytes 2 0 ++ le_bytes 4 24 ++ le_bytes 2 0
  ++ le_bytes 4 24 ++ le_bytes 2 1 ++ le_bytes 4 44 ++ le_bytes 2 0.

(** A whole archive: magic word and version, the meta block with TOC
    size 44 and data offset 224, the TOC, one data header and the
    payload. *)
Definition archive : list byte :=
  [x5f; x41; x52; x43; x48; x49; x56; x45] ++ le_bytes 2 2 ++ le_bytes 2 0
  ++ repeat x00 160 ++ le_bytes 4 44 ++ le_bytes 4 224
  ++ toc_header_bytes ++ dow_record
  ++ control_header ++ payload.

Definition read_table (w : BinaryWindow) (pos cnt : Z * Z) : result TablePointer :=
  o <- int_read w pos ;; c <- int_read w cnt ;; ok (mkPtr o c).

(** A decoder of the TOC header for the samples: the four tables at the
    positions that [SgaTocHeaderV2] declares; the root folders are taken
    to be the drive table, whose records [SgaTocV2.root_folders]
    returns. *)
Definition decode_header (w : BinaryWindow) : result SgaTocHeaderV2 :=
  drive <- read_table w TocHeaderMeta._DRIVE_POS TocHeaderMeta._DRIVE_COUNT ;;
  folder <- read_table w TocHeaderMeta._FOLDER_POS TocHeaderMeta._FOLDER_COUNT ;;
  file <- read_table w TocHeaderMeta._FILE_POS TocHeaderMeta._FILE_COUNT ;;
  name <- read_table w TocHeaderMeta._NAME_POS TocHeaderMeta._NAME_COUNT ;;
  ok (mkTocHeader drive folder drive file name).

(** An Impossible-Creatures header: two 17-byte records from 24 to the
    name pool at 58; and a header whose file table has no known record
    size. *)
Definition ic_toc_header : SgaTocHeaderV2 :=
  mkTocHeader (mkPtr 24 0) (mkPtr 24 0) (mkPtr 24 0) (mkPtr 24 2) (mkPtr 58 0).

Definition odd_toc_header : SgaTocHeaderV2 :=
  mkTocHeader (mkPtr 24 0) (mkPtr 24 0) (mkPtr 24 0) (mkPtr 24 2) (mkPtr 55 0).

Definition empty_toc_header : SgaTocHeaderV2 :=
  mkTocHeader (mkPtr 24 0) (mkPtr 24 0) (mkPtr 24 0) (mkPtr 24 0) (mkPtr 24 0).

End Examples.

End Serialization.
Import Serialization.

(* ================================================================== *)
(** * filesystem.py *)
(* ================================================================== *)

Module Filesystem.

(** ** Strings *)

Module Str.

(** [s[0]] *)
Definition first (s : string) : result ascii :=
  match s with
  | EmptyString => raise IndexError
  | String c _ => ok c
  end.

(** [s[-1]] *)
Fixpoint last (s : string) : result ascii :=
  match s with
  | EmptyString => raise IndexError
  | String c EmptyString => ok c
  | String _ rest => last rest
  end.

(** [sep in s] for a one-character [sep] *)
Fixpoint contains (sep : ascii) (s : string) : bool :=
  match s with
  | EmptyString => false
  | String c rest => Ascii.eqb c sep || contains sep rest
  end.

(** [s.replace(a, b)] for one-character [a] and [b] *)
Fixpoint replace (a b : ascii) (s : string) : string :=
  match s with
  | EmptyString => EmptyString
  | String c rest => String (if Ascii.eqb c a then b else c) (replace a b rest)
  end.

(** [s.split(sep)]: never empty, one more part than separators *)
Fixpoint split (sep : ascii) (s : string) : list string :=
  match s with
  | EmptyString => [EmptyString]
  | String c rest =>
      let parts := split sep rest in
      if Ascii.eqb c sep then EmptyString :: parts
      else match parts with
           | p :: ps => String c p :: ps
           | [] => [String c EmptyString]
           end
  end.

(** [s.split(sep, maxsplit=1)] when [sep in s]: before and after the
    first separator *)
Fixpoint split_first (sep : ascii) (s : string) : string * string :=
  match s with
  | EmptyString => (EmptyString, EmptyString)
  | String c rest =>
      if Ascii.eqb c sep then (EmptyString, rest)
      else let '(a, b) := split_first sep rest in (String c a, b)
  end.

(** [sep.join(parts)] for a one-character [sep] *)
Fixpoint join_with (sep : ascii) (parts : list string) : string :=
  match parts with
  | [] => EmptyString
  | p :: rest =>
      match rest with
      | [] => p
      | _ => (p ++ String sep (join_with sep rest))%string
      end
  end.

(** [a in b] for strings: [a] occurs in [b] *)
Definition occurs (a b : string) : bool :=
  match String.index 0 a b with Some _ => true | None => false end.

End Str.

(** ** [SgaPathResolver] *)

Module SgaPathResolver.

Definition SEP : ascii := "/"%char.
Definition ROOT : string := String SEP EmptyString.

(** [parse(path)] *)
Definition parse (path : string) : option string * string :=
  if Str.contains ":"%char path
  then let '(alias, path) := Str.split_first ":"%char path in (Some alias, path)
  else (None, path).

(** [fix_seperator(path)].  The argument may be [None] (an alias that
    was not given), which has no [replace]. *)
Definition fix_seperator (path : option string) : result string :=
  match path with
  | None => raise AttributeError
  | Some path => ok (Str.replace "\"%char SEP path)
  end.

(** [join( *parts, add_root=False)].  The parts go through
    [fix_seperator] one at a time, as the loop asks for them. *)
Definition join (parts : list (option string)) (add_root : bool)
  : result string :=
  result <-
    fold_left
      (fun acc part =>
         result <- acc ;;
         part <- fix_seperator part ;;
         c <- Str.first part ;;
         if Ascii.eqb c SEP || (String.length result =? 0)%nat
         then ok part
         else
           l <- Str.last result ;;
           if negb (Ascii.eqb l SEP)
           then ok (result ++ ROOT ++ part)%string
           else ok (result ++ part)%string)
      parts (ok EmptyString) ;;
  if add_root
     && ((String.length result =? 0)%nat
         || negb (String.eqb (String.substring 0 1 result) ROOT))
  then ok (ROOT ++ result)%string
  else ok result.

(** [build( *path, alias=None)] *)
Definition build (path : list (option string)) (alias : option string)
  : result string :=
  full_path <- join path false ;;
  match alias with
  | Some (String a alias') =>
      let alias := String a alias' in
      let full_path :=
        match full_path with
        | EmptyString => ROOT
        | String c _ =>
            if negb (Ascii.eqb c SEP) then (ROOT ++ full_path)%string
            else full_path
        end in
      ok (alias ++ ":" ++ full_path)%string
  | _ => ok full_path
  end.

(** [split_parts(path)] *)
Definition split_parts (path : string) : result (list string) :=
  path <- fix_seperator (Some path) ;;
  let parts := Str.split SEP path in
  match parts with
  | EmptyString :: rest =>
      c <- Str.first path ;;
      if Ascii.eqb c SEP then ok (ROOT :: rest) else ok parts
  | _ => ok parts
  end.

(** [split(path)] *)
Definition split (path : string) : result (string * string) :=
  parts <- split_parts path ;;
  match parts with
  | [] => ok (EmptyString, path)
  | _ =>
      parent <- join (map Some (removelast parts)) false ;;
      ok (parent, List.last parts EmptyString)
  end.

Definition basename (path : string) : result string :=
  r <- split path ;; ok (snd r).

Definition dirname (path : string) : result string :=
  r <- split path ;; ok (fst r).

End SgaPathResolver.

(** ** Python values of the filesystem layer *)

(** [dict]: an association list in insertion order, keys unique. *)
Module Dict.

Definition dict (V : Type) : Type := list (string * V).

Fixpoint get {V} (d : dict V) (k : string) : option V :=
  match d with
  | [] => None
  | (k', v) :: rest => if String.eqb k' k then Some v else get rest k
  end.

(** [k in d] *)
Definition contains {V} (d : dict V) (k : string) : bool :=
  match get d k with Some _ => true | None => false end.

(** [d[k] = v]: an existing key keeps its place, a new one goes last. *)
Fixpoint set {V} (d : dict V) (k : string) (v : V) : dict V :=
  match d with
  | [] => [(k, v)]
  | (k', v') :: rest =>
      if String.eqb k' k then (k', v) :: rest else (k', v') :: set rest k v
  end.

Definition keys {V} (d : dict V) : list string := map fst d.
Definition values {V} (d : dict V) : list V := map snd d.

End Dict.
Import Dict.

Inductive pyobj : Type :=
| PNone
| PBool (b : bool)
| PInt (z : Z)
| PFloat (q : Q)
| PStr (s : string)
| PDatetime (unix : Q)
| PStorageType (t : StorageType).

(** An entry of a raw info dictionary: a namespace (a dictionary of
    values) or a value stored at the top level. *)
Inductive entry : Type :=
| Namespace (d : dict pyobj)
| Value (o : pyobj).

Definition NS_BASIC : string := "basic".
Definition NS_DETAILS : string := "details".
Definition NS_ESSENCE : string := "essence".

(** [fs.ResourceType.file] *)
Definition ResourceType_file : Z := 2.

(** [build_ns_basic(name, is_dir)] *)
Definition build_ns_basic (name : string) (is_dir : bool) : dict pyobj :=
  [("name"%string, PStr name); ("is_dir"%string, PBool is_dir)].

(** [build_ns_details(type, size, modified=modified)] *)
Definition build_ns_details (type : Z) (size : pyobj) (modified : pyobj)
  : dict pyobj :=
  [("type"%string, PInt type); ("size"%string, size);
   ("accessed"%string, PNone); ("created"%string, PNone);
   ("metadata_changed"%string, PNone); ("modified"%string, modified)].

(** [fs.info.Info]: a wrapper of the raw dictionary.  [Info.get] answers
    [None] for a missing namespace or key; an [Info] has no
    [__getitem__]. *)
Record Info : Type := mkInfo { raw : dict entry }.

Definition Info_get (info : Info) (namespace key : string) : result pyobj :=
  match Dict.get (raw info) namespace with
  | None => ok PNone
  | Some (Namespace d) =>
      match Dict.get d key with Some v => ok v | None => ok PNone end
  | Some (Value _) => raise AttributeError
  end.

Definition Info_getitem (info : Info) (key : string) : result entry :=
  raise TypeError.

(** [e[key]] on an entry *)
Definition getitem (e : entry) (key : string) : result pyobj :=
  match e with
  | Namespace d =>
      match Dict.get d key with Some v => ok v | None => raise KeyError end
  | Value _ => raise TypeError
  end.

(** Truth value of an object *)
Definition truthy (o : pyobj) : bool :=
  match o with
  | PNone => false
  | PBool b => b
  | PInt z => negb (z =? 0)
  | PFloat q => negb (Qeq_bool q 0)
  | PStr s => negb (String.eqb s EmptyString)
  | PDatetime _ => true
  | PStorageType t => negb (StorageType_value t =? 0)
  end.

(** The [namespaces] argument of [getinfo]: callers pass a list, a
    string or nothing. *)
Inductive namespaces : Type :=
| NsNone
| NsStr (s : string)
| NsList (l : list string).

(** [ns in namespaces] *)
Definition ns_in (ns : string) (c : namespaces) : result bool :=
  match c with
  | NsNone => raise TypeError
  | NsStr s => ok (Str.occurs ns s)
  | NsList l => ok (existsb (String.eqb ns) l)
  end.

(** ** Objects of the virtual filesystem *)

Definition ref : Type := nat.

(** [io.BytesIO]: the buffer and the position of the handle. *)
Record BytesIO : Type := mkBytesIO {
  buffer : list byte;
  position : Z;
}.

(** [handle.name]: a [BytesIO] has no such attribute. *)
Definition BytesIO_name (handle : BytesIO) : result pyobj :=
  raise AttributeError.

(** [SgaFsFileV2Mem]: fields [_name], [_modified], [_storage_type],
    [_handle], [_size], [_crc32].  The attributes that [setinfo]
    overwrites with whatever the caller supplies are kept as objects. *)
Record SgaFsFileV2Mem : Type := mkFileMem {
  fm_name : string;
  fm_modified : pyobj;
  fm_storage_type : pyobj;
  fm_handle : BytesIO;
  fm_size : Z;
  fm_crc32 : pyobj;
}.

(** [SgaFsFileV2Lazy]: fields [_info] and [_data_info]. *)
Record SgaFsFileV2Lazy : Type := mkFileLazy {
  fl_info : _SgaTocFileV2;
  fl_data_info : SgaTocFileDataV2Dow;
}.

Inductive file_backing : Type :=
| FileLazy (l : SgaFsFileV2Lazy)
| FileMem (m : SgaFsFileV2Mem).

(** [SgaFsFolderV2Mem]: fields [_name], [_children], [_folders],
    [_files]; the dictionaries hold references. *)
Record SgaFsFolderV2Mem : Type := mkFolderMem {
  dm_name : string;
  dm_children : dict ref;
  dm_folders : dict ref;
  dm_files : dict ref;
}.

(** A decoded folder record of the TOC ([SgaTocFolder]). *)
Record SgaTocFolder : Type := mkTocFolder {
  tf_name_offset : Z;
  tf_first_folder : Z;
  tf_last_folder : Z;
  tf_first_file : Z;
  tf_last_file : Z;
}.

(** [SgaFsFolderV2Lazy]: fields [_info], [_name_window], [_data_window],
    [_all_files], [_all_folders] and the memoized [_files], [_folders]. *)
Record SgaFsFolderV2Lazy : Type := mkFolderLazy {
  dl_info : SgaTocFolder;
  dl_name_window : SgaNameWindow;
  dl_data_window : BinaryWindow;
  dl_all_files : list ref;
  dl_all_folders : list ref;
  dl_files : option (dict ref);
  dl_folders : option (dict ref);
}.

Inductive folder_backing : Type :=
| FolderLazy (l : SgaFsFolderV2Lazy)
| FolderMem (m : SgaFsFolderV2Mem).

(** A decoded drive record of the TOC ([SgaTocDrive]). *)
Record SgaTocDrive : Type := mkTocDrive {
  td_name : string;
  td_alias : string;
  td_root_folder : Z;
}.

(** The objects on the heap, by class.  The wrappers [SgaFsFileV2] and
    [SgaFsFolderV2] carry [_is_lazy] and own their [_backing]. *)
Inductive obj : Type :=
| ONone
| OFile (_is_lazy : bool) (_backing : file_backing)
| OFileMem (m : SgaFsFileV2Mem)
| OFileLazy (l : SgaFsFileV2Lazy)
| OFolder (_is_lazy : bool) (_backing : folder_backing)
| OFolderMem (m : SgaFsFolderV2Mem)
| OFolderLazy (l : SgaFsFolderV2Lazy)
| ODriveMem (_name _alias : string) (_root : ref)
| ODriveLazy (_info : SgaTocDrive) (_all_folders : list ref) (_root : option ref).

(** The state of an [SgaFsV2]: the objects it reaches and its [_drives]
    dictionary. *)
Record state : Type := mkState {
  heap : list obj;
  _drives : dict ref;
}.

(** ** Computations over the state *)

Definition M (A : Type) : Type := state -> result A * state.

Definition ret {A} (a : A) : M A := fun s => (inl a, s).
Definition throw {A} (e : exn) : M A := fun s => (inr e, s).
Definition bindM {A B} (m : M A) (k : A -> M B) : M B :=
  fun s => match m s with
           | (inl a, s') => k a s'
           | (inr e, s') => (inr e, s')
           end.
Definition lift {A} (r : result A) : M A := fun s => (r, s).

(** [try: m  except ...: handler] *)
Definition try_except {A} (m : M A) (handler : exn -> M A) : M A :=
  fun s => match m s with
           | (inl a, s') => (inl a, s')
           | (inr e, s') => handler e s'
           end.

Definition load (r : ref) : M obj :=
  fun s => (inl (nth r (heap s) ONone), s).

Fixpoint replace_nth {A} (n : nat) (l : list A) (x : A) : list A :=
  match l, n with
  | [], _ => []
  | _ :: rest, O => x :: rest
  | y :: rest, S n => y :: replace_nth n rest x
  end.

Definition store (r : ref) (o : obj) : M unit :=
  fun s => (inl tt, mkState (replace_nth r (heap s) o) (_drives s)).

Definition new (o : obj) : M ref :=
  fun s => (inl (length (heap s)), mkState (heap s ++ [o]) (_drives s)).

Definition get_drives : M (dict ref) := fun s => (inl (_drives s), s).
Definition set_drives (d : dict ref) : M unit :=
  fun s => (inl tt, mkState (heap s) d).

Declare Scope fs_scope.
Delimit Scope fs_scope with fs.
Notation "x <- m ;; k" := (bindM m (fun x => k))
  (at level 61, m at next level, right associativity) : fs_scope.
Notation "m ;;; k" := (bindM m (fun _ => k))
  (at level 61, right associativity) : fs_scope.

(** [fs.mode.Mode(mode).writing], on a mode that [Mode] has accepted *)
Definition Mode_writing (mode : string) : bool :=
  Str.contains "w"%char mode || Str.contains "a"%char mode
  || Str.contains "+"%char mode || Str.contains "x"%char mode.

(** [header()]: the value of the [header] property is a header object,
    and neither header class defines [__call__]. *)
Definition call_header (header : SgaTocFileDataHeaderV2DowProtocol)
  : result SgaTocFileDataHeaderV2DowProtocol :=
  raise TypeError.

Definition header_modified (header : SgaTocFileDataHeaderV2DowProtocol) : result Q :=
  match header with
  | LazyHeader w =>
      m <- LazySgaTocFileDataHeaderV2Dow.modified w ;; ok (inject_Z m)
  | MemHeader h => ok (mem_modified h)
  end.

Definition header_crc32 (header : SgaTocFileDataHeaderV2DowProtocol) : result Z :=
  match header with
  | LazyHeader w => LazySgaTocFileDataHeaderV2Dow.crc32 w
  | MemHeader h => ok (mem_crc32 h)
  end.

(** [RelicDateTimeSerializer.unix2datetime(value)] *)
Definition unix2datetime (value : Q) : pyobj := PDatetime value.

(** What [openbin] hands to the [with] block: a window stream of a lazy
    file, or the handle of an in-memory one. *)
Inductive opened : Type :=
| OpenedIO (io : BinaryIO)
| OpenedHandle (handle : BytesIO).

Section Nodes.

(** The environment of the module: the [name] attribute of a TOC file
    record, which its base class in [relic.sga.core] provides or not;
    the CRC32 hasher; the zlib reader; the clock [time.time()]. *)
Variable toc_file_name : _SgaTocFileV2 -> result string.
Variable crc32_hash : list byte -> Z.
Variable zlib_decompress : list byte -> result (list byte).
Variable time_time : Q.

(** [fs.mode.Mode(mode)]: the constructor validates the mode string and
    raises [ValueError] for one it does not accept.  The [fs] package is
    not part of the sources; which strings it accepts is a parameter. *)
Variable Mode_valid : string -> bool.

Definition Mode (mode : string) : result string :=
  if Mode_valid mode then ok mode else raise ValueError.

(** *** [SgaFsFileV2Lazy] *)

(** [SgaFsFileV2Lazy.getinfo(namespaces)] *)
Definition SgaFsFileV2Lazy_getinfo (self : SgaFsFileV2Lazy) (ns : namespaces)
  : result Info :=
  name <- toc_file_name (fl_info self) ;;
  let info := [(NS_BASIC, Namespace (build_ns_basic name false))] in
  with_details <- ns_in NS_DETAILS ns ;;
  info <-
    (if with_details : bool
     then
       header <- call_header (_data_header (fl_data_info self)) ;;
       modified_unix <- header_modified header ;;
       let modified_datetime := unix2datetime modified_unix in
       size <- decompressed_size (fl_info self) ;;
       ok (Dict.set info NS_DETAILS
             (Namespace (build_ns_details ResourceType_file (PInt size)
                           modified_datetime)))
     else ok info) ;;
  with_essence <- ns_in NS_ESSENCE ns ;;
  info <-
    (if with_essence : bool
     then
       header <- call_header (_data_header (fl_data_info self)) ;;
       crc32 <- header_crc32 header ;;
       let info := Dict.set info "crc32" (Value (PInt crc32)) in
       t <- storage_type (fl_info self) ;;
       ok (Dict.set info "storage_type" (Value (PStorageType t)))
     else ok info) ;;
  ok (mkInfo info).

(** [SgaFsFileV2Lazy.setinfo(info)] *)
Definition SgaFsFileV2Lazy_setinfo (self : SgaFsFileV2Lazy)
  (info : dict (dict pyobj)) : result unit :=
  raise RelicToolError.

(** [SgaFsFileV2Lazy.openbin(mode)]: the stream handed to the [with]
    block. *)
Definition SgaFsFileV2Lazy_openbin (self : SgaFsFileV2Lazy) (mode : string)
  : result opened :=
  _mode <- Mode mode ;;
  if Mode_writing _mode then raise RelicToolError
  else
    let data_info := fl_data_info self in
    io <- file_data_data (_toc_file data_info) (_file_data_window data_info)
            true ;;
    ok (OpenedIO io).

(** *** [SgaFsFileV2Mem] *)

(** [SgaFsFileV2Mem.__init__(name, storage_type, data, modified, crc)];
    [data] is the content to write to the new handle, [None] when absent. *)
Definition SgaFsFileV2Mem_init (name : string) (storage_type : option pyobj)
  (data : option (list byte)) (modified : option pyobj) (crc : option pyobj)
  : SgaFsFileV2Mem :=
  let _modified :=
    match modified with
    | Some _ => PFloat time_time
    | None => PNone
    end in
  let _storage_type :=
    match storage_type with
    | Some t => t
    | None => PStorageType STORE
    end in
  let written := match data with None => [] | Some data => data end in
  let _size := Z.of_nat (length written) in  (* _handle.tell() *)
  let _crc32 :=
    match crc with
    | Some crc => crc
    | None => PInt (crc32_hash written)
    end in
  mkFileMem name _modified _storage_type (mkBytesIO written 0) _size _crc32.

(** [SgaFsFileV2Mem.getinfo(namespaces)] *)
Definition SgaFsFileV2Mem_getinfo (self : SgaFsFileV2Mem) (ns : namespaces)
  : result Info :=
  let info := [(NS_BASIC, Namespace (build_ns_basic (fm_name self) false))] in
  with_details <- ns_in NS_DETAILS ns ;;
  info <-
    (if with_details : bool
     then
       size <- BytesIO_name (fm_handle self) ;;
       ok (Dict.set info NS_DETAILS
             (Namespace (build_ns_details ResourceType_file size
                           (fm_modified self))))
     else ok info) ;;
  with_essence <- ns_in NS_ESSENCE ns ;;
  let info :=
    if with_essence : bool
    then
      let info := Dict.set info "crc32" (Value (fm_crc32 self)) in
      Dict.set info "storage_type" (Value (fm_storage_type self))
    else info in
  ok (mkInfo info).

(** [mapping.get(key, default)] *)
Definition get_default (d : dict pyobj) (key : string) (default : pyobj) : pyobj :=
  match Dict.get d key with Some v => v | None => default end.

(** [SgaFsFileV2Mem.setinfo(info)]: the file after the update. *)
Definition SgaFsFileV2Mem_setinfo (self : SgaFsFileV2Mem)
  (info : dict (dict pyobj)) : result SgaFsFileV2Mem :=
  self <-
    match Dict.get info NS_DETAILS with
    | Some details =>
        match Dict.get details "modified" with
        | Some modified =>
            ok (mkFileMem (fm_name self) modified (fm_storage_type self)
                  (fm_handle self) (fm_size self) (fm_crc32 self))
        | None => raise KeyError
        end
    | None => ok self
    end ;;
  match Dict.get info NS_ESSENCE with
  | Some essence =>
      let _crc32 := get_default essence "crc32" (fm_crc32 self) in
      let _storage_type :=
        get_default essence "storage_type" (fm_storage_type self) in
      ok (mkFileMem (fm_name self) (fm_modified self) _storage_type
            (fm_handle self) (fm_size self) _crc32)
  | None => ok self
  end.

(** [SgaFsFileV2Mem.openbin(mode)]: the handle handed to the [with]
    block. *)
Definition SgaFsFileV2Mem_openbin (self : SgaFsFileV2Mem) (mode : string)
  : result opened :=
  _mode <- Mode mode ;;
  ok (OpenedHandle (fm_handle self)).

(** [read_chunks(stream)], all chunks together: what is left to read. *)
Definition read_chunks (stream : opened) : result (list byte) :=
  match stream with
  | OpenedIO io => read_io zlib_decompress io
  | OpenedHandle h => ok (skipn (Z.to_nat (position h)) (buffer h))
  end.

(** [SgaFsFileV2Mem.recalculate_crc32()] *)
Definition SgaFsFileV2Mem_recalculate_crc32 (self : SgaFsFileV2Mem)
  : SgaFsFileV2Mem :=
  let stream := fm_handle self in
  mkFileMem (fm_name self) (fm_modified self) (fm_storage_type self)
    (mkBytesIO (buffer stream) 0) (fm_size self)
    (PInt (crc32_hash (buffer stream))).

(** *** [SgaFsFileV2], the wrapper *)

Local Open Scope fs_scope.

(** [SgaFsFileV2.__init__(lazy, mem)] *)
Definition SgaFsFileV2_init (lazy : option SgaFsFileV2Lazy)
  (mem : option SgaFsFileV2Mem) : M ref :=
  match lazy, mem with
  | Some _, Some _ => throw RelicToolError
  | None, None => throw RelicToolError
  | Some l, None => new (OFile true (FileLazy l))
  | None, Some m => new (OFile false (FileMem m))
  end.

Definition as_file (self : ref) : M (bool * file_backing) :=
  o <- load self ;;
  match o with
  | OFile is_lazy backing => ret (is_lazy, backing)
  | _ => throw AttributeError
  end.

(** [SgaFsFileV2.getinfo(namespaces)] *)
Definition SgaFsFileV2_getinfo (self : ref) (ns : namespaces) : M Info :=
  f <- as_file self ;;
  match snd f with
  | FileLazy l => lift (SgaFsFileV2Lazy_getinfo l ns)
  | FileMem m => lift (SgaFsFileV2Mem_getinfo m ns)
  end.

Definition as_str (o : pyobj) : result string :=
  match o with PStr s => ok s | _ => raise TypeError end.

(** [SgaFsFileV2._convert_to_memfile()] *)
Definition _convert_to_memfile (self : ref) : M unit :=
  f <- as_file self ;;
  let '(is_lazy, backing) := f in
  if negb is_lazy then ret tt
  else
    store self (OFile false backing) ;;;
    info <- SgaFsFileV2_getinfo self (NsList [NS_DETAILS; NS_ESSENCE]) ;;
    data_src <-
      match backing with
      | FileLazy l => lift (SgaFsFileV2Lazy_openbin l "r")
      | FileMem m => lift (SgaFsFileV2Mem_openbin m "r")
      end ;;
    basic <- lift (Info_getitem info NS_BASIC) ;;
    name <- lift (Py.bind (getitem basic "name") as_str) ;;
    essence <- lift (Info_getitem info NS_ESSENCE) ;;
    storage_type <- lift (getitem essence "storage_type") ;;
    details <- lift (Info_getitem info NS_DETAILS) ;;
    modified <- lift (getitem details "modified") ;;
    essence <- lift (Info_getitem info NS_ESSENCE) ;;
    crc <- lift (getitem essence "crc32") ;;
    data <- lift (read_chunks data_src) ;;
    store self
      (OFile false
         (FileMem (SgaFsFileV2Mem_init name (Some storage_type) (Some data)
                     (Some modified) (Some crc)))).

(** [SgaFsFileV2.setinfo(info)].  The method converts and then calls
    itself; [depth] is the number of frames the interpreter still
    allows, and running out of them is a [RecursionError]. *)
Fixpoint SgaFsFileV2_setinfo (depth : nat) (self : ref)
  (info : dict (dict pyobj)) : M unit :=
  match depth with
  | O => throw RecursionError
  | S depth =>
      _convert_to_memfile self ;;;
      SgaFsFileV2_setinfo depth self info
  end.

(** [SgaFsFileV2.recalculate_crc32()] *)
Definition SgaFsFileV2_recalculate_crc32 (self : ref) : M unit :=
  _convert_to_memfile self ;;;
  f <- as_file self ;;
  match snd f with
  | FileLazy l => throw RelicToolError
  | FileMem m =>
      store self (OFile (fst f) (FileMem (SgaFsFileV2Mem_recalculate_crc32 m)))
  end.

(** *** Folders *)

(** [for x in l: body(x)] *)
Definition for_each {A} (l : list A) (body : A -> M unit) : M unit :=
  fold_left (fun acc x => acc ;;; body x) l (ret tt).

(** [l[a:b]] for non-negative bounds *)
Definition pyslice {A} (l : list A) (a b : Z) : list A :=
  firstn (Z.to_nat (b - a)) (skipn (Z.to_nat a) l).

(** [SgaFsFolderV2Mem.__init__(name)] *)
Definition SgaFsFolderV2Mem_init (name : string) : SgaFsFolderV2Mem :=
  mkFolderMem name [] [] [].

(** The dictionary of the folder that [_add_child] receives as
    [alt_lookup]: the object itself, not a copy. *)
Inductive alt_lookup : Type := the_files | the_folders.

Definition alt_dict (self : SgaFsFolderV2Mem) (alt : alt_lookup) : dict ref :=
  match alt with
  | the_files => dm_files self
  | the_folders => dm_folders self
  end.

(** [SgaFsFolderV2Mem._add_child(name, resource, alt_lookup)]: the
    folder after the insertion.  The last error message formats
    [alt_lookup[name]]. *)
Definition _add_child (self : SgaFsFolderV2Mem) (name : string)
  (resource : ref) (alt : alt_lookup) : result SgaFsFolderV2Mem :=
  if Dict.contains (dm_children self) name
  then
    if Dict.contains (dm_files self) name then raise FileExists
    else if Dict.contains (dm_folders self) name then raise DirectoryExists
    else
      match Dict.get (alt_dict self alt) name with
      | None => raise KeyError
      | Some _ => raise ResourceError
      end
  else
    let children := Dict.set (dm_children self) name resource in
    match alt with
    | the_files =>
        ok (mkFolderMem (dm_name self) children (dm_folders self)
              (Dict.set (dm_files self) name resource))
    | the_folders =>
        ok (mkFolderMem (dm_name self) children
              (Dict.set (dm_folders self) name resource) (dm_files self))
    end.

(** [SgaFsFolderV2Mem.folders], [files], [scandir] *)
Definition SgaFsFolderV2Mem_folders (self : SgaFsFolderV2Mem) : list ref :=
  Dict.values (dm_folders self).
Definition SgaFsFolderV2Mem_files (self : SgaFsFolderV2Mem) : list ref :=
  Dict.values (dm_files self).
Definition SgaFsFolderV2Mem_scandir (self : SgaFsFolderV2Mem) : list string :=
  Dict.keys (dm_children self).

(** [SgaFsFolderV2Lazy.name] *)
Definition SgaFsFolderV2Lazy_name (self : SgaFsFolderV2Lazy) : result string :=
  dl_name_window self (tf_name_offset (dl_info self)).

(** [node.name] on any object of the heap.  The wrapper [SgaFsFileV2] and
    the lazy file inherit the property of [_SgaFsFileV2], which raises. *)
Definition node_name (r : ref) : M string :=
  o <- load r ;;
  match o with
  | OFile _ _ | OFileLazy _ => throw NotImplementedError
  | OFileMem m => ret (fm_name m)
  | OFolder _ (FolderMem m) | OFolderMem m => ret (dm_name m)
  | OFolder _ (FolderLazy l) | OFolderLazy l => lift (SgaFsFolderV2Lazy_name l)
  | ODriveMem name _ _ => ret name
  | ODriveLazy info _ _ => ret (td_name info)
  | ONone => throw AttributeError
  end.

(** The folder object behind a reference: a bare backing, or the
    [_backing] of the wrapper [SgaFsFolderV2]. *)
Definition load_folder (r : ref) : M folder_backing :=
  o <- load r ;;
  match o with
  | OFolder _ backing => ret backing
  | OFolderMem m => ret (FolderMem m)
  | OFolderLazy l => ret (FolderLazy l)
  | _ => throw AttributeError
  end.

Definition store_folder (r : ref) (backing : folder_backing) : M unit :=
  o <- load r ;;
  match o with
  | OFolder is_lazy _ => store r (OFolder is_lazy backing)
  | OFolderMem _ | OFolderLazy _ =>
      store r match backing with
              | FolderMem m => OFolderMem m
              | FolderLazy l => OFolderLazy l
              end
  | _ => throw AttributeError
  end.

(** [SgaFsFolderV2Lazy._files_lookup] and [_folder_lookup]: the slice of
    the shared array keyed by name, computed once. *)
Definition by_name (nodes : list ref) : M (dict ref) :=
  fold_left (fun acc f => d <- acc ;; n <- node_name f ;; ret (Dict.set d n f))
            nodes (ret []).

Definition _files_lookup (self : ref) (l : SgaFsFolderV2Lazy) : M (dict ref) :=
  match dl_files l with
  | Some files => ret files
  | None =>
      let info := dl_info l in
      let sub_files :=
        pyslice (dl_all_files l) (tf_first_file info) (tf_last_file info) in
      files <- by_name sub_files ;;
      store_folder self
        (FolderLazy (mkFolderLazy (dl_info l) (dl_name_window l)
                       (dl_data_window l) (dl_all_files l) (dl_all_folders l)
                       (Some files) (dl_folders l))) ;;;
      ret files
  end.

Definition _folder_lookup (self : ref) (l : SgaFsFolderV2Lazy) : M (dict ref) :=
  match dl_folders l with
  | Some folders => ret folders
  | None =>
      let info := dl_info l in
      let sub_folders :=
        pyslice (dl_all_folders l) (tf_first_folder info) (tf_last_folder info) in
      folders <- by_name sub_folders ;;
      store_folder self
        (FolderLazy (mkFolderLazy (dl_info l) (dl_name_window l)
                       (dl_data_window l) (dl_all_files l) (dl_all_folders l)
                       (dl_files l) (Some folders))) ;;;
      ret folders
  end.

(** [folder.get_child(name)] on the folder object behind [self] *)
Definition folder_get_child (self : ref) (name : string) : M (option ref) :=
  backing <- load_folder self ;;
  match backing with
  | FolderMem m => ret (Dict.get (dm_children m) name)
  | FolderLazy l =>
      files <- _files_lookup self l ;;
      if Dict.contains files name then ret (Dict.get files name)
      else
        backing <- load_folder self ;;
        match backing with
        | FolderLazy l =>
            folders <- _folder_lookup self l ;;
            if Dict.contains folders name then ret (Dict.get folders name)
            else ret None
        | FolderMem _ => throw AttributeError
        end
  end.

(** [folder.getinfo(namespace)] on the folder object behind [self] *)
Definition folder_getinfo (self : ref) : M Info :=
  backing <- load_folder self ;;
  match backing with
  | FolderMem m =>
      ret (mkInfo [(NS_BASIC, Namespace (build_ns_basic (dm_name m) true))])
  | FolderLazy l =>
      name <- lift (SgaFsFolderV2Lazy_name l) ;;
      ret (mkInfo [(NS_BASIC, Namespace (build_ns_basic name true))])
  end.

(** [folder.folders] and [folder.files] on the folder object behind
    [self]; the lazy class applies [list] to the bound method [values]
    of its memo. *)
Definition folder_folders (self : ref) : M (list ref) :=
  backing <- load_folder self ;;
  match backing with
  | FolderMem m => ret (SgaFsFolderV2Mem_folders m)
  | FolderLazy l =>
      match dl_folders l with
      | None => throw AttributeError
      | Some _ => throw TypeError
      end
  end.

Definition folder_files (self : ref) : M (list ref) :=
  backing <- load_folder self ;;
  match backing with
  | FolderMem m => ret (SgaFsFolderV2Mem_files m)
  | FolderLazy l =>
      match dl_files l with
      | None => throw AttributeError
      | Some _ => throw TypeError
      end
  end.

(** [add_file] and [add_folder] of the folder object behind [self]:
    [SgaFsFolderV2Mem] hands both to [_add_child] with [self._files];
    [SgaFsFolderV2Lazy] refuses. *)
Definition backing_add_file (self : ref) (file : ref) : M unit :=
  backing <- load_folder self ;;
  match backing with
  | FolderMem _ =>
      name <- node_name file ;;
      backing <- load_folder self ;;
      match backing with
      | FolderMem m =>
          m <- lift (_add_child m name file the_files) ;;
          store_folder self (FolderMem m)
      | FolderLazy _ => throw AttributeError
      end
  | FolderLazy _ => throw RelicToolError
  end.

Definition backing_add_folder (self : ref) (folder : ref) : M unit :=
  backing <- load_folder self ;;
  match backing with
  | FolderMem _ =>
      name <- node_name folder ;;
      backing <- load_folder self ;;
      match backing with
      | FolderMem m =>
          m <- lift (_add_child m name folder the_files) ;;
          store_folder self (FolderMem m)
      | FolderLazy _ => throw AttributeError
      end
  | FolderLazy _ => throw RelicToolError
  end.

(** [SgaFsFolderV2.__init__(lazy, mem)] *)
Definition SgaFsFolderV2_init (lazy : option SgaFsFolderV2Lazy)
  (mem : option SgaFsFolderV2Mem) : M ref :=
  match lazy, mem with
  | Some _, Some _ => throw RelicToolError
  | None, None => throw RelicToolError
  | Some l, None => new (OFolder true (FolderLazy l))
  | None, Some m => new (OFolder false (FolderMem m))
  end.

(** [SgaFsFolderV2._convert_to_memfolder()].  The assignment
    [root = self._backing = SgaFsFolderV2Mem(...)] comes first, so the
    two loops run over the folders and files of the new backing. *)
Definition _convert_to_memfolder (self : ref) : M unit :=
  o <- load self ;;
  match o with
  | OFolder is_lazy backing =>
      if negb is_lazy then ret tt
      else
        store self (OFolder false backing) ;;;
        name <- match backing with
                | FolderMem m => ret (dm_name m)
                | FolderLazy l => lift (SgaFsFolderV2Lazy_name l)
                end ;;
        store self (OFolder false (FolderMem (SgaFsFolderV2Mem_init name))) ;;;
        folders <- folder_folders self ;;
        for_each folders (fun folder => backing_add_folder self folder) ;;;
        files <- folder_files self ;;
        for_each files (fun file => backing_add_file self file)
  | _ => throw AttributeError
  end.

(** [SgaFsFolderV2.add_folder(folder)] *)
Definition SgaFsFolderV2_add_folder (self : ref) (folder : ref) : M unit :=
  _convert_to_memfolder self ;;;
  backing_add_folder self folder.

(** [SgaFsFolderV2.setinfo(info)]: converts, then calls itself. *)
Fixpoint SgaFsFolderV2_setinfo (depth : nat) (self : ref)
  (info : dict (dict pyobj)) : M unit :=
  match depth with
  | O => throw RecursionError
  | S depth =>
      _convert_to_memfolder self ;;;
      SgaFsFolderV2_setinfo depth self info
  end.

(** *** Method calls on a node of unknown class *)

Definition node_getinfo (r : ref) (ns : namespaces) : M Info :=
  o <- load r ;;
  match o with
  | OFile _ _ => SgaFsFileV2_getinfo r ns
  | OFileMem m => lift (SgaFsFileV2Mem_getinfo m ns)
  | OFileLazy l => lift (SgaFsFileV2Lazy_getinfo l ns)
  | OFolder _ _ | OFolderMem _ | OFolderLazy _ => folder_getinfo r
  | ODriveMem _ _ _ | ODriveLazy _ _ _ => throw NotImplementedError
  | ONone => throw AttributeError
  end.

Definition node_get_child (r : ref) (name : string) : M (option ref) :=
  o <- load r ;;
  match o with
  | OFolder _ _ | OFolderMem _ | OFolderLazy _ => folder_get_child r name
  | _ => throw AttributeError
  end.

Definition node_add_folder (r : ref) (folder : ref) : M unit :=
  o <- load r ;;
  match o with
  | OFolder _ _ => SgaFsFolderV2_add_folder r folder
  | OFolderMem _ | OFolderLazy _ => backing_add_folder r folder
  | _ => throw AttributeError
  end.

Definition node_setinfo (depth : nat) (r : ref) (info : dict (dict pyobj))
  : M unit :=
  o <- load r ;;
  match o with
  | OFile _ _ => SgaFsFileV2_setinfo depth r info
  | OFileMem m =>
      m <- lift (SgaFsFileV2Mem_setinfo m info) ;; store r (OFileMem m)
  | OFileLazy l => lift (SgaFsFileV2Lazy_setinfo l info)
  | OFolder _ _ => SgaFsFolderV2_setinfo depth r info
  | OFolderMem _ => throw RelicToolError
  | OFolderLazy _ => ret tt
  | ODriveMem _ _ _ | ODriveLazy _ _ _ => throw NotImplementedError
  | ONone => throw AttributeError
  end.

(** *** Drives *)

(** [SgaFsDriveV2Mem.__init__(name, alias)]: the root is created by
    [SgaFsFolderV2()], without arguments. *)
Definition SgaFsDriveV2Mem_init (name alias : string) : M ref :=
  root <- SgaFsFolderV2_init None None ;;
  new (ODriveMem name alias root).

(** [drive.alias] *)
Definition drive_alias (drive : ref) : M string :=
  o <- load drive ;;
  match o with
  | ODriveMem _ alias _ => ret alias
  | ODriveLazy info _ _ => ret (td_alias info)
  | _ => throw AttributeError
  end.

(** [drive.root]; the lazy drive looks its root folder up once. *)
Definition drive_root (drive : ref) : M ref :=
  o <- load drive ;;
  match o with
  | ODriveMem _ _ root => ret root
  | ODriveLazy info all_folders (Some root) => ret root
  | ODriveLazy info all_folders None =>
      match nth_error all_folders (Z.to_nat (td_root_folder info)) with
      | Some root =>
          store drive (ODriveLazy info all_folders (Some root)) ;;;
          ret root
      | None => throw IndexError
      end
  | _ => throw AttributeError
  end.

(** *** [SgaFsV2] *)

(** What [opendir] returns: a view of the filesystem below a path. *)
Record SubFS : Type := mkSubFS { sub_path : string }.

(** [FS.opendir] is inherited from [fs.base.FS], a parameter here. *)
Variable opendir : string -> M SubFS.

(** [SgaFsV2.add_drive(drive)] *)
Definition add_drive (drive : ref) : M ref :=
  alias <- drive_alias drive ;;
  drives <- get_drives ;;
  if Dict.contains drives alias then throw DriveExistsError
  else
    alias <- drive_alias drive ;;
    set_drives (Dict.set drives alias drive) ;;;
    ret drive.

(** [SgaFsV2.create_drive(name, alias)] *)
Definition create_drive (name alias : string) : M ref :=
  drive <- SgaFsDriveV2Mem_init name alias ;;
  add_drive drive ;;;
  ret drive.

(** [SgaFsV2.drives] *)
Definition drives : M (list ref) :=
  d <- get_drives ;; ret (Dict.values d).

(** [SgaFsV2._getnode_from_drive(drive, path, exists)] *)
Definition _getnode_from_drive (drive : ref) (path : string) (exists_ : bool)
  : M (option ref) :=
  root <- drive_root drive ;;
  parts <- lift (SgaPathResolver.split_parts path) ;;
  current <-
    fold_left
      (fun acc part =>
         current <- acc ;;
         match current with
         | None => throw ResourceNotFound
         | Some node =>
             info <- node_getinfo node (NsStr "basic") ;;
             is_dir <- lift (Info_get info "basic" "is_dir") ;;
             if negb (truthy is_dir) then throw DirectoryExpected
             else node_get_child node part
         end)
      parts (ret (Some root)) ;;
  match current with
  | None => if exists_ then throw ResourceNotFound else ret None
  | Some node => ret (Some node)
  end.

(** The loop of [_getnode] over the drives: the first drive that does
    not answer [ResourceNotFound] decides. *)
Fixpoint first_drive (drives : list ref) (path : string) (exists_ : bool)
  : M (option ref) :=
  match drives with
  | [] => throw ResourceNotFound
  | drive :: rest =>
      try_except (_getnode_from_drive drive path exists_)
        (fun e =>
           if isinstance e ResourceNotFound
           then first_drive rest path exists_
           else throw e)
  end.

(** [SgaFsV2._getnode(path, exists)] *)
Definition _getnode (path : string) (exists_ : bool) : M (option ref) :=
  let '(alias, _path) := SgaPathResolver.parse path in
  match alias with
  | Some alias =>
      d <- get_drives ;;
      match Dict.get d alias with
      | None => throw ResourceNotFound
      | Some drive => _getnode_from_drive drive _path exists_
      end
  | None =>
      ds <- drives ;;
      first_drive ds _path exists_
  end.

(** A method call on the result of [_getnode]; [None] has no methods. *)
Definition on_node {A} (node : option ref) (method : ref -> M A) : M A :=
  match node with
  | Some r => method r
  | None => throw AttributeError
  end.

(** [SgaFsV2.getinfo(path, namespaces)] *)
Definition getinfo (path : string) (ns : namespaces) : M Info :=
  node <- _getnode path true ;;
  on_node node (fun r => node_getinfo r ns).

(** [SgaFsV2.setinfo(path, info)] *)
Definition setinfo (depth : nat) (path : string) (info : dict (dict pyobj))
  : M unit :=
  node <- _getnode path true ;;
  on_node node (fun r => node_setinfo depth r info).

(** [SgaFsV2._get_parent_and_child(path)].  [build] receives the alias
    as its first positional path component. *)
Definition _get_parent_and_child (path : string) : M (ref * string) :=
  let '(alias, _path) := SgaPathResolver.parse path in
  s <- lift (SgaPathResolver.split _path) ;;
  let '(_parent, _child) := s in
  parent_path <- lift (SgaPathResolver.build [alias; Some _parent] None) ;;
  parent <- try_except (_getnode parent_path true) (fun e => throw e) ;;
  on_node parent
    (fun parent =>
       info <- node_getinfo parent (NsStr "basic") ;;
       is_dir <- lift (Info_get info "basic" "is_dir") ;;
       if negb (truthy is_dir) then throw ResourceNotFound
       else ret (parent, _child)).

(** [SgaFsV2.makedir(path, permissions, recreate)] *)
Definition makedir (path : string) (recreate : bool) : M SubFS :=
  let '(alias, _path) := SgaPathResolver.parse path in
  let make_drive (alias : string) : M unit :=
    try_except (create_drive "" alias ;;; ret tt)
      (fun exists_err =>
         if isinstance exists_err DriveExistsError
         then if negb recreate then throw DirectoryExists else ret tt
         else throw exists_err) in
  let make_folder : M unit :=
    pc <- _get_parent_and_child path ;;
    let '(parent, child_name) := pc in
    child <- new (OFolderMem (SgaFsFolderV2Mem_init child_name)) ;;
    try_except (node_add_folder parent child)
      (fun err =>
         if isinstance err DirectoryExists
         then if negb recreate then throw err else ret tt
         else if isinstance err FileExists then throw DirectoryExpected
         else if isinstance err ResourceError then throw err
         else throw err) in
  match alias with
  | Some alias =>
      if String.eqb _path SgaPathResolver.ROOT
      then make_drive alias
      else make_folder
  | None => make_folder
  end ;;;
  opendir path.

(** [SgaFsV2.makedirs(path, permissions, recreate)].  The method ends
    once [current] is bound; it returns [None]. *)
Definition makedirs (path : string) (recreate : bool) : M unit :=
  let '(alias, _path) := SgaPathResolver.parse path in
  alias_path <- lift (SgaPathResolver.build [] alias) ;;
  match alias with
  | Some _ =>
      if recreate
      then current <- makedir alias_path true ;; ret tt
      else current <- opendir alias_path ;; ret tt
  | None =>
      d <- get_drives ;;
      if (length d =? 1)%nat
      then
        p <- lift (SgaPathResolver.build [] (nth_error (Dict.keys d) 0)) ;;
        current <- opendir p ;;
        ret tt
      else if (length d =? 0)%nat then throw OperationFailed
      else throw InvalidPath
  end.

(** *** Listing, opening and removing *)

(** [folder.scandir()] on the folder object behind [self].  The lazy
    class multiplies the key views of its two memos. *)
Definition folder_scandir (self : ref) : M (list string) :=
  backing <- load_folder self ;;
  match backing with
  | FolderMem m => ret (SgaFsFolderV2Mem_scandir m)
  | FolderLazy l =>
      match dl_files l, dl_folders l with
      | Some _, Some _ => throw TypeError
      | _, _ => throw AttributeError
      end
  end.

Definition node_scandir (r : ref) : M (list string) :=
  o <- load r ;;
  match o with
  | OFolder _ _ | OFolderMem _ | OFolderLazy _ => folder_scandir r
  | _ => throw AttributeError
  end.

(** [SgaFsV2.listdir(path)] *)
Definition listdir (path : string) : M (list string) :=
  node <- _getnode path true ;;
  on_node node
    (fun node =>
       info <- node_getinfo node (NsStr "basic") ;;
       is_dir <- lift (Info_get info "basic" "is_dir") ;;
       if negb (truthy is_dir) then throw DirectoryExpected
       else node_scandir node).

(** [SgaFsFileV2.openbin(mode)] *)
Definition SgaFsFileV2_openbin (self : ref) (mode : string) : M opened :=
  _mode <- lift (Mode mode) ;;
  (if Mode_writing _mode then _convert_to_memfile self else ret tt) ;;;
  f <- as_file self ;;
  match snd f with
  | FileLazy l => lift (SgaFsFileV2Lazy_openbin l mode)
  | FileMem m => lift (SgaFsFileV2Mem_openbin m mode)
  end.

(** [node.remove_file(name)] and [node.remove_folder(name)]: no folder
    class overrides the methods of [_SgaFsFolderV2], which raise. *)
Definition node_remove_file (r : ref) (name : string) : M unit :=
  o <- load r ;;
  match o with
  | OFolder _ _ | OFolderMem _ | OFolderLazy _ => throw NotImplementedError
  | _ => throw AttributeError
  end.

Definition node_remove_folder (r : ref) (name : string) : M unit :=
  o <- load r ;;
  match o with
  | OFolder _ _ | OFolderMem _ | OFolderLazy _ => throw NotImplementedError
  | _ => throw AttributeError
  end.

(** [SgaFsV2.remove(path)]: the alias is dropped before the parent is
    looked up. *)
Definition remove (path : string) : M unit :=
  let '(_, path) := SgaPathResolver.parse path in
  if String.eqb path SgaPathResolver.ROOT then throw FileExpected
  else
    pc <- _get_parent_and_child path ;;
    let '(parent, child_name) := pc in
    try_except (node_remove_file parent child_name) (fun e => throw e).

(** [SgaFsV2.removedir(path)] *)
Definition removedir (path : string) : M unit :=
  let '(_, path) := SgaPathResolver.parse path in
  if String.eqb path SgaPathResolver.ROOT then throw RemoveRootError
  else
    pc <- _get_parent_and_child path ;;
    let '(parent, child_name) := pc in
    try_except (node_remove_folder parent child_name) (fun e => throw e).

(** [SgaFsFolderV2.add_file(file)] *)
Definition SgaFsFolderV2_add_file (self : ref) (file : ref) : M unit :=
  _convert_to_memfolder self ;;;
  backing_add_file self file.

End Nodes.

(** ** Sample filesystems *)

Module FsExamples.

(** The TOC record classes of this repository define no [name]. *)
Definition no_name (f : _SgaTocFileV2) : result string := raise AttributeError.

(** A sample of the modes that [Mode] accepts: the strings that start
    with [r], [w], [x] or [a]. *)
Definition modes (mode : string) : bool :=
  match Str.first mode with
  | inl c => Str.contains c "rwxa"
  | inr _ => false
  end.

(** An in-memory file ["hello.txt"] holding [b"hi\n"]. *)
Definition mem_file : SgaFsFileV2Mem :=
  SgaFsFileV2Mem_init Examples.hash Examples.clock
    "hello.txt" None (Some Examples.payload) None None.

(** One node: the wrapper [SgaFsFileV2(mem=mem_file)]. *)
Definition file_state : state :=
  mkState [OFile false (FileMem mem_file)] [].

(** [{"details": {"modified": 1}, "essence": {"crc32": 7}}] *)
Definition new_info : dict (dict pyobj) :=
  [ (NS_DETAILS, [("modified"%string, PInt 1)]);
    (NS_ESSENCE, [("crc32"%string, PInt 7)]) ].

(** Two in-memory folders, ["root"] at 0 and ["x"] at 1, and a second
    folder named ["x"] at 2. *)
Definition folder_state : state :=
  mkState [ OFolderMem (SgaFsFolderV2Mem_init "root");
            OFolderMem (SgaFsFolderV2Mem_init "x");
            OFolderMem (SgaFsFolderV2Mem_init "x") ] [].

(** A filesystem without drives. *)
Definition empty_state : state := mkState [] [].

(** A filesystem loaded from an archive with the single drive
    ["data"]: its root folder (record 0 of the folder table, no
    children) at 0 and the lazy drive at 1. *)
Definition root_folder : SgaFsFolderV2Lazy :=
  mkFolderLazy (mkTocFolder 0 0 0 0 0) (fun _ => ok EmptyString)
    (window_of_bytes Examples.failure []) [] [0%nat] None None.

Definition drive_state : state :=
  mkState [ OFolder true (FolderLazy root_folder);
            ODriveLazy (mkTocDrive "Data" "data" 0) [0%nat] None ]
          [("data"%string, 1%nat)].

End FsExamples.

End Filesystem.
Import Filesystem.
Import Dict.

(* ================================================================== *)
(** * Theorems *)
(* ================================================================== *)

Section BytesFacts.

Lemma Z_of_byte_range (b : byte) : 0 <= Z_of_byte b < 256.
Proof.
  unfold Z_of_byte. pose proof (Byte.to_N_bounded b) as H.
  split; [apply N2Z.is_nonneg|]. lia.
Qed.

Lemma Z_of_byte_of_Z (z : Z) : Z_of_byte (byte_of_Z z) = z mod 256.
Proof.
  unfold Z_of_byte, byte_of_Z.
  assert (Hr : 0 <= z mod 256 < 256) by (apply Z.mod_pos_bound; lia).
  destruct (Byte.of_N (Z.to_N (z mod 256))) as [b|] eqn:E.
  - apply Byte.to_of_N in E. rewrite E. rewrite Z2N.id; lia.
  - apply Byte.of_N_None_iff in E. lia.
Qed.

Lemma byte_of_Z_of_byte (b : byte) : byte_of_Z (Z_of_byte b) = b.
Proof.
  unfold byte_of_Z, Z_of_byte.
  pose proof (Byte.to_N_bounded b) as H.
  rewrite Z.mod_small by lia. rewrite N2Z.id, Byte.of_to_N. reflexivity.
Qed.

Lemma length_le_bytes (n : nat) (v : Z) : length (le_bytes n v) = n.
Proof. revert v; induction n; simpl; intros; [reflexivity | now rewrite IHn]. Qed.

Lemma int_from_bytes_le_range (buf : list byte) :
  0 <= int_from_bytes_le buf < 256 ^ Z.of_nat (length buf).
Proof.
  induction buf as [|b r IH]; [simpl; lia|].
  cbn [int_from_bytes_le length]. rewrite Nat2Z.inj_succ, Z.pow_succ_r by lia.
  pose proof (Z_of_byte_range b). lia.
Qed.

(** Decoding what [le_bytes] produced gives the value modulo [256^n]. *)
Lemma int_from_bytes_le_bytes (n : nat) (v : Z) :
  int_from_bytes_le (le_bytes n v) = v mod 256 ^ Z.of_nat n.
Proof.
  revert v; induction n as [|n IH]; intros v.
  - simpl. now rewrite Z.mod_1_r.
  - cbn [le_bytes int_from_bytes_le]. rewrite IH, Z_of_byte_of_Z.
    rewrite Nat2Z.inj_succ, Z.pow_succ_r by lia.
    rewrite Z.rem_mul_r by lia. reflexivity.
Qed.

Lemma le_bytes_int_from_bytes_le (buf : list byte) :
  le_bytes (length buf) (int_from_bytes_le buf) = buf.
Proof.
  induction buf as [|b r IH]; [reflexivity|].
  cbn [length le_bytes int_from_bytes_le].
  pose proof (Z_of_byte_range b) as Hb. f_equal.
  - rewrite <- (byte_of_Z_of_byte b) at 2. unfold byte_of_Z.
    replace ((Z_of_byte b + 256 * int_from_bytes_le r) mod 256)
      with (Z_of_byte b mod 256); [reflexivity|].
    rewrite (Z.mul_comm 256), Z.mod_add by lia. reflexivity.
  - replace ((Z_of_byte b + 256 * int_from_bytes_le r) / 256)
      with (int_from_bytes_le r); [exact IH|].
    rewrite (Z.mul_comm 256), Z.div_add by lia.
    rewrite (Z.div_small (Z_of_byte b)) by lia. lia.
Qed.

End BytesFacts.

Module RelicUnixTimeSerializerFacts.
Import RelicUnixTimeSerializer.

(** C10.  [pack] writes four little-endian bytes with the signed encoding
    and [unpack] reads them back unsigned: a value in [0, 2^31) is
    returned unchanged, a value in [-2^31, 0) comes back as [v + 2^32]. *)
Theorem unpack_pack (v : Z) :
  (0 <= v < 2 ^ 31 ->
   exists buf, pack v = inl buf /\ length buf = 4%nat /\ unpack buf = v) /\
  (- 2 ^ 31 <= v < 0 ->
   exists buf, pack v = inl buf /\ length buf = 4%nat /\ unpack buf = v + 2 ^ 32).
Proof.
  assert (Hpack : - 2 ^ 31 <= v < 2 ^ 31 ->
                  pack v = inl (le_bytes 4 (v mod 2 ^ 32))).
  { intros Hv. unfold pack, int_to_bytes_le.
    change (8 * Z.of_nat 4) with 32. change (32 - 1) with 31.
    destruct (Z.leb_spec (- 2 ^ 31) v); [|lia].
    destruct (Z.ltb_spec v (2 ^ 31)); [|lia]. reflexivity. }
  assert (Hdec : unpack (le_bytes 4 (v mod 2 ^ 32)) = v mod 2 ^ 32).
  { unfold unpack. rewrite int_from_bytes_le_bytes.
    change (256 ^ Z.of_nat 4) with (2 ^ 32). apply Z.mod_mod. lia. }
  split; intros Hv; exists (le_bytes 4 (v mod 2 ^ 32));
    (split; [apply Hpack; lia | split; [apply length_le_bytes|]]);
    rewrite Hdec.
  - apply Z.mod_small. lia.
  - rewrite <- (Z.mod_add v 1 (2 ^ 32)) by lia.
    apply Z.mod_small. lia.
Qed.

(** The two halves of the claim at 1_700_000_000 and at -1. *)
Lemma unpack_pack_witness :
  (exists buf, pack 1700000000 = inl buf /\ length buf = 4%nat
               /\ unpack buf = 1700000000) /\
  (exists buf, pack (-1) = inl buf /\ length buf = 4%nat
               /\ unpack buf = -1 + 2 ^ 32).
Proof.
  split.
  - apply (proj1 (unpack_pack 1700000000)). lia.
  - apply (proj2 (unpack_pack (-1))). lia.
Defined.

End RelicUnixTimeSerializerFacts.

(* ------------------------------------------------------------------ *)
(** ** Windows *)

Section WindowFacts.

Lemma in_window_spec (w : BinaryWindow) (offset size : Z) :
  in_window w offset size = true <->
  0 <= offset /\ 0 <= size /\ offset + size <= len w /\
  0 <= base w + offset /\
  base w + offset + size <= Z.of_nat (length (stream w)) /\
  lo w <= base w + offset /\
  base w + offset + size <= hi w.
Proof.
  unfold in_window. rewrite !andb_true_iff, !Z.leb_le. tauto.
Qed.

Lemma length_slice (buf : list byte) (offset size : Z) :
  0 <= offset -> 0 <= size -> offset + size <= Z.of_nat (length buf) ->
  length (slice buf offset size) = Z.to_nat size.
Proof.
  intros Ho Hs Hb. unfold slice. rewrite length_firstn, length_skipn. lia.
Qed.

Lemma read_bytes_length (w : BinaryWindow) (offset size : Z) (buf : list byte) :
  read_bytes w offset size = inl buf -> length buf = Z.to_nat size.
Proof.
  unfold read_bytes. destruct (in_window w offset size) eqn:E; [|discriminate].
  apply in_window_spec in E. intros H; injection H as <-.
  apply length_slice; lia.
Qed.

Lemma read_bytes_returns (w : BinaryWindow) (offset size : Z) :
  in_window w offset size = true -> returns (read_bytes w offset size).
Proof. intros H. unfold read_bytes. rewrite H. eexists; reflexivity. Qed.

(** What was written is what is read back from the same slot. *)
Lemma read_bytes_write_bytes (w w' : BinaryWindow) (buf : list byte) (offset size : Z) :
  write_bytes w buf offset size = inl w' ->
  read_bytes w' offset size = inl buf.
Proof.
  unfold write_bytes.
  destruct (in_window w offset size) eqn:E; simpl; [|discriminate].
  destruct (Z.eqb_spec (Z.of_nat (length buf)) size) as [Hl|]; [|discriminate].
  intros H; injection H as <-.
  apply in_window_spec in E. destruct E as (Ho & Hs & Hlen & Hb & Hst).
  set (start := Z.to_nat (base w + offset)) in *.
  assert (Hf : length (firstn start (stream w)) = start)
    by (rewrite length_firstn; lia).
  unfold read_bytes.
  replace (in_window _ offset size) with true.
  2:{ symmetry. apply in_window_spec. cbn [len base stream lo hi].
      rewrite !length_app, Hf, length_skipn. lia. }
  cbn [stream base]. unfold ok, slice. f_equal. fold start.
  rewrite skipn_app, Hf, Nat.sub_diag. cbn [skipn].
  rewrite skipn_all2 by lia. cbn [app].
  rewrite firstn_app. replace (Z.to_nat size - length buf)%nat with 0%nat by lia.
  cbn [firstn]. rewrite app_nil_r. apply firstn_all2. lia.
Qed.

Lemma int_to_bytes_le_unsigned (v : Z) (n : nat) :
  0 <= v < 256 ^ Z.of_nat n ->
  int_to_bytes_le v n false = inl (le_bytes n v).
Proof.
  intros Hv. unfold int_to_bytes_le.
  assert (E : 2 ^ (8 * Z.of_nat n) = 256 ^ Z.of_nat n).
  { change 256 with (2 ^ 8). rewrite <- Z.pow_mul_r by lia. reflexivity. }
  rewrite E. rewrite (Z.mod_small v) by lia.
  destruct n as [|n].
  - change (256 ^ Z.of_nat 0) with 1 in Hv.
    replace v with 0 by lia. reflexivity.
  - destruct (Z.leb_spec 0 v); [|lia].
    destruct (Z.ltb_spec v (256 ^ Z.of_nat (S n))); [|lia]. reflexivity.
Qed.

Lemma int_read_range (w : BinaryWindow) (ptr : Z * Z) (v : Z) :
  int_read w ptr = inl v -> 0 <= v < 256 ^ Z.of_nat (Z.to_nat (snd ptr)).
Proof.
  unfold int_read, bind.
  destruct (read_bytes w (fst ptr) (snd ptr)) as [buf|e] eqn:E; [|discriminate].
  intros H; injection H as <-.
  rewrite <- (read_bytes_length _ _ _ _ E). apply int_from_bytes_le_range.
Qed.

(** An unsigned value that fits the slot is read back as written. *)
Lemma int_read_int_write (w : BinaryWindow) (ptr : Z * Z) (v : Z) :
  returns (int_read w ptr) ->
  0 <= v < 256 ^ Z.of_nat (Z.to_nat (snd ptr)) ->
  exists w', int_write w v ptr = inl w' /\ int_read w' ptr = inl v.
Proof.
  intros [v0 Hr] Hv. unfold int_write.
  rewrite int_to_bytes_le_unsigned by exact Hv. cbn [bind].
  unfold int_read, bind in Hr.
  destruct (read_bytes w (fst ptr) (snd ptr)) as [buf|e] eqn:E; [|discriminate].
  unfold read_bytes in E.
  destruct (in_window w (fst ptr) (snd ptr)) eqn:Ew; [|discriminate].
  pose proof Ew as Ew'. apply in_window_spec in Ew'.
  destruct (write_bytes w (le_bytes (Z.to_nat (snd ptr)) v) (fst ptr) (snd ptr))
    as [w'|e] eqn:Ewr.
  - exists w'. split; [reflexivity|].
    unfold int_read. rewrite (read_bytes_write_bytes _ _ _ _ _ Ewr). cbn [bind].
    unfold ok. f_equal. rewrite int_from_bytes_le_bytes. apply Z.mod_small, Hv.
  - exfalso. unfold write_bytes in Ewr. rewrite Ew, length_le_bytes in Ewr.
    rewrite Z2Nat.id in Ewr by lia. rewrite Z.eqb_refl in Ewr. discriminate.
Qed.

End WindowFacts.

(* ------------------------------------------------------------------ *)
(** ** The storage type in the flags field *)

Section StorageTypeFacts.

Lemma fits_iff_land_ones (x k : Z) :
  0 <= k -> (0 <= x < 2 ^ k <-> Z.land x (Z.ones k) = x).
Proof.
  intros Hk. rewrite Z.land_ones by exact Hk. split.
  - intros H. apply Z.mod_small, H.
  - intros H. rewrite <- H. apply Z.mod_pos_bound. lia.
Qed.

(** Clearing the mask and setting a flag below 256 keeps the width. *)
Lemma set_flag_fits (v flag k : Z) :
  8 <= k -> 0 <= v < 2 ^ k -> 0 <= flag < 256 ->
  0 <= Z.lor (Z.land v (Z.lnot _STORAGE_TYPE_MASK)) flag < 2 ^ k.
Proof.
  intros Hk Hv Hf. apply fits_iff_land_ones; [lia|].
  rewrite Z.land_lor_distr_l.
  rewrite <- Z.land_assoc, (Z.land_comm (Z.lnot _)), Z.land_assoc.
  replace (Z.land v (Z.ones k)) with v
    by (symmetry; apply fits_iff_land_ones; lia).
  replace (Z.land flag (Z.ones k)) with flag; [reflexivity|].
  symmetry. apply fits_iff_land_ones; [lia|].
  split; [lia|]. apply Z.lt_le_trans with (2 ^ 8); [lia|].
  apply Z.pow_le_mono_r; lia.
Qed.

Lemma set_flag_high_nibble (v flag : Z) :
  Z.land (Z.lor (Z.land v (Z.lnot _STORAGE_TYPE_MASK)) flag) _STORAGE_TYPE_MASK
  = Z.land flag _STORAGE_TYPE_MASK.
Proof.
  rewrite Z.land_lor_distr_l, <- Z.land_assoc.
  change (Z.land (Z.lnot _STORAGE_TYPE_MASK) _STORAGE_TYPE_MASK) with 0.
  rewrite Z.land_0_r. reflexivity.
Qed.

Lemma set_flag_low_nibble (v : Z) (t : StorageType) :
  Z.land (Z.lor (Z.land v (Z.lnot _STORAGE_TYPE_MASK))
                (Z.shiftl (StorageType_value t) _STORAGE_TYPE_SHIFT)) 0x0F
  = Z.land v 0x0F.
Proof.
  rewrite Z.land_lor_distr_l, <- Z.land_assoc.
  change (Z.land (Z.lnot _STORAGE_TYPE_MASK) 0x0F) with 0x0F.
  replace (Z.land (Z.shiftl (StorageType_value t) _STORAGE_TYPE_SHIFT) 0x0F)
    with 0 by (destruct t; reflexivity).
  apply Z.lor_0_r.
Qed.

Lemma StorageType_of_value_value (t : StorageType) :
  StorageType_of_value (StorageType_value t) = inl t.
Proof. destruct t; reflexivity. Qed.

Lemma flags_width (c : toc_file_class) :
  c = SgaTocFileV2Dow \/ c = SgaTocFileV2ImpCreatures ->
  snd (_FLAGS c) = 4 \/ snd (_FLAGS c) = 1.
Proof. intros [-> | ->]; [left | right]; reflexivity. Qed.

End StorageTypeFacts.

(** C4, as the claim states it, fails: reading does not always return.
    The record with flags [0x12345678] holds the nibble 7, and the lookup
    [StorageType(7)] raises [ValueError]. *)
Lemma storage_type_unknown_nibble :
  flags Examples.odd_file = inl 0x12345678 /\
  Z.shiftr (Z.land 0x12345678 0xF0) 4 = 7 /\
  storage_type Examples.odd_file = inr ValueError /\
  ~ (exists t, storage_type Examples.odd_file = inl t
               /\ StorageType_value t = Z.shiftr (Z.land 0x12345678 0xF0) 4).
Proof.
  split; [vm_compute; reflexivity|].
  split; [reflexivity|].
  split; [vm_compute; reflexivity|].
  intros (t & Ht & _). vm_compute in Ht. discriminate.
Qed.

(** C4, amended.  For a TOC file record of either dialect whose window
    holds the flags field, and a storage type [t]: reading the storage
    type is [StorageType((flags & 0xF0) >> 4)], which returns the type
    with that value when the nibble is 0, 1 or 2 and raises [ValueError]
    for any other nibble; writing [t] succeeds, reading it back yields
    [t], and the low nibble of the flags is unchanged. *)
Theorem storage_type_roundtrip (self : _SgaTocFileV2) (t : StorageType) (v : Z) :
  cls self = SgaTocFileV2Dow \/ cls self = SgaTocFileV2ImpCreatures ->
  flags self = inl v ->
  storage_type self = StorageType_of_value (Z.shiftr (Z.land v 0xF0) 4) /\
  (forall t0, storage_type self = inl t0 <->
              Z.shiftr (Z.land v 0xF0) 4 = StorageType_value t0) /\
  (2 < Z.shiftr (Z.land v 0xF0) 4 -> storage_type self = inr ValueError) /\
  0 <= Z.shiftr (Z.land v 0xF0) 4 < 16 /\
  exists self' v',
    set_storage_type self t = inl self' /\
    cls self' = cls self /\
    storage_type self' = inl t /\
    flags self' = inl v' /\
    Z.land v' 0x0F = Z.land v 0x0F.
Proof.
  intros Hcls Hv.
  assert (Hread : storage_type self
                  = StorageType_of_value (Z.shiftr (Z.land v 0xF0) 4))
    by (unfold storage_type; rewrite Hv; reflexivity).
  assert (Hnib : 0 <= Z.shiftr (Z.land v 0xF0) 4 < 16).
  { rewrite Z.shiftr_div_pow2 by lia. change (2 ^ 4) with 16.
    assert (0 <= Z.land v 0xF0 < 256).
    { change 0xF0 with (Z.land 0xF0 (Z.ones 8)).
      rewrite Z.land_assoc, Z.land_ones by lia.
      apply Z.mod_pos_bound. lia. }
    split; [apply Z.div_pos; lia | apply Z.div_lt_upper_bound; lia]. }
  split; [exact Hread|]. split; [|split; [|split; [exact Hnib|]]].
  - intros t0. rewrite Hread. unfold StorageType_of_value.
    set (k := Z.shiftr (Z.land v 0xF0) 4) in *.
    destruct (Z.eqb_spec k 0) as [E0|E0];
      [|destruct (Z.eqb_spec k 1) as [E1|E1];
        [|destruct (Z.eqb_spec k 2) as [E2|E2]]];
      destruct t0; cbn [StorageType_value]; unfold ok, raise;
      split; intros H; try congruence; try lia.
  - intros Hbig. rewrite Hread. unfold StorageType_of_value.
    set (k := Z.shiftr (Z.land v 0xF0) 4) in *.
    destruct (Z.eqb_spec k 0); [lia|].
    destruct (Z.eqb_spec k 1); [lia|].
    destruct (Z.eqb_spec k 2); [lia|]. reflexivity.
  - pose proof (int_read_range _ _ _ Hv) as Hrange.
    set (flag := Z.shiftl (StorageType_value t) _STORAGE_TYPE_SHIFT).
    set (v1 := Z.lor (Z.land v (Z.lnot _STORAGE_TYPE_MASK)) flag).
    assert (Hflag : 0 <= flag < 256) by (destruct t; cbv; split; congruence).
    assert (Hfit : 0 <= v1 < 256 ^ Z.of_nat (Z.to_nat (snd (_FLAGS (cls self))))).
    { destruct (flags_width _ Hcls) as [E | E]; rewrite E in Hrange |- *.
      - change (256 ^ Z.of_nat (Z.to_nat 4)) with (2 ^ 32) in *.
        apply set_flag_fits; lia.
      - change (256 ^ Z.of_nat (Z.to_nat 1)) with (2 ^ 8) in *.
        apply set_flag_fits; lia. }
    destruct (int_read_int_write (_serializer self) (_FLAGS (cls self)) v1)
      as (w' & Hw & Hr); [eexists; exact Hv | exact Hfit |].
    exists (mkTocFile (cls self) w'), v1.
    assert (Hset : set_storage_type self t = inl (mkTocFile (cls self) w')).
    { unfold set_storage_type. rewrite Hv. cbn [bind].
      fold flag. fold v1. rewrite Hw. reflexivity. }
    assert (Hflags' : flags (mkTocFile (cls self) w') = inl v1) by exact Hr.
    repeat split; try assumption.
    + unfold storage_type. rewrite Hflags'. cbn [bind].
      unfold v1. rewrite set_flag_high_nibble.
      replace (Z.shiftr (Z.land flag _STORAGE_TYPE_MASK) _STORAGE_TYPE_SHIFT)
        with (StorageType_value t) by (destruct t; reflexivity).
      apply StorageType_of_value_value.
    + apply set_flag_low_nibble.
Qed.

(* ------------------------------------------------------------------ *)
(** ** Detection of the game format *)

Section DetermineGameFacts.

Let step (index : Z) : Z -> Z -> Z :=
  fun smallest ptr =>
    if (index <? ptr) && (ptr <? smallest) then ptr else smallest.

(** The scan keeps the least pointer strictly between [index] and the
    starting bound, and the bound itself when there is none. *)
Lemma scan_smallest (index : Z) (ptrs : list Z) (bound : Z) :
  let r := fold_left (step index) ptrs bound in
  (r = bound \/ (In r ptrs /\ index < r < bound)) /\
  (forall p, In p ptrs -> index < p < bound -> r <= p).
Proof.
  revert bound. induction ptrs as [|p ptrs IH]; intros bound; cbn zeta.
  - split; [left; reflexivity | intros p []].
  - cbn [fold_left].
    assert (Hb : (index < p < bound /\ step index bound p = p) \/
                 (~ index < p < bound /\ step index bound p = bound)).
    { unfold step. destruct (Z.ltb_spec index p); destruct (Z.ltb_spec p bound);
        cbn [andb]; [left | right ..]; split; auto; lia. }
    destruct (IH (step index bound p)) as [IH1 IH2].
    set (b := step index bound p) in *.
    set (r := fold_left (step index) ptrs b) in *.
    cbn [In]. split.
    + destruct Hb as [[Hr Eb] | [Hn Eb]]; rewrite Eb in IH1;
        destruct IH1 as [E | [Hin Hr']]; auto; right; split; auto; lia.
    + intros q [<- | Hq] Hrange.
      * destruct Hb as [[Hr Eb] | [Hn Eb]]; [|lia].
        rewrite Eb in IH1. destruct IH1 as [E | [_ Hr']]; lia.
      * destruct Hb as [[Hr Eb] | [Hn Eb]]; rewrite Eb in IH1, IH2.
        -- destruct (Z.lt_ge_cases q p); [apply IH2; auto; lia|].
           destruct IH1 as [E | [_ Hr']]; lia.
        -- apply IH2; auto.
Qed.

(** The rational quotient [s / c] is the integer [k] exactly when
    [s = k * c]. *)
Lemma quotient_is (k s c : Z) :
  c <> 0 ->
  ((inject_Z s / inject_Z c == inject_Z k)%Q <-> s = k * c).
Proof.
  intros Hc.
  assert (Hc' : ~ (inject_Z c == 0)%Q).
  { change 0%Q with (inject_Z 0). rewrite inject_Z_injective. exact Hc. }
  rewrite <- (Qmult_inj_r _ _ (inject_Z c) Hc').
  rewrite Qmult_comm, Qmult_div_r by exact Hc'.
  rewrite <- inject_Z_mult, inject_Z_injective. reflexivity.
Qed.

Lemma size_test (k s c : Z) :
  c <> 0 ->
  Qeq_bool (inject_Z k) (inject_Z s / inject_Z c) = true <->
  (inject_Z s / inject_Z c == inject_Z k)%Q.
Proof. intros _. rewrite Qeq_bool_iff. split; intros H; symmetry; exact H. Qed.

End DetermineGameFacts.

(** C1.  With [file_block_end] the least table offset strictly between
    the start of the file table and the end of the TOC (the end of the TOC
    when there is none) and [file_block_size] its distance from the start
    of the file table: detection returns [Unknown] for a file count of 0,
    [DawnOfWar] when [file_block_size / file_count] is 20,
    [ImpossibleCreatures] when it is 17, and raises the error of an
    undetermined game format for every other quotient. *)
Theorem determine_game_spec (header : SgaTocHeaderV2) (toc_end : Z) :
  let file_block_start := offset (file header) in
  let file_count := count (file header) in
  let tables := [ offset (folder header); offset (root_folder header);
                  offset (file header); offset (name header) ] in
  let file_block_end :=
    _determine_next_header_block_ptr header toc_end file_block_start in
  let quotient :=
    (inject_Z (file_block_end - file_block_start) / inject_Z file_count)%Q in
  (file_block_end = toc_end \/
   (In file_block_end tables /\ file_block_start < file_block_end < toc_end)) /\
  (forall p, In p tables -> file_block_start < p < toc_end ->
             file_block_end <= p) /\
  (file_count = 0 -> _determine_game header toc_end = inl Unknown) /\
  (file_count <> 0 -> (quotient == 20)%Q ->
   _determine_game header toc_end = inl DawnOfWar) /\
  (file_count <> 0 -> (quotient == 17)%Q ->
   _determine_game header toc_end = inl ImpossibleCreatures) /\
  (file_count <> 0 -> ~ (quotient == 20)%Q -> ~ (quotient == 17)%Q ->
   _determine_game header toc_end = inr RelicToolError).
Proof.
  cbn zeta.
  set (start := offset (file header)). set (n := count (file header)).
  set (e := _determine_next_header_block_ptr header toc_end start).
  pose proof (scan_smallest start
                [ offset (folder header); offset (root_folder header);
                  offset (file header); offset (name header) ] toc_end) as Hscan.
  cbn zeta in Hscan. destruct Hscan as [Hend Hmin].
  split; [exact Hend | split; [exact Hmin |]].
  unfold _determine_game, info. fold start n e.
  split; [intros ->; reflexivity|].
  repeat split; intros Hn; (destruct (Z.eqb_spec n 0) as [|_]; [contradiction|]);
    cbn [GAME_FORMAT_TOC_FILE find snd _SIZE SgaTocFileV2Dow
         SgaTocFileV2ImpCreatures].
  - intros Hq.
    change (_next (_next (_next (_next (_next (0, 4), 4), 4), 4), 4)) with 20.
    rewrite (proj2 (size_test 20 _ _ Hn) Hq). reflexivity.
  - intros Hq.
    change (_next (_next (_next (_next (_next (0, 4), 4), 4), 4), 4)) with 20.
    change (_next (_next (_next (_next (_next (0, 4), 1), 4), 4), 4)) with 17.
    destruct (Qeq_bool (inject_Z 20) _) eqn:E20.
    + exfalso. apply (size_test 20 _ _ Hn) in E20.
      apply (quotient_is 20 _ _ Hn) in E20.
      apply (quotient_is 17 _ _ Hn) in Hq. lia.
    + rewrite (proj2 (size_test 17 _ _ Hn) Hq). reflexivity.
  - intros Hq20 Hq17.
    change (_next (_next (_next (_next (_next (0, 4), 4), 4), 4), 4)) with 20.
    change (_next (_next (_next (_next (_next (0, 4), 1), 4), 4), 4)) with 17.
    destruct (Qeq_bool (inject_Z 20) _) eqn:E20;
      [exfalso; apply Hq20, (size_test 20 _ _ Hn), E20|].
    destruct (Qeq_bool (inject_Z 17) _) eqn:E17;
      [exfalso; apply Hq17, (size_test 17 _ _ Hn), E17|].
    reflexivity.
Qed.

(* ------------------------------------------------------------------ *)
(** ** The expected size of the data block *)

Section ExpectedSizeFacts.

Let add_size : result Z -> _SgaTocFileV2 -> result Z :=
  fun acc file =>
    total <- acc ;; size <- compressed_size file ;; ok (total + size).

Lemma fold_add_size_raise (files : list _SgaTocFileV2) (e : exn) :
  fold_left add_size files (inr e) = inr e.
Proof. induction files as [|f files IH]; [reflexivity | exact IH]. Qed.

(** When the loop over the records returns, every compressed size was
    read and the total is their sum. *)
Lemma fold_add_size_returns (files : list _SgaTocFileV2) (start total : Z) :
  fold_left add_size files (inl start) = inl total ->
  exists sizes,
    Forall2 (fun file size => compressed_size file = inl size) files sizes /\
    total = start + fold_right Z.add 0 sizes.
Proof.
  revert start. induction files as [|f files IH]; intros start; cbn [fold_left].
  - intros H; injection H as <-. exists []. split; [constructor | cbn; lia].
  - unfold add_size at 2. cbn [bind].
    destruct (compressed_size f) as [s|e] eqn:Es; cbn [bind].
    + intros H. destruct (IH _ H) as (sizes & HF & ->).
      exists (s :: sizes). split; [constructor; assumption | cbn; lia].
    + rewrite fold_add_size_raise. discriminate.
Qed.

End ExpectedSizeFacts.

Section ArchiveFacts.

Lemma int_read_inv (w : BinaryWindow) (ptr : Z * Z) (v : Z) :
  int_read w ptr = inl v ->
  in_window w (fst ptr) (snd ptr) = true /\
  v = int_from_bytes_le (slice (stream w) (base w + fst ptr) (snd ptr)).
Proof.
  unfold int_read, read_bytes, bind.
  destruct (in_window w (fst ptr) (snd ptr)); [|discriminate].
  intros H; injection H as <-. split; reflexivity.
Qed.

Lemma Forall2_nth_read {A B} (P : A -> B -> Prop) (l : list A) (l' : list B)
  (a : A) (b : B) (i : nat) :
  Forall2 P l l' -> (i < length l')%nat -> P (nth i l a) (nth i l' b).
Proof.
  intros H. revert i. induction H as [|x y l l' Hxy _ IH]; intros i Hi.
  - cbn in Hi. lia.
  - destruct i as [|i]; [exact Hxy|]. cbn in Hi. apply IH. lia.
Qed.

(** The records of a file area are the windows of one record size laid
    end to end from the area's offset. *)
Lemma area_items_nth (a : SgaTocInfoArea) (files : list _SgaTocFileV2)
  (i : nat) :
  area_items a = inl files ->
  length files = Z.to_nat (area_count a) /\
  ((i < length files)%nat ->
   exists c,
     area_cls a = Some c /\
     nth i files (mkTocFile SgaTocFileV2Dow (area_parent a)) =
     mkTocFile c (sub_window (area_parent a)
                    (area_offset a + Z.of_nat i * _SIZE c) (_SIZE c))).
Proof.
  unfold area_items. destruct (Z.to_nat (area_count a)) as [|n] eqn:En.
  - intros H; injection H as <-. split; [reflexivity|]. cbn. lia.
  - destruct (area_cls a) as [c|]; [|discriminate].
    set (f := fun i0 : nat =>
                mkTocFile c (sub_window (area_parent a)
                               (area_offset a + Z.of_nat i0 * _SIZE c) (_SIZE c))).
    intros H.
    assert (E : map f (seq 0 (S n)) = files)
      by exact (f_equal (fun r => match r with inl x => x | inr _ => files end) H).
    clear H. rewrite <- E. rewrite length_map, length_seq.
    split; [reflexivity|]. intros Hi. exists c. split; [reflexivity|].
    rewrite (nth_indep _ _ (f 0%nat)) by (rewrite length_map, length_seq; exact Hi).
    rewrite map_nth, seq_nth by exact Hi. reflexivity.
Qed.

End ArchiveFacts.

(** C3.  For every archive that [SgaFileV2] parses, the flags are about
    the entries of that archive.  The TOC size and the data offset are
    the integers at bytes 172 and 176; the TOC is the one built over the
    window [180, 180 + toc_size) of the archive; the file area has the
    count of its header and the game format given, or else detected from
    that header; entry [i] is the record of that format's class at
    [offset + i * size] of that window, and its compressed size is the
    integer stored in the archive at the record's compressed-size slot,
    which lies inside the TOC window.  [expected_data_size] is the file
    count times 264 plus the sum of these compressed sizes, the data
    window runs from the data offset to the end of the archive, and the
    two flags are [expected_data_size <= data length] and
    [expected_data_size = data length]. *)
Theorem has_file_data_header_spec
  (SgaTocHeaderV2_init : BinaryWindow -> result SgaTocHeaderV2)
  (name_converter : list byte -> result string)
  (failure : bool -> Z -> Z -> exn)
  (parent : list byte) (game_format : option SgaV2GameFormat)
  (self : SgaFileV2) :
  SgaFileV2_init SgaTocHeaderV2_init name_converter failure parent game_format
  = inl self ->
  exists files sizes data_pos toc_size header,
    area_items (_files (_toc self)) = inl files /\
    Forall2 (fun file size => compressed_size file = inl size) files sizes /\
    int_read (_meta self) Meta.data_pos_ptr = inl data_pos /\
    len (_data_window self) = Z.of_nat (length parent) - data_pos /\
    toc_size = int_from_bytes_le (slice parent 172 4) /\
    data_pos = int_from_bytes_le (slice parent 176 4) /\
    SgaTocHeaderV2_init
      (sub_window (window_of_bytes failure parent) 180 toc_size) = inl header /\
    _header (_toc self) = header /\
    match game_format with
    | Some game => _game_format (_toc self) = game
    | None => _determine_game header toc_size = inl (_game_format (_toc self))
    end /\
    _data_window self =
    sub_window (window_of_bytes failure parent) data_pos
      (Z.of_nat (length parent) - data_pos) /\
    area_len (_files (_toc self)) = count (file header) /\
    length sizes = Z.to_nat (count (file header)) /\
    (forall i, (i < length sizes)%nat ->
       exists c,
         GAME_FORMAT_TOC_FILE_get (_game_format (_toc self)) = Some c /\
         let slot :=
           offset (file header) + Z.of_nat i * _SIZE c + fst (_COMP_SIZE c) in
         0 <= slot /\ slot + 4 <= toc_size /\
         180 + slot + 4 <= Z.of_nat (length parent) /\
         nth i sizes 0 = int_from_bytes_le (slice parent (180 + slot) 4)) /\
    let file_count := area_len (_files (_toc self)) in
    let expected_data_size := file_count * 264 + fold_right Z.add 0 sizes in
    (has_file_data_header self = true <->
     expected_data_size <= len (_data_window self)) /\
    (has_safe_file_data_header self = true <->
     expected_data_size = len (_data_window self)).
Proof.
  unfold SgaFileV2_init. cbn zeta.
  set (p := window_of_bytes failure parent).
  set (meta := sub_window p (fst _META_BLOCK) (snd _META_BLOCK)).
  destruct (int_read meta Meta.toc_size_ptr) as [toc_size|] eqn:Ets;
    cbn [bind]; [|discriminate].
  destruct (int_read meta Meta.data_pos_ptr) as [data_pos|] eqn:Edp;
    cbn [bind]; [|discriminate].
  destruct (SgaTocV2_init _ _ _) as [toc|] eqn:Etoc; cbn [bind]; [|discriminate].
  unfold __determine_expected_data_window_size.
  destruct (area_items (_files toc)) as [files|] eqn:Ef; cbn [bind]; [|discriminate].
  destruct (fold_left _ files (ok 0)) as [total|] eqn:Efold; cbn [bind];
    [|discriminate].
  destruct (meta_name name_converter meta) as [n|]; cbn [bind]; [|discriminate].
  intros H; injection H as <-.
  destruct (fold_add_size_returns files 0 total Efold) as (sizes & HF & ->).
  unfold SgaTocV2_init in Etoc. cbn [bind] in Etoc.
  destruct (SgaTocHeaderV2_init (sub_window p Meta.toc_pos toc_size))
    as [header|] eqn:Eh; cbn [bind] in Etoc; [|discriminate].
  destruct (match game_format with
            | Some game => ok game
            | None => _determine_game header (len (sub_window p Meta.toc_pos toc_size))
            end) as [game|] eqn:Eg; cbn [bind] in Etoc; [|discriminate].
  unfold info in Etoc. injection Etoc as <-.
  exists files, sizes, data_pos, toc_size, header.
  cbn [_toc _meta _data_window has_file_data_header has_safe_file_data_header
       _has_file_data_headers _has_safe_file_data_headers sub_window len
       _header _files _game_format area_len area_count].
  destruct (int_read_inv _ _ _ Ets) as [_ Hts].
  destruct (int_read_inv _ _ _ Edp) as [_ Hdp].
  pose proof (Forall2_length HF) as Hlen.
  pose proof (area_items_nth _ files 0 Ef) as [Hcount _].
  cbn [area_count] in Hcount.
  split; [exact Ef|]. split; [exact HF|]. split; [exact Edp|].
  split; [reflexivity|]. split; [exact Hts|]. split; [exact Hdp|].
  split; [exact Eh|]. split; [reflexivity|].
  split; [destruct game_format as [g|];
          [injection Eg as <-; reflexivity | exact Eg]|].
  split; [reflexivity|].
  split; [reflexivity|]. split; [rewrite <- Hlen; exact Hcount|]. split.
  - intros i Hi.
    destruct (area_items_nth _ files i Ef) as [_ Hnth].
    destruct (Hnth ltac:(lia)) as (c & Hc & Hrec). cbn [area_cls] in Hc.
    exists c. split; [exact Hc|].
    match type of Hrec with
    | nth i files ?d = _ =>
        pose proof (Forall2_nth_read _ _ _ d 0 i HF Hi) as Hread
    end.
    cbn beta in Hread. rewrite Hrec in Hread.
    unfold compressed_size in Hread. cbn [cls _serializer] in Hread.
    destruct (int_read_inv _ _ _ Hread) as [Hin Hval].
    apply in_window_spec in Hin.
    assert (Hsz : snd (_COMP_SIZE c) = 4).
    { unfold GAME_FORMAT_TOC_FILE_get in Hc.
      destruct game; cbn in Hc; try discriminate; injection Hc as <-;
        reflexivity. }
    rewrite Hsz in *.
    unfold p in Hin, Hval.
    cbn [sub_window base len lo hi stream area_parent area_offset
         window_of_bytes _files] in Hin, Hval.
    unfold Meta.toc_pos in *. cbn zeta.
    repeat split; try lia.
    rewrite Hval. f_equal. f_equal. lia.
  - cbn zeta. repeat split.
    + apply Z.leb_le.
    + apply Z.leb_le.
    + apply Z.eqb_eq.
    + apply Z.eqb_eq.
Qed.

(* ------------------------------------------------------------------ *)
(** ** Validity of a data header and its recovery *)

Module DataHeaderFacts.
Import LazySgaTocFileDataHeaderV2Dow.

Lemma in_window_within (w : BinaryWindow) (o s o' s' : Z) :
  in_window w o s = true ->
  0 <= s' -> o <= o' -> o' + s' <= o + s ->
  in_window w o' s' = true.
Proof.
  intros H Hs Ho Hos. apply in_window_spec. apply in_window_spec in H. lia.
Qed.

Lemma read_bytes_inv (w : BinaryWindow) (o s : Z) (buf : list byte) :
  read_bytes w o s = inl buf ->
  in_window w o s = true /\ buf = slice (stream w) (base w + o) s.
Proof.
  unfold read_bytes. destruct (in_window w o s); [|discriminate].
  intros H; injection H as <-. split; reflexivity.
Qed.

Lemma read_bytes_raises (w : BinaryWindow) (o s : Z) (e : exn) :
  read_bytes w o s = inr e ->
  in_window w o s = false /\ e = failure w false (base w + o) s.
Proof.
  unfold read_bytes. destruct (in_window w o s); [discriminate|].
  intros H; injection H as <-. split; reflexivity.
Qed.

(** Inside its window, the CRC32 and the modification time of a header
    always decode, and the name fails only in the ASCII decoder. *)
Lemma crc32_confined (w : BinaryWindow) :
  in_window w 0 264 = true -> returns (crc32 w).
Proof.
  intros H. unfold crc32, int_read, read_bytes.
  cbn [fst snd HeaderMeta.crc_ptr].
  rewrite (in_window_within w 0 264 260 4 H) by lia. eexists; reflexivity.
Qed.

Lemma modified_confined (w : BinaryWindow) :
  in_window w 0 264 = true -> returns (modified w).
Proof.
  intros H. unfold modified, read_bytes.
  cbn [fst snd HeaderMeta.modified_ptr].
  rewrite (in_window_within w 0 264 256 4 H) by lia. eexists; reflexivity.
Qed.

Lemma name_confined (w : BinaryWindow) (e : exn) :
  in_window w 0 264 = true -> name w = inr e -> e = UnicodeDecodeError.
Proof.
  intros H. unfold name, read_bytes. cbn [fst snd HeaderMeta.name_ptr].
  rewrite (in_window_within w 0 264 0 256 H) by lia. unfold ok, bind.
  unfold CStringConverter_ascii_decode, decode_ascii.
  destruct (forallb _ _); [discriminate|].
  intros E; injection E as <-. reflexivity.
Qed.

(** A header whose three fields decode is judged valid. *)
Lemma header_is_valid_decoded (w : BinaryWindow) :
  returns (name w) -> returns (crc32 w) -> returns (modified w) ->
  header_is_valid w = true.
Proof.
  intros [n Hn] [c Hc] [m Hm]. unfold header_is_valid, header_is_valid_of.
  rewrite Hn, Hc, Hm. reflexivity.
Qed.

(** The header is judged invalid exactly when the first field that
    cannot be read fails with a class that its handler lists. *)
Lemma header_is_valid_false_iff (w : BinaryWindow) :
  header_is_valid w = false <->
  (exists e, name w = inr e
             /\ isinstance e RelicToolError || isinstance e UnicodeDecodeError
                = true)
  \/ (returns (name w)
      /\ exists e, crc32 w = inr e /\ isinstance e RelicToolError = true)
  \/ (returns (name w) /\ returns (crc32 w)
      /\ exists e, modified w = inr e /\ isinstance e RelicToolError = true).
Proof.
  unfold header_is_valid, header_is_valid_of, returns.
  destruct (name w) as [n|e] eqn:En.
  - destruct (crc32 w) as [c|e] eqn:Ec.
    + destruct (modified w) as [m|e] eqn:Em.
      * split; [discriminate|].
        intros [(e & He & _) | [(_ & e & He & _) | (_ & _ & e & He & _)]];
          discriminate.
      * destruct (isinstance e RelicToolError) eqn:Ei.
        -- split; [intros _|reflexivity]. right. right.
           repeat split; eauto.
        -- split; [discriminate|].
           intros [(e' & He & _) | [(_ & e' & He & _) | (_ & _ & e' & He & Hi)]];
             try discriminate.
           injection He as <-. congruence.
    + destruct (isinstance e RelicToolError) eqn:Ei.
      * split; [intros _|reflexivity]. right. left. split; eauto.
      * split; [discriminate|].
        intros [(e' & He & _) | [(_ & e' & He & Hi) | (_ & [c Hc] & _)]];
          try discriminate.
        injection He as <-. congruence.
  - destruct (isinstance e RelicToolError || isinstance e UnicodeDecodeError)
      eqn:Ei.
    + split; [intros _|reflexivity]. left. eauto.
    + split; [discriminate|].
      intros [(e' & He & Hi) | [([n Hn] & _) | ([n Hn] & _)]];
        try discriminate.
      injection He as <-. congruence.
Qed.

(** For a header that lies inside its window, validity is the ASCII
    decoding of the name. *)
Lemma header_is_valid_confined (w : BinaryWindow) :
  in_window w 0 264 = true ->
  (header_is_valid w = true <-> returns (name w)).
Proof.
  intros H. split.
  - intros Hv. destruct (name w) as [n|e] eqn:En; [eexists; reflexivity|].
    pose proof (name_confined w e H En) as ->.
    unfold header_is_valid, header_is_valid_of in Hv. rewrite En in Hv.
    discriminate.
  - intros Hn. apply header_is_valid_decoded;
      [exact Hn | apply crc32_confined, H | apply modified_confined, H].
Qed.

(** A header window is confined to the data window: when its three
    fields can be read, the 264 bytes lie inside the data window. *)
Lemma header_confined (data_window : BinaryWindow) (o : Z) :
  returns (name (sub_window data_window o 264)) ->
  returns (crc32 (sub_window data_window o 264)) ->
  0 <= o /\ o + 264 <= len data_window.
Proof.
  intros [n Hn] [c Hc]. unfold name, bind in Hn.
  destruct (read_bytes _ _ _) as [buf|] eqn:E; [|discriminate].
  apply read_bytes_inv in E. destruct E as [E _].
  apply in_window_spec in E.
  apply int_read_inv in Hc. destruct Hc as [Hc _].
  apply in_window_spec in Hc.
  cbn [sub_window base len lo hi stream fst snd HeaderMeta.name_ptr
       HeaderMeta.crc_ptr] in *.
  lia.
Qed.

End DataHeaderFacts.

(** C2, as the claim states it, fails twice.  A header whose name is the
    control character [0x01] is judged valid although the name is not
    printable; and an entry built with [has_safe_data_header] keeps its
    header, here one whose name does not decode, without a validity
    check. *)
Lemma header_valid_not_printable :
  let w := window_of_bytes Examples.failure Examples.control_header in
  ~ (LazySgaTocFileDataHeaderV2Dow.header_is_valid w = true <->
     (exists n, LazySgaTocFileDataHeaderV2Dow.name w = inl n
                /\ printable_ascii n = true)
     /\ returns (LazySgaTocFileDataHeaderV2Dow.crc32 w)
     /\ returns (LazySgaTocFileDataHeaderV2Dow.modified w))
  /\
  let data := window_of_bytes Examples.failure (Examples.corrupt_header ++ Examples.payload) in
  exists w',
    LazySgaTocFileDataHeaderV2Dow.header_is_valid w' = false /\
    SgaTocFileDataV2Dow_init Examples.hash Examples.inflate Examples.clock
      Examples.dow_file Examples.names data true true
    = inl (mkFileData Examples.dow_file Examples.names data (LazyHeader w')).
Proof.
  split.
  - intros [H _].
    assert (Hv : LazySgaTocFileDataHeaderV2Dow.header_is_valid
                   (window_of_bytes Examples.failure Examples.control_header) = true)
      by (vm_compute; reflexivity).
    destruct (H Hv) as ((n & Hn & Hp) & _).
    assert (En : LazySgaTocFileDataHeaderV2Dow.name
                   (window_of_bytes Examples.failure Examples.control_header)
                 = inl (String (ascii_of_byte x01) EmptyString))
      by (vm_compute; reflexivity).
    rewrite En in Hn. injection Hn as <-. vm_compute in Hp. discriminate.
  - eexists. split; [|vm_compute; reflexivity]. vm_compute. reflexivity.
Qed.

(** C2, amended.  An entry built with [has_safe_data_header] keeps the
    header of the data block without a validity check.  An entry built
    without it whose header is not expected or fails the validity check
    gets a synthesized in-memory header: the name from the TOC name pool,
    the CRC32 of the (decompressed) payload, the clock as modification
    time; one whose header is expected and passes keeps it.  A header
    whose name decodes as ASCII and whose CRC32 and modified fields
    decode is judged valid, and it is judged invalid exactly when the
    first field that cannot be read fails with a class its handler lists
    ([RelicToolError], and [UnicodeDecodeError] for the name); for a
    header inside its window this makes validity the ASCII decoding of
    the name.  A header whose fields are read lies inside the data
    window. *)
Theorem data_header_recovery
  (crc32_hash : list byte -> Z) (zlib_decompress : list byte -> result (list byte))
  (now : Q)
  (toc_file : _SgaTocFileV2) (name_window : SgaNameWindow)
  (data_window : BinaryWindow) (d : Z) (n : string) :
  data_offset toc_file = inl d ->
  file_data_name toc_file name_window = inl n ->
  let w := sub_window data_window (d - 264) 264 in
  (forall has_data_header,
     SgaTocFileDataV2Dow_init crc32_hash zlib_decompress now
       toc_file name_window data_window has_data_header true
     = inl (mkFileData toc_file name_window data_window (LazyHeader w)))
  /\
  (LazySgaTocFileDataHeaderV2Dow.header_is_valid w = true ->
   SgaTocFileDataV2Dow_init crc32_hash zlib_decompress now
     toc_file name_window data_window true false
   = inl (mkFileData toc_file name_window data_window (LazyHeader w)))
  /\
  (forall has_data_header io payload,
     has_data_header = false
     \/ LazySgaTocFileDataHeaderV2Dow.header_is_valid w = false ->
     file_data_data toc_file data_window true = inl io ->
     read_io zlib_decompress io = inl payload ->
     SgaTocFileDataV2Dow_init crc32_hash zlib_decompress now
       toc_file name_window data_window has_data_header false
     = inl (mkFileData toc_file name_window data_window
              (MemHeader (mkMemHeader n (crc32_hash payload) now))))
  /\
  (forall w : BinaryWindow,
     (returns (LazySgaTocFileDataHeaderV2Dow.name w) ->
      returns (LazySgaTocFileDataHeaderV2Dow.crc32 w) ->
      returns (LazySgaTocFileDataHeaderV2Dow.modified w) ->
      LazySgaTocFileDataHeaderV2Dow.header_is_valid w = true)
     /\
     (LazySgaTocFileDataHeaderV2Dow.header_is_valid w = false <->
      (exists e, LazySgaTocFileDataHeaderV2Dow.name w = inr e
                 /\ isinstance e RelicToolError
                    || isinstance e UnicodeDecodeError = true)
      \/ (returns (LazySgaTocFileDataHeaderV2Dow.name w)
          /\ exists e, LazySgaTocFileDataHeaderV2Dow.crc32 w = inr e
                       /\ isinstance e RelicToolError = true)
      \/ (returns (LazySgaTocFileDataHeaderV2Dow.name w)
          /\ returns (LazySgaTocFileDataHeaderV2Dow.crc32 w)
          /\ exists e, LazySgaTocFileDataHeaderV2Dow.modified w = inr e
                       /\ isinstance e RelicToolError = true))
     /\
     (in_window w 0 264 = true ->
      returns (LazySgaTocFileDataHeaderV2Dow.crc32 w)
      /\ returns (LazySgaTocFileDataHeaderV2Dow.modified w)
      /\ (LazySgaTocFileDataHeaderV2Dow.header_is_valid w = true <->
          returns (LazySgaTocFileDataHeaderV2Dow.name w))))
  /\
  (returns (LazySgaTocFileDataHeaderV2Dow.name w) ->
   returns (LazySgaTocFileDataHeaderV2Dow.crc32 w) ->
   264 <= d /\ d <= len data_window).
Proof.
  intros Hd Hn w. split; [|split; [|split; [|split]]].
  - intros has_data_header. unfold SgaTocFileDataV2Dow_init.
    rewrite Hd. cbn [bind orb]. rewrite Hn. reflexivity.
  - intros Hv. unfold SgaTocFileDataV2Dow_init. rewrite Hd. cbn [bind].
    change HeaderMeta.SIZE with 264. fold w. rewrite Hv. cbn [orb andb].
    rewrite Hn. reflexivity.
  - intros has_data_header io payload Hor Hio Hp.
    unfold SgaTocFileDataV2Dow_init. rewrite Hd. cbn [bind].
    change HeaderMeta.SIZE with 264. fold w.
    replace (has_data_header
             && LazySgaTocFileDataHeaderV2Dow.header_is_valid w) with false
      by (destruct Hor as [-> | ->]; [reflexivity | now rewrite andb_false_r]).
    cbn [orb]. rewrite Hn. cbn [bind]. rewrite Hio. cbn [bind].
    rewrite Hp. reflexivity.
  - intros w0. split; [|split].
    + apply DataHeaderFacts.header_is_valid_decoded.
    + apply DataHeaderFacts.header_is_valid_false_iff.
    + intros Hin. split; [|split].
      * apply DataHeaderFacts.crc32_confined, Hin.
      * apply DataHeaderFacts.modified_confined, Hin.
      * apply DataHeaderFacts.header_is_valid_confined, Hin.
  - intros Hname Hcrc.
    pose proof (DataHeaderFacts.header_confined data_window (d - 264)
                  Hname Hcrc).
    lia.
Qed.

Lemma data_header_recovery_witness :
  let data := window_of_bytes Examples.failure (Examples.corrupt_header ++ Examples.payload) in
  SgaTocFileDataV2Dow_init Examples.hash Examples.inflate Examples.clock
    Examples.dow_file Examples.names data true false
  = inl (mkFileData Examples.dow_file Examples.names data
           (MemHeader (mkMemHeader "hello.txt"
                         (Examples.hash Examples.payload) Examples.clock))).
Proof.
  cbn zeta.
  apply (proj1 (proj2 (proj2
                  (data_header_recovery Examples.hash Examples.inflate
                     Examples.clock Examples.dow_file Examples.names
                     (window_of_bytes Examples.failure
                        (Examples.corrupt_header ++ Examples.payload))
                     264 "hello.txt" eq_refl eq_refl)))
           true
           (RawWindow (sub_window
                         (window_of_bytes Examples.failure
                            (Examples.corrupt_header ++ Examples.payload))
                         264 3))
           Examples.payload);
    [right; vm_compute; reflexivity | vm_compute; reflexivity ..].
Defined.

(* ------------------------------------------------------------------ *)
(** ** The theorems at the sample records *)

(** The Impossible-Creatures sample record: flags [0x2B] hold
    [DEFLATE_STREAM]; writing [DEFLATE_BUFFER] is read back and keeps the
    low nibble [0xB]. *)
Lemma storage_type_roundtrip_witness :
  storage_type Examples.ic_file
  = StorageType_of_value (Z.shiftr (Z.land 0x2B 0xF0) 4) /\
  exists self' v',
    set_storage_type Examples.ic_file DEFLATE_BUFFER = inl self' /\
    cls self' = cls Examples.ic_file /\
    storage_type self' = inl DEFLATE_BUFFER /\
    flags self' = inl v' /\
    Z.land v' 0x0F = Z.land 0x2B 0x0F.
Proof.
  destruct (storage_type_roundtrip Examples.ic_file DEFLATE_BUFFER 0x2B)
    as (H1 & _ & _ & _ & H2).
  - right. reflexivity.
  - vm_compute. reflexivity.
  - split; [exact H1 | exact H2].
Defined.

(** The four outcomes of detection: no file record; one 20-byte record
    between the file table at 24 and the end of the TOC at 44; two
    17-byte records up to the name pool at 58; two records in 31 bytes. *)
Lemma determine_game_spec_witness :
  _determine_game Examples.empty_toc_header 24 = inl Unknown /\
  _determine_game Examples.toc_header 44 = inl DawnOfWar /\
  _determine_game Examples.ic_toc_header 80 = inl ImpossibleCreatures /\
  _determine_game Examples.odd_toc_header 80 = inr RelicToolError.
Proof.
  split; [|split; [|split]].
  - apply (determine_game_spec Examples.empty_toc_header 24). reflexivity.
  - apply (determine_game_spec Examples.toc_header 44).
    + cbn. discriminate.
    + vm_compute. reflexivity.
  - apply (determine_game_spec Examples.ic_toc_header 80).
    + cbn. discriminate.
    + vm_compute. reflexivity.
  - apply (determine_game_spec Examples.odd_toc_header 80).
    + cbn. discriminate.
    + vm_compute. discriminate.
    + vm_compute. discriminate.
Defined.

(** The sample archive parses; its data block is exactly one header and
    the three payload bytes, so both flags are set. *)
Lemma has_file_data_header_spec_witness :
  exists self,
    SgaFileV2_init Examples.decode_header Examples.decode_name Examples.failure
      Examples.archive None = inl self /\
    has_file_data_header self = true /\
    has_safe_file_data_header self = true /\
    exists sizes data_pos toc_size,
      toc_size = int_from_bytes_le (slice Examples.archive 172 4) /\
      data_pos = int_from_bytes_le (slice Examples.archive 176 4) /\
      len (_data_window self)
      = Z.of_nat (length Examples.archive) - data_pos /\
      length sizes = 1%nat /\
      let file_count := area_len (_files (_toc self)) in
      let expected_data_size := file_count * 264 + fold_right Z.add 0 sizes in
      (has_file_data_header self = true <->
       expected_data_size <= len (_data_window self)) /\
      (has_safe_file_data_header self = true <->
       expected_data_size = len (_data_window self)).
Proof.
  destruct (SgaFileV2_init Examples.decode_header Examples.decode_name
              Examples.failure Examples.archive None)
    as [self|e] eqn:E; [|vm_compute in E; discriminate].
  exists self. split; [reflexivity|].
  split; [|split].
  - vm_compute in E. injection E as <-. reflexivity.
  - vm_compute in E. injection E as <-. reflexivity.
  - destruct (has_file_data_header_spec Examples.decode_header
                Examples.decode_name Examples.failure Examples.archive
                None self E)
      as (files & sizes & data_pos & toc_size & header
          & _ & _ & _ & H4 & H5 & H6 & H7 & _ & _ & _ & _ & H11 & _ & H13).
    exists sizes, data_pos, toc_size.
    split; [exact H5|]. split; [exact H6|]. split; [exact H4|].
    split; [|exact H13].
    rewrite H11. rewrite H5 in H7. vm_compute in H7. injection H7 as <-.
    reflexivity.
Defined.

(* ================================================================== *)
(** * The virtual filesystem *)
(* ================================================================== *)

Section FileNodeFacts.

Variable toc_file_name : _SgaTocFileV2 -> result string.
Variable crc32_hash : list byte -> Z.
Variable zlib_decompress : list byte -> result (list byte).
Variable time_time : Q.
Variable Mode_valid : string -> bool.

Let setinfo_ :=
  SgaFsFileV2_setinfo toc_file_name crc32_hash zlib_decompress time_time
    Mode_valid.
Let convert_ :=
  _convert_to_memfile toc_file_name crc32_hash zlib_decompress time_time
    Mode_valid.

(** Conversion of a node that is not lazy does nothing. *)
Lemma convert_to_memfile_mem (s : state) (self : ref) (backing : file_backing) :
  nth self (heap s) ONone = OFile false backing ->
  convert_ self s = (inl tt, s).
Proof.
  intros H. unfold convert_, _convert_to_memfile, as_file, bindM, load.
  rewrite H. reflexivity.
Qed.

(** On such a node [setinfo] uses up every frame it is given and
    leaves the state as it was. *)
Lemma setinfo_mem_recursion (s : state) (self : ref) (backing : file_backing)
  (info : dict (dict pyobj)) (depth : nat) :
  nth self (heap s) ONone = OFile false backing ->
  setinfo_ depth self info s = (inr RecursionError, s).
Proof.
  intros H. induction depth as [|depth IH]; [reflexivity|].
  unfold setinfo_ in *. cbn [SgaFsFileV2_setinfo]. unfold bindM at 1.
  fold convert_. rewrite (convert_to_memfile_mem _ _ _ H). exact IH.
Qed.

(** Whatever the node, the info and the number of frames: [setinfo]
    ends with an exception. *)
Lemma setinfo_raises (depth : nat) (self : ref) (info : dict (dict pyobj))
  (s : state) :
  exists e s', setinfo_ depth self info s = (inr e, s').
Proof.
  revert s. induction depth as [|depth IH]; intros s.
  - exists RecursionError, s. reflexivity.
  - unfold setinfo_ in *. cbn [SgaFsFileV2_setinfo]. unfold bindM at 1.
    destruct (_convert_to_memfile _ _ _ _ _ self s) as [[[]|e] s'].
    + apply IH.
    + exists e, s'. reflexivity.
Qed.

End FileNodeFacts.

(** C5 (the code departs from the claim).  [SgaFsFileV2.setinfo] calls
    itself after the conversion instead of the backing: for every node it
    ends with an exception, and on the in-memory sample node it exhausts
    the recursion limit and leaves the backing untouched, while
    [SgaFsFileV2Mem.setinfo] on the same backing would store the new
    values. *)
Theorem setinfo_recursion :
  (forall toc_file_name crc32_hash zlib_decompress time_time Mode_valid
          depth self info s,
      exists e s',
        SgaFsFileV2_setinfo toc_file_name crc32_hash zlib_decompress time_time
          Mode_valid depth self info s = (inr e, s')) /\
  (forall Mode_valid depth,
      SgaFsFileV2_setinfo FsExamples.no_name Examples.hash Examples.inflate
        Examples.clock Mode_valid depth 0%nat FsExamples.new_info
        FsExamples.file_state
      = (inr RecursionError, FsExamples.file_state)) /\
  (exists m,
      SgaFsFileV2Mem_setinfo FsExamples.mem_file FsExamples.new_info = inl m /\
      fm_modified m = PInt 1 /\ fm_crc32 m = PInt 7 /\
      fm_storage_type m = PStorageType STORE).
Proof.
  split; [|split].
  - intros. apply setinfo_raises.
  - intros Mode_valid depth.
    apply setinfo_mem_recursion with (backing := FileMem FsExamples.mem_file).
    reflexivity.
  - eexists. split; [vm_compute; reflexivity|]. repeat split.
Qed.

Section FolderFacts.

Lemma dict_get_set {V} (d : dict V) (k : string) (v : V) :
  Dict.get (Dict.set d k v) k = Some v.
Proof.
  induction d as [|[k' v'] d IH]; cbn.
  - now rewrite String.eqb_refl.
  - destruct (String.eqb k' k) eqn:E; cbn; rewrite E; [reflexivity | exact IH].
Qed.

(** Called the way [add_folder] calls it, [_add_child] records the new
    child among the files and never touches the folders. *)
Lemma add_child_the_files (m m' : SgaFsFolderV2Mem) (name : string) (r : ref) :
  _add_child m name r the_files = inl m' ->
  dm_folders m' = dm_folders m /\
  Dict.get (dm_files m') name = Some r /\
  Dict.get (dm_children m') name = Some r.
Proof.
  unfold _add_child.
  destruct (Dict.contains (dm_children m) name).
  - destruct (Dict.contains (dm_files m) name); [discriminate|].
    destruct (Dict.contains (dm_folders m) name); [discriminate|].
    cbn [alt_dict]. destruct (Dict.get (dm_files m) name); discriminate.
  - intros H; injection H as <-. cbn. rewrite !dict_get_set. auto.
Qed.

End FolderFacts.

(** C6 (the code departs from the claim).  On the in-memory folder
    ["root"], [add_folder] of the folder ["x"] succeeds and the child is
    found by name, but it is listed by [files] and not by [folders]; a
    second folder of that name is then refused with [FileExists]. *)
Theorem add_folder_lands_in_files :
  exists s',
    backing_add_folder 0%nat 1%nat FsExamples.folder_state = (inl tt, s') /\
    folder_get_child 0%nat "x" s' = (inl (Some 1%nat), s') /\
    folder_folders 0%nat s' = (inl [], s') /\
    folder_files 0%nat s' = (inl [1%nat], s') /\
    backing_add_folder 0%nat 2%nat s' = (inr FileExists, s').
Proof.
  eexists. split; [vm_compute; reflexivity|].
  repeat split; vm_compute; reflexivity.
Qed.

Section DriveFacts.

Variable toc_file_name : _SgaTocFileV2 -> result string.
Variable opendir : string -> M SubFS.

Lemma SgaFsDriveV2Mem_init_raises (name alias : string) (s : state) :
  SgaFsDriveV2Mem_init name alias s = (inr RelicToolError, s).
Proof. reflexivity. Qed.

Lemma create_drive_raises (name alias : string) (s : state) :
  create_drive name alias s = (inr RelicToolError, s).
Proof. reflexivity. Qed.

(** Every path that names a bare drive root makes [makedir] fail in the
    constructor of the drive, whatever the filesystem holds. *)
Lemma makedir_drive_raises (path alias : string) (recreate : bool) (s : state) :
  SgaPathResolver.parse path = (Some alias, SgaPathResolver.ROOT) ->
  makedir toc_file_name opendir path recreate s = (inr RelicToolError, s).
Proof.
  intros H. unfold makedir. rewrite H. reflexivity.
Qed.

(** Without an alias, [makedirs] picks the drive as documented: none is
    [OperationFailed], several are [InvalidPath], and a single one is
    opened at its root; nothing else follows. *)
Lemma makedirs_without_alias (path : string) (recreate : bool) (s : state) :
  Str.contains ":"%char path = false ->
  makedirs toc_file_name opendir path recreate s =
  match _drives s with
  | [] => (inr OperationFailed, s)
  | [(alias, _)] =>
      bindM (lift (SgaPathResolver.build [] (Some alias)))
            (fun p => bindM (opendir p) (fun _ => ret tt)) s
  | _ => (inr InvalidPath, s)
  end.
Proof.
  intros H. unfold makedirs, SgaPathResolver.parse. rewrite H.
  destruct s as [h d]. destruct d as [|[alias r] [|d2 d]]; reflexivity.
Qed.

End DriveFacts.

(** C7 (the code departs from the claim).  [makedir("data:/")] raises
    [RelicToolError] and creates no drive, with or without [recreate],
    on a filesystem without drives and on one that has the drive
    ["data"]: the drive constructor builds its root with
    [SgaFsFolderV2()], which refuses to be built without a backing.  On
    the filesystem with the drive ["data"], [makedir("data:/x")] looks
    the parent up under ["/"], the alias having gone into [build] as a
    path component, and ends with [ResourceNotFound]. *)
Theorem makedir_drive_root :
  (forall s, SgaFsFolderV2_init None None s = (inr RelicToolError, s)) /\
  (forall toc_file_name opendir recreate,
      makedir toc_file_name opendir "data:/" recreate FsExamples.empty_state
      = (inr RelicToolError, FsExamples.empty_state)) /\
  (forall toc_file_name opendir recreate,
      makedir toc_file_name opendir "data:/" recreate FsExamples.drive_state
      = (inr RelicToolError, FsExamples.drive_state)) /\
  (forall toc_file_name opendir recreate,
      fst (makedir toc_file_name opendir "data:/x" recreate
             FsExamples.drive_state)
      = inr ResourceNotFound).
Proof.
  split; [reflexivity|].
  split; [|split]; intros;
    try (apply makedir_drive_raises with (alias := "data"%string); reflexivity).
  vm_compute. reflexivity.
Qed.

(** C8 (the code departs from the claim).  On the filesystem with the
    one drive ["data"], [makedirs("data:/a/b")] creates nothing: with
    [recreate] it fails in [makedir] of the drive root, without it the
    method only opens ["data:/"] and ends; the folder ["a"] is not found
    in the resulting filesystem. *)
Theorem makedirs_creates_nothing :
  (forall toc_file_name opendir,
      makedirs toc_file_name opendir "data:/a/b" true FsExamples.drive_state
      = (inr RelicToolError, FsExamples.drive_state)) /\
  (forall toc_file_name opendir,
      makedirs toc_file_name opendir "data:/a/b" false FsExamples.drive_state
      = bindM (opendir "data:/"%string) (fun _ => ret tt)
          FsExamples.drive_state) /\
  (forall toc_file_name,
      fst (_getnode toc_file_name "data:/a/b" true FsExamples.drive_state)
      = inr ResourceNotFound).
Proof.
  split; [|split].
  - intros. unfold makedirs.
    change (SgaPathResolver.parse "data:/a/b") with (Some "data"%string, "/a/b"%string).
    cbv iota beta.
    change (SgaPathResolver.build [] (Some "data"%string)) with (@inl string exn "data:/"%string).
    unfold bindM at 1. unfold lift at 1. cbv iota beta.
    unfold bindM at 1.
    rewrite (makedir_drive_raises toc_file_name opendir "data:/"%string
               "data"%string true);
      reflexivity.
  - intros. reflexivity.
  - intros. vm_compute. reflexivity.
Qed.

(** C9 (the code departs from the claim).  Asked for the details
    namespace, the in-memory file reads the size from the attribute
    [name] of its [BytesIO] handle, which does not exist, and the lazy
    file calls the header object: neither returns.  The size the claim
    expects is kept in [_size], three for the sample file. *)
Theorem getinfo_details_raises :
  (forall m : SgaFsFileV2Mem,
      SgaFsFileV2Mem_getinfo m (NsList [NS_DETAILS]) = inr AttributeError) /\
  (forall toc_file_name (l : SgaFsFileV2Lazy),
      exists e, SgaFsFileV2Lazy_getinfo toc_file_name l (NsList [NS_DETAILS]) = inr e) /\
  fm_size FsExamples.mem_file = 3 /\
  buffer (fm_handle FsExamples.mem_file) = Examples.payload.
Proof.
  split; [reflexivity|]. split; [|split; reflexivity].
  intros. unfold SgaFsFileV2Lazy_getinfo.
  destruct (toc_file_name (fl_info l)) as [n|e]; cbn; eauto.
Qed.

(* ================================================================== *)
(** * Further properties of the binary records *)
(* ================================================================== *)

Section SlotFacts.

Lemma slice_write_before (l buf : list byte) (a s b t : nat) :
  (a + s <= length l)%nat -> length buf = s -> (b + t <= a)%nat ->
  firstn t (skipn b (firstn a l ++ buf ++ skipn (a + s) l))
  = firstn t (skipn b l).
Proof.
  intros Hl Hb Hbt.
  assert (Hf : length (firstn a l) = a) by (rewrite length_firstn; lia).
  assert (Hx : forall X : list byte,
             firstn t (skipn b (firstn a l ++ X))
             = firstn t (skipn b (firstn a l))).
  { intros X. rewrite skipn_app, Hf.
    replace (b - a)%nat with 0%nat by lia. cbn [skipn].
    rewrite firstn_app, length_skipn, Hf.
    replace (t - (a - b))%nat with 0%nat by lia. cbn [firstn].
    apply app_nil_r. }
  rewrite Hx. symmetry.
  pattern l at 1. rewrite <- (firstn_skipn a l). apply Hx.
Qed.

Lemma slice_write_after (l buf : list byte) (a s b t : nat) :
  (a + s <= length l)%nat -> length buf = s -> (a + s <= b)%nat ->
  firstn t (skipn b (firstn a l ++ buf ++ skipn (a + s) l))
  = firstn t (skipn b l).
Proof.
  intros Hl Hb Hbt. f_equal.
  assert (Hf : length (firstn a l) = a) by (rewrite length_firstn; lia).
  rewrite app_assoc. rewrite skipn_app.
  rewrite length_app, Hf, Hb.
  rewrite (skipn_all2 (firstn a l ++ buf)) by (rewrite length_app; lia).
  cbn [app]. rewrite skipn_skipn. f_equal. lia.
Qed.

(** A write to one slot of a window is not seen through a slot that
    does not overlap it. *)
Lemma read_bytes_write_bytes_other
  (w w' : BinaryWindow) (buf : list byte) (o1 s1 o2 s2 : Z) :
  write_bytes w buf o1 s1 = inl w' ->
  o2 + s2 <= o1 \/ o1 + s1 <= o2 ->
  read_bytes w' o2 s2 = read_bytes w o2 s2.
Proof.
  unfold write_bytes.
  destruct (in_window w o1 s1) eqn:E; simpl; [|discriminate].
  destruct (Z.eqb_spec (Z.of_nat (length buf)) s1) as [Hl|]; [|discriminate].
  intros H Hd; injection H as <-.
  apply in_window_spec in E. destruct E as (Ho & Hs & Hlen & Hb & Hst).
  set (start := Z.to_nat (base w + o1)) in *.
  assert (Hf : length (firstn start (stream w)) = start)
    by (rewrite length_firstn; lia).
  unfold read_bytes.
  assert (Hin : in_window
                  {| stream := firstn start (stream w) ++ buf
                               ++ skipn (start + Z.to_nat s1) (stream w);
                     base := base w; len := len w; lo := lo w; hi := hi w;
                     failure := failure w |} o2 s2
                = in_window w o2 s2).
  { unfold in_window. cbn [stream base len lo hi].
    rewrite !length_app, Hf, length_skipn.
    replace (Z.of_nat (start + (length buf + (length (stream w)
                                 - (start + Z.to_nat s1)))))
      with (Z.of_nat (length (stream w))) by lia.
    reflexivity. }
  rewrite Hin. destruct (in_window w o2 s2) eqn:E2; [|reflexivity].
  apply in_window_spec in E2. destruct E2 as (Ho2 & Hs2 & Hlen2 & Hb2 & Hst2).
  cbn [stream base failure]. unfold ok, slice. f_equal.
  destruct Hd as [Hd | Hd].
  - apply slice_write_before; lia.
  - apply slice_write_after; lia.
Qed.

Lemma int_read_int_write_other (w w' : BinaryWindow) (v : Z) (p q : Z * Z) :
  int_write w v p = inl w' ->
  fst q + snd q <= fst p \/ fst p + snd p <= fst q ->
  int_read w' q = int_read w q.
Proof.
  unfold int_write, bind.
  destruct (int_to_bytes_le v (Z.to_nat (snd p)) false) as [buf|]; [|discriminate].
  intros Hw Hd. unfold int_read.
  rewrite (read_bytes_write_bytes_other _ _ _ _ _ _ _ Hw Hd). reflexivity.
Qed.

(** Two different slots of a record class do not overlap. *)
Lemma slots_disjoint (c : toc_file_class) (p q : Z * Z) :
  c = SgaTocFileV2Dow \/ c = SgaTocFileV2ImpCreatures ->
  In p (slots c) -> In q (slots c) -> p <> q ->
  fst q + snd q <= fst p \/ fst p + snd p <= fst q.
Proof.
  intros [-> | ->] Hp Hq Hne; cbn in Hp, Hq;
    repeat (destruct Hp as [<- | Hp]; [|]); try contradiction;
    repeat (destruct Hq as [<- | Hq]; [|]); try contradiction;
    try (exfalso; apply Hne; reflexivity); cbn; lia.
Qed.

Lemma int_write_overflow (w : BinaryWindow) (v : Z) (p : Z * Z) :
  0 < snd p -> v < 0 \/ 256 ^ snd p <= v ->
  int_write w v p = inr OverflowError.
Proof.
  intros Hp Hv. unfold int_write, int_to_bytes_le.
  destruct (Z.to_nat (snd p)) as [|n] eqn:En; [lia|]. rewrite <- En.
  rewrite Z2Nat.id by lia.
  replace (2 ^ (8 * snd p)) with (256 ^ snd p)
    by (change 256 with (2 ^ 8); rewrite <- Z.pow_mul_r by lia; reflexivity).
  destruct (Z.leb_spec 0 v); destruct (Z.ltb_spec v (256 ^ snd p));
    cbn; try reflexivity; lia.
Qed.

(** A write to one slot of a record is not seen by a read of another. *)
Lemma slot_kept (self : _SgaTocFileV2) (p q : Z * Z) (v : Z)
  (w' : BinaryWindow) :
  cls self = SgaTocFileV2Dow \/ cls self = SgaTocFileV2ImpCreatures ->
  In p (slots (cls self)) -> In q (slots (cls self)) -> p <> q ->
  int_write (_serializer self) v p = inl w' ->
  int_read w' q = int_read (_serializer self) q.
Proof.
  intros Hc Hp Hq Hne Hw.
  apply (int_read_int_write_other _ _ _ _ _ Hw).
  apply (slots_disjoint _ _ _ Hc Hp Hq Hne).
Qed.

End SlotFacts.

(** X1.  Writing any slot of a TOC file record (name offset, flags, data
    offset, compressed size, decompressed size), in either dialect, leaves
    what every other slot reads unchanged; in particular writing the
    storage type keeps the four integer fields. *)
Theorem slots_independent (self : _SgaTocFileV2) (p q : Z * Z) (v : Z)
  (w' : BinaryWindow) :
  cls self = SgaTocFileV2Dow \/ cls self = SgaTocFileV2ImpCreatures ->
  In p (slots (cls self)) -> In q (slots (cls self)) -> p <> q ->
  int_write (_serializer self) v p = inl w' ->
  int_read w' q = int_read (_serializer self) q.
Proof. exact (slot_kept self p q v w'). Qed.

(** X2.  Writing the storage type of a record of either dialect leaves
    its name offset, data offset, compressed size and decompressed size
    as they were. *)
Theorem set_storage_type_keeps_fields (self self' : _SgaTocFileV2)
  (t : StorageType) :
  cls self = SgaTocFileV2Dow \/ cls self = SgaTocFileV2ImpCreatures ->
  set_storage_type self t = inl self' ->
  name_offset self' = name_offset self /\
  data_offset self' = data_offset self /\
  compressed_size self' = compressed_size self /\
  decompressed_size self' = decompressed_size self.
Proof.
  intros Hc. unfold set_storage_type, bind.
  destruct (flags self) as [v|]; [|discriminate].
  destruct (int_write _ _ _) as [w'|] eqn:Hw; [|discriminate].
  intros H; injection H as <-.
  unfold name_offset, data_offset, compressed_size, decompressed_size.
  cbn [cls _serializer].
  repeat split;
    refine (slot_kept self (_FLAGS (cls self)) _ _ _ Hc _ _ _ Hw);
    try (cbn; tauto); destruct Hc as [-> | ->]; cbn; congruence.
Qed.

Section FieldFacts.

Lemma slot_width (c : toc_file_class) (p : Z * Z) :
  c = SgaTocFileV2Dow \/ c = SgaTocFileV2ImpCreatures ->
  In p [ _NAME_OFFSET c; _DATA_OFFSET c; _COMP_SIZE c; _DECOMP_SIZE c ] ->
  snd p = 4.
Proof.
  intros [-> | ->] H; cbn in H;
    repeat (destruct H as [<- | H]; [reflexivity|]); contradiction.
Qed.

End FieldFacts.

(** X3.  The four integer fields of a TOC file record are unsigned
    32-bit slots: on a record whose window holds the field, a value in
    [0, 2^32) is written and read back unchanged, and any other value is
    refused with [OverflowError]. *)
Theorem int_field_roundtrip (self : _SgaTocFileV2) (p : Z * Z) (v : Z) :
  cls self = SgaTocFileV2Dow \/ cls self = SgaTocFileV2ImpCreatures ->
  In p [ _NAME_OFFSET (cls self); _DATA_OFFSET (cls self);
         _COMP_SIZE (cls self); _DECOMP_SIZE (cls self) ] ->
  returns (int_read (_serializer self) p) ->
  (0 <= v < 2 ^ 32 ->
   exists w', int_write (_serializer self) v p = inl w'
              /\ int_read w' p = inl v) /\
  (v < 0 \/ 2 ^ 32 <= v ->
   int_write (_serializer self) v p = inr OverflowError).
Proof.
  intros Hc Hp Hr. pose proof (slot_width _ _ Hc Hp) as Hw. split.
  - intros Hv. apply int_read_int_write; [exact Hr|].
    rewrite Hw. exact Hv.
  - intros Hv. apply int_write_overflow; rewrite Hw; [lia | exact Hv].
Qed.

Lemma int_field_roundtrip_witness :
  (exists w', int_write (_serializer Examples.dow_file) 4096
                (_DATA_OFFSET SgaTocFileV2Dow) = inl w'
              /\ int_read w' (_DATA_OFFSET SgaTocFileV2Dow) = inl 4096) /\
  int_write (_serializer Examples.dow_file) (2 ^ 32)
    (_DATA_OFFSET SgaTocFileV2Dow) = inr OverflowError.
Proof.
  assert (Hc : cls Examples.dow_file = SgaTocFileV2Dow \/
               cls Examples.dow_file = SgaTocFileV2ImpCreatures)
    by (left; reflexivity).
  assert (Hp : In (_DATA_OFFSET SgaTocFileV2Dow)
                 [ _NAME_OFFSET (cls Examples.dow_file);
                   _DATA_OFFSET (cls Examples.dow_file);
                   _COMP_SIZE (cls Examples.dow_file);
                   _DECOMP_SIZE (cls Examples.dow_file) ])
    by (right; left; reflexivity).
  assert (Hr : returns (int_read (_serializer Examples.dow_file)
                          (_DATA_OFFSET SgaTocFileV2Dow)))
    by (eexists; vm_compute; reflexivity).
  split.
  - apply (int_field_roundtrip Examples.dow_file _ 4096 Hc Hp Hr). lia.
  - apply (int_field_roundtrip Examples.dow_file _ (2 ^ 32) Hc Hp Hr). lia.
Defined.

Lemma slots_independent_witness :
  exists w',
    int_write (_serializer Examples.ic_file) 4096
      (_DATA_OFFSET SgaTocFileV2ImpCreatures) = inl w' /\
    int_read w' (_FLAGS SgaTocFileV2ImpCreatures)
    = int_read (_serializer Examples.ic_file) (_FLAGS SgaTocFileV2ImpCreatures).
Proof.
  destruct (int_write (_serializer Examples.ic_file) 4096
              (_DATA_OFFSET SgaTocFileV2ImpCreatures)) as [w'|e] eqn:E;
    [|vm_compute in E; discriminate].
  exists w'. split; [reflexivity|].
  apply (slots_independent Examples.ic_file
           (_DATA_OFFSET SgaTocFileV2ImpCreatures)
           (_FLAGS SgaTocFileV2ImpCreatures) 4096 w').
  - right. reflexivity.
  - cbn. tauto.
  - cbn. tauto.
  - cbn. congruence.
  - exact E.
Defined.

Lemma set_storage_type_keeps_fields_witness :
  exists self',
    set_storage_type Examples.dow_file DEFLATE_STREAM = inl self' /\
    name_offset self' = name_offset Examples.dow_file /\
    data_offset self' = data_offset Examples.dow_file /\
    compressed_size self' = compressed_size Examples.dow_file /\
    decompressed_size self' = decompressed_size Examples.dow_file.
Proof.
  destruct (set_storage_type Examples.dow_file DEFLATE_STREAM) as [self'|e] eqn:E;
    [|vm_compute in E; discriminate].
  exists self'. split; [reflexivity|].
  apply (set_storage_type_keeps_fields Examples.dow_file self' DEFLATE_STREAM).
  - left. reflexivity.
  - exact E.
Defined.

(** X4.  Writing back what was read: for every four-byte buffer,
    [pack (unpack buffer)] is the buffer itself when the value read is
    below 2^31, and an [OverflowError] when it is 2^31 or more. *)
Theorem pack_unpack (buffer : list byte) :
  length buffer = 4%nat ->
  let v := RelicUnixTimeSerializer.unpack buffer in
  0 <= v < 2 ^ 32 /\
  (v < 2 ^ 31 -> RelicUnixTimeSerializer.pack v = inl buffer) /\
  (2 ^ 31 <= v -> RelicUnixTimeSerializer.pack v = inr OverflowError).
Proof.
  intros Hl. cbn zeta. unfold RelicUnixTimeSerializer.unpack.
  pose proof (int_from_bytes_le_range buffer) as Hr. rewrite Hl in Hr.
  change (256 ^ Z.of_nat 4) with (2 ^ 32) in Hr.
  set (v := int_from_bytes_le buffer) in *.
  split; [exact Hr|].
  unfold RelicUnixTimeSerializer.pack, int_to_bytes_le.
  change (8 * Z.of_nat 4) with 32. change (32 - 1) with 31.
  destruct (Z.leb_spec (- 2 ^ 31) v); [|lia].
  destruct (Z.ltb_spec v (2 ^ 31)); cbn [andb]; split; intros Hv; try lia.
  - rewrite Z.mod_small by lia. unfold ok. f_equal.
    rewrite <- Hl. apply le_bytes_int_from_bytes_le.
  - reflexivity.
Qed.

Lemma pack_unpack_witness :
  let buffer := [x00; xf1; x53; x65] in
  let v := RelicUnixTimeSerializer.unpack buffer in
  0 <= v < 2 ^ 32 /\
  (v < 2 ^ 31 -> RelicUnixTimeSerializer.pack v = inl buffer) /\
  (2 ^ 31 <= v -> RelicUnixTimeSerializer.pack v = inr OverflowError).
Proof.
  apply (pack_unpack [x00; xf1; x53; x65]). reflexivity.
Defined.

(** X5.  [get_valid_header]: for a header judged invalid it returns the
    header synthesized from the name and data supplied; when the three
    fields decode it returns the header made of them; inside its window
    it always returns.  It raises only when the header was judged valid
    through the outer handler of [header_is_valid]: then the read that
    failed there fails again, with a class its handler does not list. *)
Theorem get_valid_header_spec
  (crc32_hash : list byte -> Z) (now : Q)
  (self : BinaryWindow) (name : string) (data : list byte)
  (modified : option Q) :
  let result := get_valid_header crc32_hash now self name data modified in
  (LazySgaTocFileDataHeaderV2Dow.header_is_valid self = false ->
   result = inl (create crc32_hash now name data modified)) /\
  (forall n c m,
     LazySgaTocFileDataHeaderV2Dow.name self = inl n ->
     LazySgaTocFileDataHeaderV2Dow.crc32 self = inl c ->
     LazySgaTocFileDataHeaderV2Dow.modified self = inl m ->
     LazySgaTocFileDataHeaderV2Dow.header_is_valid self = true /\
     result = inl (mkMemHeader n c (inject_Z m))) /\
  (in_window self 0 264 = true -> returns result) /\
  (forall e,
     result = inr e ->
     LazySgaTocFileDataHeaderV2Dow.header_is_valid self = true /\
     in_window self 0 264 = false /\
     isinstance e RelicToolError = false /\
     ((LazySgaTocFileDataHeaderV2Dow.name self = inr e
       /\ isinstance e UnicodeDecodeError = false)
      \/ (returns (LazySgaTocFileDataHeaderV2Dow.name self)
          /\ LazySgaTocFileDataHeaderV2Dow.crc32 self = inr e)
      \/ (returns (LazySgaTocFileDataHeaderV2Dow.name self)
          /\ returns (LazySgaTocFileDataHeaderV2Dow.crc32 self)
          /\ LazySgaTocFileDataHeaderV2Dow.modified self = inr e))).
Proof.
  cbn zeta. unfold get_valid_header.
  split; [|split; [|split]].
  - intros ->. reflexivity.
  - intros n c m Hn Hc Hm.
    rewrite (DataHeaderFacts.header_is_valid_decoded self)
      by (eexists; eassumption).
    rewrite Hn, Hc, Hm. split; reflexivity.
  - intros Hin.
    destruct (LazySgaTocFileDataHeaderV2Dow.header_is_valid self) eqn:Hv;
      [|eexists; reflexivity].
    apply (DataHeaderFacts.header_is_valid_confined self Hin) in Hv.
    destruct Hv as [n Hn].
    destruct (DataHeaderFacts.crc32_confined self Hin) as [c Hc].
    destruct (DataHeaderFacts.modified_confined self Hin) as [m Hm].
    rewrite Hn, Hc, Hm. eexists; reflexivity.
  - intros e.
    destruct (in_window self 0 264) eqn:Hin.
    { destruct (LazySgaTocFileDataHeaderV2Dow.header_is_valid self) eqn:Hv;
        [|discriminate].
      apply (DataHeaderFacts.header_is_valid_confined self Hin) in Hv.
      destruct Hv as [n Hn].
      destruct (DataHeaderFacts.crc32_confined self Hin) as [c Hc].
      destruct (DataHeaderFacts.modified_confined self Hin) as [m Hm].
      rewrite Hn, Hc, Hm. discriminate. }
    unfold LazySgaTocFileDataHeaderV2Dow.header_is_valid,
      LazySgaTocFileDataHeaderV2Dow.header_is_valid_of, returns.
    destruct (LazySgaTocFileDataHeaderV2Dow.name self) as [n|e1].
    + destruct (LazySgaTocFileDataHeaderV2Dow.crc32 self) as [c|e2].
      * destruct (LazySgaTocFileDataHeaderV2Dow.modified self) as [m|e3].
        -- discriminate.
        -- destruct (isinstance e3 RelicToolError) eqn:E3; [discriminate|].
           cbn [bind]. intros H; injection H as <-.
           repeat split; try assumption.
           right; right. repeat split; eexists; reflexivity.
      * destruct (isinstance e2 RelicToolError) eqn:E2; [discriminate|].
        cbn [bind]. intros H; injection H as <-.
        repeat split; try assumption.
        right; left. split; [eexists|]; reflexivity.
    + destruct (isinstance e1 RelicToolError) eqn:E1; cbn [orb];
        [discriminate|].
      destruct (isinstance e1 UnicodeDecodeError) eqn:E1'; [discriminate|].
      cbn [bind]. intros H; injection H as <-.
      repeat split; try assumption.
      left. split; [reflexivity|assumption].
Qed.

Lemma get_valid_header_spec_witness :
  get_valid_header Examples.hash Examples.clock
    (window_of_bytes Examples.failure Examples.corrupt_header) "a.txt"
    Examples.payload None
  = inl (create Examples.hash Examples.clock "a.txt" Examples.payload None)
  /\
  returns (get_valid_header Examples.hash Examples.clock
             (window_of_bytes Examples.failure Examples.control_header)
             "a.txt" Examples.payload None)
  /\
  let short := window_of_bytes (fun _ _ _ => ValueError) [] in
  get_valid_header Examples.hash Examples.clock short "a.txt"
    Examples.payload None = inr ValueError /\
  LazySgaTocFileDataHeaderV2Dow.header_is_valid short = true.
Proof.
  split; [|split; [|split; [reflexivity|]]].
  - apply (proj1 (get_valid_header_spec Examples.hash Examples.clock
                    (window_of_bytes Examples.failure Examples.corrupt_header)
                    "a.txt" Examples.payload None)).
    vm_compute. reflexivity.
  - apply (proj1 (proj2 (proj2
             (get_valid_header_spec Examples.hash Examples.clock
                (window_of_bytes Examples.failure Examples.control_header)
                "a.txt" Examples.payload None)))).
    vm_compute. reflexivity.
  - apply (proj2 (proj2 (proj2
             (get_valid_header_spec Examples.hash Examples.clock
                (window_of_bytes (fun _ _ _ => ValueError) [])
                "a.txt" Examples.payload None))) ValueError).
    reflexivity.
Defined.

(** X6.  The payload of a stored file: when the record says [STORE] and
    [data_offset .. data_offset + compressed_size) lies in the data
    window, [data(True)] is the raw window and reading it yields exactly
    those [compressed_size] bytes, the decompressor not being consulted;
    and [data(False)] is the raw window whatever the flags hold. *)
Theorem stored_payload
  (zlib_decompress : list byte -> result (list byte))
  (toc_file : _SgaTocFileV2) (data_window : BinaryWindow) (d c : Z) :
  data_offset toc_file = inl d ->
  compressed_size toc_file = inl c ->
  in_window data_window d c = true ->
  file_data_data toc_file data_window false
  = inl (RawWindow (sub_window data_window d c)) /\
  (storage_type toc_file = inl STORE ->
   exists io,
     file_data_data toc_file data_window true = inl io /\
     read_io zlib_decompress io
     = inl (slice (stream data_window) (base data_window + d) c) /\
     length (slice (stream data_window) (base data_window + d) c)
     = Z.to_nat c).
Proof.
  intros Hd Hc Hin. unfold file_data_data. rewrite Hd, Hc. cbn [bind].
  split; [reflexivity|]. intros Hs. rewrite Hs. cbn [bind].
  eexists. split; [reflexivity|].
  apply in_window_spec in Hin. destruct Hin as (H1 & H2 & H3 & H4 & H5).
  split.
  - cbn [read_io]. unfold read_all, read_bytes.
    replace (in_window (sub_window data_window d c) 0 (len (sub_window data_window d c)))
      with true.
    + cbn [sub_window stream base len]. rewrite Z.add_0_r. reflexivity.
    + symmetry. apply in_window_spec.
      cbn [sub_window stream base len lo hi]. lia.
  - apply length_slice; lia.
Qed.

Lemma stored_payload_witness :
  let data := window_of_bytes Examples.failure (Examples.control_header ++ Examples.payload) in
  file_data_data Examples.dow_file data false
  = inl (RawWindow (sub_window data 264 3)) /\
  (storage_type Examples.dow_file = inl STORE ->
   exists io,
     file_data_data Examples.dow_file data true = inl io /\
     read_io Examples.inflate io = inl (slice (stream data) (base data + 264) 3) /\
     length (slice (stream data) (base data + 264) 3) = Z.to_nat 3).
Proof.
  cbn zeta.
  apply (stored_payload Examples.inflate Examples.dow_file
           (window_of_bytes Examples.failure (Examples.control_header ++ Examples.payload))
           264 3); vm_compute; reflexivity.
Defined.

Section VerifyFacts.

Variable md5_check : hash_kwargs -> bool.
Variable mismatch : exn.
Variable name_converter : list byte -> result string.

Let verify (name : cache_name) :=
  match name with
  | NAME_file => verify_file md5_check mismatch name_converter
  | NAME_header => verify_header md5_check mismatch name_converter
  end.

Lemma verify_shape (name : cache_name) (self : verified) (writable : bool)
  (failure : bool -> Z -> Z -> exn) (archive : list byte)
  (cached error : bool) :
  (exists e,
      verify name self writable failure archive cached error = (inr e, self))
  \/
  (exists start size eigen expected,
      verify name self writable failure archive cached error
      = __verify md5_check mismatch self writable archive cached error
          start size eigen expected name).
Proof.
  destruct name; cbn [verify]; unfold verify_file, verify_header.
  - destruct (meta_name _ _); [|left; eexists; reflexivity].
    destruct (read_bytes _ _ _);
      [right; do 4 eexists; reflexivity | left; eexists; reflexivity].
  - destruct (meta_name _ _); [|left; eexists; reflexivity].
    destruct (int_read _ _); [|left; eexists; reflexivity].
    destruct (read_bytes _ _ _);
      [right; do 4 eexists; reflexivity | left; eexists; reflexivity].
Qed.

End VerifyFacts.

(** X7.  The verification cache.  With [error=True] a verification
    answers [True] or raises, never [False], and nothing is cached when
    it raises.  On a stream that is not writable, once a check has been
    cached for a name, a call with [cached=True, error=False] returns the
    cached answer for that name without consulting the hasher (any other
    hasher gives the same answer), leaves the object as it is, and the
    two names do not share their cache. *)
Theorem verify_cache (name : cache_name) (self : verified) (archive : list byte) :
  (forall md5_check mismatch name_converter failure writable cached r self',
      match name with
      | NAME_file => verify_file md5_check mismatch name_converter
      | NAME_header => verify_header md5_check mismatch name_converter
      end self writable failure archive cached true = (r, self') ->
      r = inl true \/ (exists e, r = inr e /\ self' = self)) /\
  (forall md5_check mismatch md5_check' mismatch' name_converter failure
          b cached error writable self',
      match name with
      | NAME_file => verify_file md5_check mismatch name_converter
      | NAME_header => verify_header md5_check mismatch name_converter
      end self writable failure archive cached error = (inl b, self') ->
      getattr self' name = Some b /\
      getattr self' (match name with NAME_file => NAME_header
                                   | NAME_header => NAME_file end)
      = getattr self (match name with NAME_file => NAME_header
                                    | NAME_header => NAME_file end) /\
      match name with
      | NAME_file => verify_file md5_check' mismatch' name_converter
      | NAME_header => verify_header md5_check' mismatch' name_converter
      end self' false failure archive true false = (inl b, self')).
Proof.
  split.
  - intros md5_check mismatch name_converter failure writable cached r self' H.
    destruct (verify_shape md5_check mismatch name_converter name self
                writable failure archive cached true)
      as [[e He] | (st & sz & eg & ex & He)];
      destruct name; cbn in He; rewrite He in H.
    1,2: injection H as <- <-; right; eexists; split; reflexivity.
    all: unfold __verify, md5_validate in H; rewrite orb_true_r in H;
      cbn [orb negb] in H; destruct (md5_check _);
      injection H as <- <-;
      [left; reflexivity | right; eexists; split; reflexivity].
  - intros md5_check mismatch md5_check' mismatch' name_converter failure
           b cached error writable self' H.
    assert (Hcache : forall st sz eg ex,
               __verify md5_check mismatch self writable archive cached error
                 st sz eg ex name = (inl b, self') ->
               getattr self' name = Some b /\
               getattr self' (match name with NAME_file => NAME_header
                                            | NAME_header => NAME_file end)
               = getattr self (match name with NAME_file => NAME_header
                                             | NAME_header => NAME_file end)).
    { intros st sz eg ex Hv.
      unfold __verify, md5_validate, raise, ok in Hv.
      destruct (writable || error || negb cached || _).
      - destruct error; cbn [negb] in Hv.
        + destruct (md5_check _); cbn in Hv; [|discriminate].
          injection Hv as <- <-. destruct name; split; reflexivity.
        + injection Hv as <- <-. destruct name; split; reflexivity.
      - destruct (getattr self name) eqn:G; [|discriminate].
        injection Hv as <- <-. split; [exact G | reflexivity]. }
    destruct name.
    + unfold verify_file in *.
      destruct (meta_name _ _) as [nm|]; [|discriminate].
      destruct (read_bytes _ _ _) as [md|]; [|discriminate].
      destruct (Hcache _ _ _ _ H) as [Hg Hh].
      split; [exact Hg|]. split; [exact Hh|].
      unfold __verify. rewrite Hg. reflexivity.
    + unfold verify_header in *.
      destruct (meta_name _ _) as [nm|]; [|discriminate].
      destruct (int_read _ _) as [ts|]; [|discriminate].
      destruct (read_bytes _ _ _) as [md|]; [|discriminate].
      destruct (Hcache _ _ _ _ H) as [Hg Hh].
      split; [exact Hg|]. split; [exact Hh|].
      unfold __verify. rewrite Hg. reflexivity.
Qed.

Lemma verify_cache_witness :
  let hasher := fun k : hash_kwargs => (length (kw_expected k) =? 16)%nat in
  let other := fun _ : hash_kwargs => false in
  let fresh := mkVerified None None in
  let checked := mkVerified None (Some true) in
  verify_header hasher RelicToolError Examples.decode_name fresh false
    Examples.failure Examples.archive true false
  = (inl true, checked) /\
  getattr checked NAME_header = Some true /\
  getattr checked NAME_file = getattr fresh NAME_file /\
  verify_header other ValueError Examples.decode_name checked false
    Examples.failure Examples.archive true false
  = (inl true, checked).
Proof.
  cbn zeta.
  assert (H : verify_header (fun k => (length (kw_expected k) =? 16)%nat)
                RelicToolError Examples.decode_name (mkVerified None None)
                false Examples.failure Examples.archive true false
              = (inl true, mkVerified None (Some true)))
    by (vm_compute; reflexivity).
  split; [exact H|].
  exact (proj2 (verify_cache NAME_header (mkVerified None None) Examples.archive)
           _ RelicToolError (fun _ => false) ValueError Examples.decode_name
           Examples.failure true true false false
           (mkVerified None (Some true)) H).
Defined.

Section TocFacts.

Variable SgaTocHeaderV2_init : BinaryWindow -> result SgaTocHeaderV2.

(** What a successful detection says about the size of the file block. *)
Lemma determine_game_returns (header : SgaTocHeaderV2) (toc_end : Z)
  (game : SgaV2GameFormat) :
  _determine_game header toc_end = inl game ->
  count (file header) <> 0 ->
  exists c,
    GAME_FORMAT_TOC_FILE_get game = Some c /\
    (c = SgaTocFileV2Dow \/ c = SgaTocFileV2ImpCreatures) /\
    _determine_next_header_block_ptr header toc_end (offset (file header))
    - offset (file header) = _SIZE c * count (file header).
Proof.
  unfold _determine_game, info. intros H Hn.
  destruct (Z.eqb_spec (count (file header)) 0) as [|_]; [contradiction|].
  cbn [GAME_FORMAT_TOC_FILE find snd] in H.
  destruct (Qeq_bool (inject_Z (_SIZE SgaTocFileV2Dow)) _) eqn:E20.
  - injection H as <-. exists SgaTocFileV2Dow.
    split; [reflexivity|]. split; [left; reflexivity|].
    apply (size_test 20 _ _ Hn) in E20. apply (quotient_is 20 _ _ Hn) in E20.
    exact E20.
  - destruct (Qeq_bool (inject_Z (_SIZE SgaTocFileV2ImpCreatures)) _) eqn:E17;
      [|discriminate].
    injection H as <-. exists SgaTocFileV2ImpCreatures.
    split; [reflexivity|]. split; [right; reflexivity|].
    apply (size_test 17 _ _ Hn) in E17. apply (quotient_is 17 _ _ Hn) in E17.
    exact E17.
Qed.

Lemma next_header_block_ptr_le (header : SgaTocHeaderV2) (toc_end index : Z) :
  _determine_next_header_block_ptr header toc_end index <= toc_end.
Proof.
  unfold _determine_next_header_block_ptr.
  pose proof (scan_smallest index
                [ offset (folder header); offset (root_folder header);
                  offset (file header); offset (name header) ] toc_end) as H.
  cbn zeta in H. destruct H as [[-> | [_ H]] _]; lia.
Qed.

End TocFacts.

(** The file area of a TOC built with a detected layout. *)
Lemma toc_file_table
  (SgaTocHeaderV2_init : BinaryWindow -> result SgaTocHeaderV2)
  (parent : BinaryWindow) (toc : SgaTocV2) :
  SgaTocV2_init SgaTocHeaderV2_init parent None = inl toc ->
  0 < count (file (_header toc)) ->
  exists c,
    area_cls (_files toc) = Some c /\
    GAME_FORMAT_TOC_FILE_get (_game_format toc) = Some c /\
    area_parent (_files toc) = parent /\
    area_offset (_files toc) = offset (file (_header toc)) /\
    area_count (_files toc) = count (file (_header toc)) /\
    area_offset (_files toc) + area_count (_files toc) * _SIZE c
    = _determine_next_header_block_ptr (_header toc) (len parent)
        (offset (file (_header toc))) /\
    area_offset (_files toc) + area_count (_files toc) * _SIZE c <= len parent.
Proof.
  unfold SgaTocV2_init, bind.
  destruct (SgaTocHeaderV2_init parent) as [header|]; [|discriminate].
  destruct (_determine_game header (len parent)) as [game|] eqn:Eg;
    [|discriminate].
  unfold info. intros H; injection H as <-. cbn [_header _files _game_format].
  intros Hn.
  destruct (determine_game_returns header (len parent) game Eg) as (c & Hc & _ & Hs);
    [lia|].
  exists c. cbn [area_cls area_parent area_offset area_count].
  pose proof (next_header_block_ptr_le header (len parent) (offset (file header))).
  repeat split; try assumption; lia.
Qed.

(** X8.  The file table of a detected layout fits the TOC: when
    [SgaTocV2] is built without a given game format and the header counts
    at least one file, the file area has the record class of the detected
    format, its [count] records end exactly at the next table (or the end
    of the TOC), and nowhere beyond the end of the TOC window. *)
Theorem file_table_fits
  (SgaTocHeaderV2_init : BinaryWindow -> result SgaTocHeaderV2)
  (parent : BinaryWindow) (toc : SgaTocV2) :
  SgaTocV2_init SgaTocHeaderV2_init parent None = inl toc ->
  0 < count (file (_header toc)) ->
  exists c,
    area_cls (_files toc) = Some c /\
    GAME_FORMAT_TOC_FILE_get (_game_format toc) = Some c /\
    area_parent (_files toc) = parent /\
    area_offset (_files toc) = offset (file (_header toc)) /\
    area_count (_files toc) = count (file (_header toc)) /\
    area_offset (_files toc) + area_count (_files toc) * _SIZE c
    = _determine_next_header_block_ptr (_header toc) (len parent)
        (offset (file (_header toc))) /\
    area_offset (_files toc) + area_count (_files toc) * _SIZE c <= len parent.
Proof. exact (toc_file_table SgaTocHeaderV2_init parent toc). Qed.

Lemma file_table_fits_witness :
  let parent := sub_window (window_of_bytes Examples.failure Examples.archive) 180 44 in
  exists toc c,
    SgaTocV2_init Examples.decode_header parent None = inl toc /\
    area_cls (_files toc) = Some c /\
    GAME_FORMAT_TOC_FILE_get (_game_format toc) = Some c /\
    area_parent (_files toc) = parent /\
    area_offset (_files toc) = offset (file (_header toc)) /\
    area_count (_files toc) = count (file (_header toc)) /\
    area_offset (_files toc) + area_count (_files toc) * _SIZE c
    = _determine_next_header_block_ptr (_header toc) (len parent)
        (offset (file (_header toc))) /\
    area_offset (_files toc) + area_count (_files toc) * _SIZE c <= len parent.
Proof.
  cbn zeta.
  destruct (SgaTocV2_init Examples.decode_header
              (sub_window (window_of_bytes Examples.failure Examples.archive) 180 44) None)
    as [toc|e] eqn:E; [|vm_compute in E; discriminate].
  assert (Hn : 0 < count (file (_header toc)))
    by (vm_compute in E; injection E as <-; reflexivity).
  destruct (file_table_fits Examples.decode_header _ toc E Hn) as (c & H).
  exists toc, c. split; [reflexivity | exact H].
Defined.

Section ParseFacts.

Variable SgaTocHeaderV2_init : BinaryWindow -> result SgaTocHeaderV2.

Let add_size : result Z -> _SgaTocFileV2 -> result Z :=
  fun acc file =>
    total <- acc ;; size <- compressed_size file ;; ok (total + size).

Lemma fold_add_size_total (files : list _SgaTocFileV2) (start : Z) :
  Forall (fun file => returns (compressed_size file)) files ->
  returns (fold_left add_size files (inl start)).
Proof.
  revert start. induction files as [|f files IH]; intros start HF.
  - eexists. reflexivity.
  - inversion HF as [|? ? [s Hs] HF']; subst. cbn [fold_left].
    unfold add_size at 2. cbn [bind]. rewrite Hs. cbn [bind]. apply IH, HF'.
Qed.

(** Every record of an area that fits its window, itself inside the
    stream, has a readable compressed size. *)
Lemma area_records_readable (a : SgaTocInfoArea) (c : toc_file_class)
  (files : list _SgaTocFileV2) :
  area_cls a = Some c ->
  c = SgaTocFileV2Dow \/ c = SgaTocFileV2ImpCreatures ->
  0 <= area_offset a ->
  area_offset a + area_count a * _SIZE c <= len (area_parent a) ->
  in_window (area_parent a) 0 (len (area_parent a)) = true ->
  area_items a = inl files ->
  Forall (fun file => returns (compressed_size file)) files.
Proof.
  intros Hcls Hc Ho Hfit Hb. apply in_window_spec in Hb. unfold area_items.
  destruct (Z.to_nat (area_count a)) as [|n] eqn:En.
  - intros H; injection H as <-. constructor.
  - rewrite Hcls. intros H; injection H as <-.
    apply Forall_forall. intros f Hf.
    change (In f (map (fun i : nat =>
                         mkTocFile c
                           (sub_window (area_parent a)
                              (area_offset a + Z.of_nat i * _SIZE c) (_SIZE c)))
                      (seq 0 (S n)))) in Hf.
    apply in_map_iff in Hf.
    destruct Hf as (i & <- & Hi). apply in_seq in Hi.
    unfold compressed_size, int_read. cbn [cls _serializer].
    assert (Hin : in_window
                    (sub_window (area_parent a)
                       (area_offset a + Z.of_nat i * _SIZE c) (_SIZE c))
                    (fst (_COMP_SIZE c)) (snd (_COMP_SIZE c)) = true).
    { apply in_window_spec. cbn [sub_window len base stream lo hi].
      assert (Hi' : Z.of_nat i + 1 <= area_count a) by lia.
      assert (Hm : Z.of_nat i * _SIZE c + _SIZE c <= area_count a * _SIZE c)
        by (destruct Hc as [-> | ->]; cbn; nia).
      destruct Hc as [-> | ->]; cbn in *; lia. }
    unfold read_bytes. rewrite Hin. eexists. reflexivity.
Qed.

End ParseFacts.

(** X9.  [SgaFileV2] parses every archive whose layout is sound: when
    the meta block gives a TOC size with [180 + toc_size] inside the
    archive, the TOC over that window is built with a detected game
    format, and the file table does not start before the TOC, then the
    expected data size is computed without a failed read, and the
    constructor ends with the decoding of the archive name, the 128
    bytes at 28: it returns an archive with that TOC when the name
    decodes, and raises the decoder's error when it does not. *)
Theorem SgaFileV2_init_returns
  (SgaTocHeaderV2_init : BinaryWindow -> result SgaTocHeaderV2)
  (name_converter : list byte -> result string)
  (failure : bool -> Z -> Z -> exn)
  (archive : list byte) (toc_size : Z) (toc : SgaTocV2) :
  let parent := window_of_bytes failure archive in
  int_read (sub_window parent 12 168) Meta.toc_size_ptr = inl toc_size ->
  180 + toc_size <= Z.of_nat (length archive) ->
  SgaTocV2_init SgaTocHeaderV2_init (sub_window parent 180 toc_size) None
  = inl toc ->
  0 <= offset (file (_header toc)) ->
  returns (__determine_expected_data_window_size toc) /\
  meta_name name_converter (sub_window parent 12 168)
  = name_converter (slice archive 28 128) /\
  (forall n,
     name_converter (slice archive 28 128) = inl n ->
     exists self,
       SgaFileV2_init SgaTocHeaderV2_init name_converter failure archive None
       = inl self /\
       _toc self = toc) /\
  (forall e,
     name_converter (slice archive 28 128) = inr e ->
     SgaFileV2_init SgaTocHeaderV2_init name_converter failure archive None
     = inr e).
Proof.
  cbn zeta. intros Hts Hlen Htoc Hoff.
  pose proof (int_read_range _ _ _ Hts) as Hr. cbn in Hr.
  assert (Hexp : returns (__determine_expected_data_window_size toc)).
  { unfold __determine_expected_data_window_size.
    destruct (area_items (_files toc)) as [files|e] eqn:Ef.
    - cbn [bind].
      assert (HF : Forall (fun file => returns (compressed_size file)) files).
      { destruct (Z_lt_le_dec 0 (count (file (_header toc)))) as [Hn | Hn].
        - destruct (toc_file_table _ _ _ Htoc Hn)
            as (c & Hc & Hg & Hp & Ho & Hcnt & _ & Hfit).
          apply (area_records_readable (_files toc) c files Hc).
          + destruct (_game_format toc); cbv in Hg;
              [injection Hg as <-; left; reflexivity
              | injection Hg as <-; right; reflexivity
              | discriminate].
          + lia.
          + rewrite Hp. exact Hfit.
          + rewrite Hp. apply in_window_spec.
            cbn [sub_window window_of_bytes base len stream lo hi]. lia.
          + exact Ef.
        - unfold area_items in Ef.
          assert (Hc0 : area_count (_files toc) = count (file (_header toc))).
          { revert Htoc. unfold SgaTocV2_init, bind.
            destruct (SgaTocHeaderV2_init _); [|discriminate].
            destruct (_determine_game _ _); [|discriminate].
            unfold info. intros H; injection H as <-. reflexivity. }
          replace (Z.to_nat (area_count (_files toc))) with 0%nat in Ef by lia.
          injection Ef as <-. constructor. }
      destruct (fold_add_size_total files 0 HF) as [t Ht].
      change (@ok Z 0) with (@inl Z exn 0). rewrite Ht. cbn [bind].
      eexists. reflexivity.
    - exfalso. unfold area_items in Ef.
      destruct (Z.to_nat (area_count (_files toc))) eqn:En; [discriminate|].
      assert (Hn : 0 < count (file (_header toc))).
      { revert Htoc En. unfold SgaTocV2_init, bind.
        destruct (SgaTocHeaderV2_init _); [|discriminate].
        destruct (_determine_game _ _); [|discriminate].
        unfold info. intros H; injection H as <-. cbn. lia. }
      destruct (toc_file_table _ _ _ Htoc Hn) as (c & Hc & _).
      rewrite Hc in Ef. discriminate. }
  split; [exact Hexp|].
  assert (Hname : meta_name name_converter
                    (sub_window (window_of_bytes failure archive) 12 168)
                  = name_converter (slice archive 28 128)).
  { unfold meta_name, read_bytes.
    replace (in_window _ _ _) with true; [reflexivity|].
    symmetry. apply in_window_spec. cbn. lia. }
  split; [exact Hname|].
  destruct Hexp as [expected Hexp].
  assert (Hdp : returns (int_read
                           (sub_window (window_of_bytes failure archive) 12 168)
                           Meta.data_pos_ptr)).
  { unfold int_read, read_bytes.
    replace (in_window _ _ _) with true; [eexists; reflexivity|].
    symmetry. apply in_window_spec. cbn. lia. }
  destruct Hdp as [dp Hdp].
  split; intros x Hx; unfold SgaFileV2_init; cbn zeta;
    change (fst _META_BLOCK) with 12; change (snd _META_BLOCK) with 168;
    rewrite Hts; cbn [bind]; rewrite Hdp; cbn [bind];
    change Meta.toc_pos with 180; rewrite Htoc; cbn [bind];
    rewrite Hexp; cbn [bind]; rewrite Hname, Hx; cbn [bind].
  - eexists. split; reflexivity.
  - reflexivity.
Qed.

Lemma SgaFileV2_init_returns_witness :
  exists toc self,
    SgaFileV2_init Examples.decode_header Examples.decode_name
      Examples.failure Examples.archive None = inl self /\
    _toc self = toc.
Proof.
  destruct (SgaTocV2_init Examples.decode_header
              (sub_window (window_of_bytes Examples.failure Examples.archive)
                 180 44) None)
    as [toc|e] eqn:E; [|vm_compute in E; discriminate].
  exists toc.
  assert (Ho : 0 <= offset (file (_header toc))).
  { pose proof E as E'. vm_compute in E'. injection E' as <-. vm_compute.
    discriminate. }
  refine (proj1 (proj2 (proj2
            (SgaFileV2_init_returns Examples.decode_header Examples.decode_name
               Examples.failure Examples.archive 44 toc _ _ E Ho)))
            EmptyString _).
  - vm_compute. reflexivity.
  - vm_compute. discriminate.
  - reflexivity.
Defined.

(* ================================================================== *)
(** * Further properties of the path resolver *)
(* ================================================================== *)

Section PathFacts.

Import SgaPathResolver.

Lemma split_first_app (c : ascii) (a b : string) :
  Str.contains c a = false ->
  Str.split_first c (a ++ String c b) = (a, b) /\
  Str.contains c (a ++ String c b) = true.
Proof.
  induction a as [|x a IH]; cbn; intros H.
  - rewrite Ascii.eqb_refl. split; reflexivity.
  - apply orb_false_iff in H. destruct H as [Hx Ha]. rewrite Hx.
    destruct (IH Ha) as [-> ->]. split; reflexivity.
Qed.

Lemma split_first_inv (c : ascii) (s a b : string) :
  Str.contains c s = true ->
  Str.split_first c s = (a, b) ->
  s = (a ++ String c b)%string /\ Str.contains c a = false.
Proof.
  revert a b. induction s as [|x s IH]; cbn; intros a b H; [discriminate|].
  destruct (Ascii.eqb x c) eqn:E.
  - apply Ascii.eqb_eq in E. subst x. intros H'; injection H' as <- <-.
    split; reflexivity.
  - cbn in H. destruct (Str.split_first c s) as [a' b'] eqn:Es.
    intros H'; injection H' as <- <-.
    destruct (IH a' b' H eq_refl) as [-> Ha]. cbn. rewrite E. split; auto.
Qed.

Lemma replace_app (a b : ascii) (s t : string) :
  Str.replace a b (s ++ t) = (Str.replace a b s ++ Str.replace a b t)%string.
Proof. induction s as [|x s IH]; cbn; [reflexivity | now rewrite IH]. Qed.

Lemma replace_absent (a b : ascii) (s : string) :
  Str.contains a s = false -> Str.replace a b s = s.
Proof.
  induction s as [|x s IH]; cbn; intros H; [reflexivity|].
  apply orb_false_iff in H. destruct H as [-> H]. now rewrite IH.
Qed.

Lemma contains_replace (s : string) :
  Str.contains "\"%char (Str.replace "\"%char SEP s) = false.
Proof.
  induction s as [|x s IH]; cbn; [reflexivity|].
  destruct (Ascii.eqb x "\"%char) eqn:E; cbn; rewrite ?E; exact IH.
Qed.

(** The loop body of [join], on a part that is given. *)
Let step (acc : result string) (part : option string) : result string :=
  result <- acc ;;
  part <- fix_seperator part ;;
  c <- Str.first part ;;
  if Ascii.eqb c SEP || (String.length result =? 0)%nat
  then ok part
  else
    l <- Str.last result ;;
    if negb (Ascii.eqb l SEP)
    then ok (result ++ ROOT ++ part)%string
    else ok (result ++ part)%string.

Lemma join_unfold (parts : list (option string)) :
  join parts false = fold_left step parts (inl EmptyString).
Proof.
  unfold join. fold step. change (@ok string EmptyString) with (@inl string exn EmptyString).
  destruct (fold_left step parts (inl EmptyString)); reflexivity.
Qed.

Lemma fold_step_raise (parts : list (option string)) (e : exn) :
  fold_left step parts (inr e) = inr e.
Proof. induction parts as [|p parts IH]; [reflexivity | exact IH]. Qed.

Lemma last_returns (s : string) : s <> EmptyString -> returns (Str.last s).
Proof.
  induction s as [|x s IH]; [congruence|]. intros _.
  destruct s as [|y s]; [eexists; reflexivity|].
  cbn [Str.last]. apply IH. discriminate.
Qed.

Lemma step_given (r part : string) :
  (part = EmptyString -> step (inl r) (Some part) = inr IndexError) /\
  (part <> EmptyString -> returns (step (inl r) (Some part))).
Proof.
  split.
  - intros ->. reflexivity.
  - intros Hp. destruct part as [|c part]; [congruence|].
    unfold step, fix_seperator.
    cbn [Str.replace Str.first bind ok raise].
    unfold ok, bind.
    destruct r as [|x r].
    + replace (String.length EmptyString =? 0)%nat with true by reflexivity.
      rewrite orb_true_r. eexists; reflexivity.
    + match goal with |- context [if ?b then _ else _] => destruct b end;
        [eexists; reflexivity|].
      destruct (last_returns (String x r)) as [l Hl]; [discriminate|].
      unfold ok in Hl. rewrite Hl. destruct (negb _); eexists; reflexivity.
Qed.

Lemma fold_step_given (parts : list string) (r : string) :
  (Forall (fun p => p <> EmptyString) parts ->
   returns (fold_left step (map Some parts) (inl r))) /\
  (Exists (fun p => p = EmptyString) parts ->
   fold_left step (map Some parts) (inl r) = inr IndexError).
Proof.
  revert r. induction parts as [|p parts IH]; intros r.
  - split; [intros _; eexists; reflexivity | intros H; inversion H].
  - cbn [map fold_left]. destruct (step_given r p) as [He Hn]. split.
    + intros HF. inversion HF as [|? ? Hp HF']; subst.
      destruct (Hn Hp) as [r' ->]. apply IH, HF'.
    + intros HE. destruct (string_dec p EmptyString) as [-> | Hp].
      * rewrite (He eq_refl). apply fold_step_raise.
      * destruct (Hn Hp) as [r' ->]. apply IH.
        inversion HE; subst; [contradiction | assumption].
Qed.

End PathFacts.

(** X10.  [SgaPathResolver.join] accepts no empty component: over
    parts that are all given, it returns exactly when every part is
    non-empty and raises [IndexError] as soon as one is empty; and a part
    that is [None] where the loop reaches it is an [AttributeError]. *)
Theorem join_returns_iff (parts : list string) (add_root : bool) :
  (Forall (fun p => p <> EmptyString) parts <->
   returns (SgaPathResolver.join (map Some parts) add_root)) /\
  (Exists (fun p => p = EmptyString) parts <->
   SgaPathResolver.join (map Some parts) add_root = inr IndexError) /\
  SgaPathResolver.join (None :: map Some parts) add_root = inr AttributeError.
Proof.
  assert (Hj : forall r,
             fold_left
               (fun acc part =>
                  result <- acc ;;
                  part <- SgaPathResolver.fix_seperator part ;;
                  c <- Str.first part ;;
                  if Ascii.eqb c SgaPathResolver.SEP
                     || (String.length result =? 0)%nat
                  then ok part
                  else
                    l <- Str.last result ;;
                    if negb (Ascii.eqb l SgaPathResolver.SEP)
                    then ok (result ++ SgaPathResolver.ROOT ++ part)%string
                    else ok (result ++ part)%string)
               (map Some parts) (ok EmptyString) = r ->
             (returns r -> returns (SgaPathResolver.join (map Some parts) add_root)) /\
             (r = inr IndexError ->
              SgaPathResolver.join (map Some parts) add_root = inr IndexError) /\
             (returns (SgaPathResolver.join (map Some parts) add_root) -> returns r) /\
             (SgaPathResolver.join (map Some parts) add_root = inr IndexError ->
              r = inr IndexError)).
  { intros r Hr. unfold SgaPathResolver.join. rewrite Hr.
    destruct r as [s|e]; cbn [bind].
    - repeat split; intros H; try discriminate.
      + destruct (add_root && _); eexists; reflexivity.
      + eexists; reflexivity.
      + destruct (add_root && _); discriminate.
    - repeat split; intros H; auto. }
  destruct (fold_step_given parts EmptyString) as [Hall Hex].
  specialize (Hj _ eq_refl). destruct Hj as (J1 & J2 & J3 & J4).
  split; [|split].
  - split; [intros H; apply J1, Hall, H|].
    intros H. apply J3 in H. apply Forall_forall. intros p Hp ->.
    assert (HE : Exists (fun p => p = EmptyString) parts)
      by (apply Exists_exists; eexists; split; [exact Hp | reflexivity]).
    apply Hex in HE. destruct H as [x Hx].
    change (@ok string EmptyString) with (@inl string exn EmptyString) in Hx.
    rewrite HE in Hx. discriminate.
  - split; [intros H; apply J2, Hex, H|].
    intros H. apply J4 in H.
    destruct (Exists_dec (fun p => p = EmptyString) parts
                (fun p => string_dec p EmptyString)) as [HE | HN]; [exact HE|].
    exfalso. assert (HF : Forall (fun p => p <> EmptyString) parts).
    { apply Forall_forall. intros p Hp Hq. apply HN.
      apply Exists_exists. eauto. }
    destruct (Hall HF) as [x Hx].
    change (@ok string EmptyString) with (@inl string exn EmptyString) in H.
    rewrite Hx in H. discriminate.
  - unfold SgaPathResolver.join. cbn [fold_left bind SgaPathResolver.fix_seperator].
    change (bind (ok EmptyString) _) with (@inr string exn AttributeError).
    rewrite fold_step_raise. reflexivity.
Qed.

Section SplitFacts.

Import SgaPathResolver.

Lemma split_cons (c : ascii) (s : string) :
  exists p ps, Str.split c s = p :: ps.
Proof.
  induction s as [|x s (p & ps & IH)]; cbn; [eauto|].
  rewrite IH. destruct (Ascii.eqb x c); eauto.
Qed.

Lemma split_free (c : ascii) (s : string) :
  Forall (fun p => Str.contains c p = false) (Str.split c s).
Proof.
  induction s as [|x s IH]; cbn.
  - repeat constructor.
  - destruct (Ascii.eqb x c) eqn:E.
    + constructor; [reflexivity | exact IH].
    + destruct (Str.split c s) as [|p ps]; [repeat constructor; cbn; now rewrite E|].
      inversion IH; subst. constructor; [cbn; rewrite E; assumption | assumption].
Qed.

Lemma join_with_split (c : ascii) (s : string) :
  Str.join_with c (Str.split c s) = s.
Proof.
  induction s as [|x s IH]; [reflexivity|].
  cbn [Str.split]. destruct (split_cons c s) as (p & ps & E).
  rewrite E in *. destruct (Ascii.eqb x c) eqn:Ex.
  - apply Ascii.eqb_eq in Ex. subst x.
    change (Str.join_with c (EmptyString :: p :: ps))
      with (String c (Str.join_with c (p :: ps))).
    now rewrite IH.
  - destruct ps as [|q ps]; cbn in *; now rewrite IH.
Qed.

Lemma contains_app (c : ascii) (s t : string) :
  Str.contains c (s ++ t) = Str.contains c s || Str.contains c t.
Proof.
  induction s as [|x s IH]; cbn; [reflexivity|].
  now rewrite IH, orb_assoc.
Qed.

Lemma last_app (s : string) (c : ascii) (t : string) :
  Str.last (s ++ String c t) = Str.last (String c t).
Proof.
  induction s as [|x s IH]; [reflexivity|].
  change (Str.last (String x (s ++ String c t)) = Str.last (String c t)).
  destruct s; cbn [append Str.last] in *; exact IH.
Qed.

Lemma last_free (c : ascii) (s : string) (l : ascii) :
  Str.contains c s = false -> Str.last s = inl l -> Ascii.eqb l c = false.
Proof.
  induction s as [|x s IH]; cbn [Str.contains]; intros H Hl; [discriminate|].
  apply orb_false_iff in H. destruct H as [Hx Hs].
  destruct s as [|y s]; [injection Hl as <-; exact Hx|].
  apply IH; assumption.
Qed.

(** What a part of a fixed path is: non-empty, without either separator. *)
Let plain (p : string) : Prop :=
  p <> EmptyString /\ Str.contains SEP p = false
  /\ Str.contains "\"%char p = false.

Let step (acc : result string) (part : option string) : result string :=
  result <- acc ;;
  part <- fix_seperator part ;;
  c <- Str.first part ;;
  if Ascii.eqb c SEP || (String.length result =? 0)%nat
  then ok part
  else
    l <- Str.last result ;;
    if negb (Ascii.eqb l SEP)
    then ok (result ++ ROOT ++ part)%string
    else ok (result ++ part)%string.

Lemma step_first (p : string) :
  p <> EmptyString -> Str.contains "\"%char p = false ->
  step (inl EmptyString) (Some p) = inl p.
Proof.
  intros Hp Hb. unfold step, fix_seperator. cbn [bind ok].
  rewrite (replace_absent _ _ _ Hb).
  destruct p as [|x p]; [congruence|]. cbn [Str.first ok bind].
  replace (String.length EmptyString =? 0)%nat with true by reflexivity.
  now rewrite orb_true_r.
Qed.

Lemma step_plain (r p : string) (l : ascii) :
  plain p -> Str.last r = inl l ->
  step (inl r) (Some p) =
  inl (if Ascii.eqb l SEP then r ++ p else r ++ ROOT ++ p)%string.
Proof.
  intros (Hp & Hs & Hb) Hl. unfold step, fix_seperator. cbn [bind ok].
  rewrite (replace_absent _ _ _ Hb).
  destruct p as [|x p]; [congruence|]. cbn [Str.first ok bind].
  cbn [Str.contains] in Hs. apply orb_false_iff in Hs. destruct Hs as [Hx _].
  rewrite Hx. destruct r as [|y r]; [discriminate|].
  cbn [String.length Nat.eqb orb]. rewrite Hl. cbn [bind].
  destruct (Ascii.eqb l SEP); reflexivity.
Qed.

Lemma append_assoc (a b c : string) :
  (a ++ (b ++ c) = (a ++ b) ++ c)%string.
Proof. induction a as [|x a IH]; cbn; [reflexivity | now rewrite IH]. Qed.

Lemma last_plain (r p : string) :
  plain p -> exists l, Str.last (r ++ p) = inl l /\ Ascii.eqb l SEP = false.
Proof.
  intros (Hp & Hs & _). destruct p as [|x p]; [congruence|].
  rewrite last_app. destruct (last_returns (String x p)) as [l Hl]; [discriminate|].
  exists l. split; [exact Hl | exact (last_free _ _ _ Hs Hl)].
Qed.

Lemma fold_plain (ps : list string) :
  Forall plain ps -> ps <> [] ->
  forall (r : string) (l : ascii),
    Str.last r = inl l -> Ascii.eqb l SEP = false ->
    fold_left step (map Some ps) (inl r) =
    inl (r ++ String SEP (Str.join_with SEP ps))%string.
Proof.
  induction ps as [|p ps IH]; [congruence|]. intros HF _ r l Hl Hne.
  inversion HF as [|? ? Hp HF']; subst.
  cbn [map fold_left]. rewrite (step_plain r p l Hp Hl), Hne.
  destruct ps as [|q ps]; [reflexivity|].
  destruct (last_plain (r ++ String SEP EmptyString) p Hp) as (l' & Hl' & Hne').
  rewrite <- append_assoc in Hl'.
  etransitivity; [exact (IH HF' ltac:(discriminate) _ l' Hl' Hne')|].
  change (Str.join_with SEP (p :: q :: ps))
    with (p ++ String SEP (Str.join_with SEP (q :: ps)))%string.
  unfold ROOT. rewrite <- !append_assoc. reflexivity.
Qed.

(** A relative path: the parts joined are the parts with separators. *)
Lemma fold_relative (p : string) (ps : list string) :
  Forall plain (p :: ps) ->
  fold_left step (map Some (p :: ps)) (inl EmptyString) =
  inl (Str.join_with SEP (p :: ps)).
Proof.
  intros HF. inversion HF as [|? ? Hp HF']; subst.
  cbn [map fold_left]. destruct Hp as (Hp & Hs & Hb).
  rewrite (step_first p Hp Hb). destruct ps as [|q ps]; [reflexivity|].
  destruct (last_plain EmptyString p (conj Hp (conj Hs Hb))) as (l & Hl & Hne).
  exact (fold_plain (q :: ps) HF' ltac:(discriminate) p l Hl Hne).
Qed.

(** An absolute path: the root, then the parts as a relative path. *)
Lemma fold_absolute (p : string) (ps : list string) :
  Forall plain (p :: ps) ->
  fold_left step (map Some (ROOT :: p :: ps)) (inl EmptyString) =
  inl (ROOT ++ Str.join_with SEP (p :: ps))%string.
Proof.
  intros HF. inversion HF as [|? ? Hp HF']; subst.
  cbn [map fold_left]. rewrite (step_first ROOT); [|discriminate|reflexivity].
  rewrite (step_plain ROOT p SEP Hp eq_refl), Ascii.eqb_refl.
  destruct ps as [|q ps]; [reflexivity|].
  destruct (last_plain ROOT p Hp) as (l & Hl & Hne).
  etransitivity; [exact (fold_plain (q :: ps) HF' ltac:(discriminate) _ l Hl Hne)|].
  change (Str.join_with SEP (p :: q :: ps))
    with (p ++ String SEP (Str.join_with SEP (q :: ps)))%string.
  rewrite <- !append_assoc. reflexivity.
Qed.

Lemma join_with_free (b c : ascii) (ps : list string) :
  Str.contains b (Str.join_with c ps) = false ->
  Forall (fun p => Str.contains b p = false) ps.
Proof.
  induction ps as [|p ps IH]; [constructor|].
  destruct ps as [|q ps].
  - intros H. repeat constructor. exact H.
  - change (Str.join_with c (p :: q :: ps))
      with (p ++ String c (Str.join_with c (q :: ps)))%string.
    rewrite contains_app. intros H. apply orb_false_iff in H.
    destruct H as [Hp H]. cbn [Str.contains] in H.
    apply orb_false_iff in H. destruct H as [_ H].
    constructor; [exact Hp | exact (IH H)].
Qed.

Lemma split_plain (s : string) :
  Forall (fun p => p = EmptyString \/ plain p)
         (Str.split SEP (Str.replace "\"%char SEP s)).
Proof.
  pose proof (split_free SEP (Str.replace "\"%char SEP s)) as Hs.
  pose proof (join_with_free "\"%char SEP
                (Str.split SEP (Str.replace "\"%char SEP s))) as Hb.
  rewrite join_with_split in Hb. specialize (Hb (contains_replace s)).
  rewrite Forall_forall in *. intros p Hp.
  destruct (string_dec p EmptyString) as [-> | Hne]; [now left | right].
  repeat split; auto.
Qed.

Lemma split_parts_joined (path : string) (parts : list string) :
  split_parts path = inl parts ->
  Forall (fun p => p <> EmptyString) parts ->
  fold_left step (map Some parts) (inl EmptyString) =
  inl (Str.replace "\"%char SEP path).
Proof.
  unfold split_parts, fix_seperator. cbn [bind ok].
  pose proof (split_plain path) as HP.
  pose proof (join_with_split SEP (Str.replace "\"%char SEP path)) as HJ.
  destruct (split_cons SEP (Str.replace "\"%char SEP path)) as (p & ps & E).
  rewrite E in *. set (s := Str.replace "\"%char SEP path) in *.
  assert (Hps : Forall (fun p => p <> EmptyString) ps -> Forall plain ps).
  { inversion HP; subst. intros Hn. rewrite Forall_forall in *.
    intros q Hq. destruct (H2 q Hq) as [-> | Hq']; [|exact Hq'].
    now elim (Hn EmptyString Hq). }
  destruct p as [|x p].
  - destruct s as [|c s'] eqn:Es; [discriminate|]. cbn [Str.first ok bind].
    destruct (Ascii.eqb c SEP) eqn:Ec.
    + intros H; injection H as <-. intros HF.
      inversion HF as [|? ? _ HF']; subst. specialize (Hps HF').
      destruct ps as [|q ps]; [discriminate|].
      rewrite (fold_absolute q ps Hps).
      change (Str.join_with SEP (EmptyString :: q :: ps))
        with (String SEP (Str.join_with SEP (q :: ps))) in HJ.
      rewrite <- HJ. reflexivity.
    + intros H; injection H as <-. intros HF.
      inversion HF; subst. congruence.
  - intros H; injection H as <-. intros HF.
    inversion HF as [|? ? _ HF']; subst. specialize (Hps HF').
    assert (Hp : plain (String x p)).
    { inversion HP as [|? ? [Hx | Hx] _]; subst; [discriminate | exact Hx]. }
    rewrite (fold_relative _ _ (Forall_cons _ Hp Hps)). now rewrite HJ.
Qed.

Lemma fold_step_free (parts : list (option string)) (r r' : string) :
  Str.contains "\"%char r = false ->
  fold_left step parts (inl r) = inl r' ->
  Str.contains "\"%char r' = false.
Proof.
  revert r. induction parts as [|p parts IH]; intros r Hr H.
  - injection H as <-. exact Hr.
  - cbn [fold_left] in H.
    destruct (step (inl r) p) as [r1|e] eqn:E1;
      [|rewrite fold_step_raise in H; discriminate].
    apply (IH r1); [|exact H].
    unfold step, fix_seperator in E1. cbn [bind] in E1.
    destruct p as [p|]; [|discriminate]. cbn [ok bind] in E1.
    pose proof (contains_replace p) as Hp.
    destruct (Str.first _) as [c|]; [|discriminate]. cbn [bind] in E1.
    destruct (_ || _); [injection E1 as <-; exact Hp|].
    destruct (Str.last r) as [l|]; [|discriminate]. cbn [bind] in E1.
    unfold ROOT in E1.
    destruct (negb _); injection E1 as <-; rewrite !contains_app;
      cbn [Str.contains]; rewrite Hr, Hp; reflexivity.
Qed.

Lemma split_rejoined (path parent child : string) :
  split path = inl (parent, child) ->
  parent <> EmptyString -> child <> EmptyString ->
  join [Some parent; Some child] false = inl (Str.replace "\"%char SEP path).
Proof.
  unfold split.
  destruct (split_parts path) as [parts|e] eqn:E; [|cbn [bind]; discriminate].
  cbn [bind]. destruct parts as [|p0 ps0] eqn:Eparts;
    [intros H; injection H as <- <-; congruence|].
  rewrite <- Eparts in *. rewrite join_unfold.
  change (fold_left _ (map Some (removelast parts)) (inl EmptyString))
    with (fold_left step (map Some (removelast parts)) (inl EmptyString)).
  destruct (fold_left step (map Some (removelast parts)) (inl EmptyString))
    as [r|e] eqn:Ei; [|discriminate].
  cbn [bind ok]. intros H; injection H as Hr Hc. subst r.
  intros Hparent Hchild.
  assert (Hne : parts <> []) by (rewrite Eparts; discriminate).
  pose proof (app_removelast_last EmptyString Hne) as Hsplit.
  rewrite Hc in Hsplit.
  assert (Hinit : Forall (fun p => p <> EmptyString) (removelast parts)).
  { apply Forall_forall. intros q Hq ->.
    destruct (fold_step_given (removelast parts) EmptyString) as [_ Hex].
    assert (HE : Exists (fun p => p = EmptyString) (removelast parts))
      by (apply Exists_exists; eauto).
    pose proof (eq_trans (eq_sym Ei) (Hex HE)) as Hx. discriminate. }
  assert (Hall : Forall (fun p => p <> EmptyString) parts).
  { rewrite Hsplit. apply Forall_app. split; [exact Hinit|].
    repeat constructor. exact Hchild. }
  pose proof (split_parts_joined path parts E Hall) as HJ.
  rewrite Hsplit, map_app, fold_left_app in HJ.
  change (fold_left step (map Some (removelast parts)) (inl EmptyString))
    with (fold_left step (map Some (removelast parts)) (inl EmptyString)) in HJ.
  rewrite Ei in HJ. rewrite join_unfold. cbn [fold_left map] in *.
  change (step (step (inl EmptyString) (Some parent)) (Some child) =
          inl (Str.replace "\"%char SEP path)).
  rewrite (step_first parent Hparent); [exact HJ|].
  exact (fold_step_free _ EmptyString _ eq_refl Ei).
Qed.

End SplitFacts.

(** X11.  Joining the parts of a path gives the path back, with its
    separators fixed: whenever [split_parts] returns parts none of which
    is empty, [join] of those parts is [fix_seperator] of the path. *)
Theorem join_split_parts (path : string) (parts : list string) :
  SgaPathResolver.split_parts path = inl parts ->
  Forall (fun p => p <> EmptyString) parts ->
  SgaPathResolver.join (map Some parts) false =
  SgaPathResolver.fix_seperator (Some path).
Proof.
  intros H HF. rewrite join_unfold.
  exact (split_parts_joined path parts H HF).
Qed.

Lemma join_split_parts_witness :
  SgaPathResolver.join (map Some ["/"; "data"; "art"; "a.rgd"]%string) false =
  SgaPathResolver.fix_seperator (Some "\data/art\a.rgd"%string).
Proof.
  apply join_split_parts.
  - reflexivity.
  - repeat constructor; discriminate.
Defined.

(** X12.  [split] and [join] are inverse on a path with a parent: when
    [split] returns a parent and a child that are both non-empty, joining
    the two gives the path back, with its separators fixed. *)
Theorem join_split (path parent child : string) :
  SgaPathResolver.split path = inl (parent, child) ->
  parent <> EmptyString -> child <> EmptyString ->
  SgaPathResolver.join [Some parent; Some child] false =
  inl (Str.replace "\"%char SgaPathResolver.SEP path).
Proof. exact (split_rejoined path parent child). Qed.

Lemma join_split_witness :
  SgaPathResolver.join [Some "/data/art"; Some "a.rgd"]%string false =
  inl (Str.replace "\"%char SgaPathResolver.SEP "\data/art\a.rgd"%string).
Proof.
  apply join_split.
  - reflexivity.
  - discriminate.
  - discriminate.
Defined.

(** X13.  A path built for an alias parses back: [build] puts the alias,
    a colon and the joined path made absolute, and [parse] of that string
    returns the same alias and that absolute path. *)
Theorem parse_build (parts : list (option string)) (alias full : string) :
  alias <> EmptyString ->
  Str.contains ":"%char alias = false ->
  SgaPathResolver.join parts false = inl full ->
  exists rest,
    SgaPathResolver.build parts (Some alias) = inl (alias ++ ":" ++ rest)%string
    /\ SgaPathResolver.parse (alias ++ ":" ++ rest) = (Some alias, rest)
    /\ Str.first rest = inl SgaPathResolver.SEP
    /\ (rest = full \/ rest = (SgaPathResolver.ROOT ++ full)%string).
Proof.
  intros Ha Hc Hj.
  assert (Hp : forall rest,
             SgaPathResolver.parse (alias ++ ":" ++ rest) = (Some alias, rest)).
  { intros rest. unfold SgaPathResolver.parse.
    change (alias ++ ":" ++ rest)%string
      with (alias ++ String ":"%char rest)%string.
    destruct (split_first_app ":"%char alias rest Hc) as [-> ->]. reflexivity. }
  unfold SgaPathResolver.build. rewrite Hj. cbn [bind].
  destruct alias as [|a alias]; [congruence|].
  destruct full as [|c full].
  - exists SgaPathResolver.ROOT. repeat split; auto.
  - destruct (Ascii.eqb c SgaPathResolver.SEP) eqn:Ec; cbn [negb].
    + exists (String c full). repeat split; auto.
      apply Ascii.eqb_eq in Ec. now subst c.
    + exists (SgaPathResolver.ROOT ++ String c full)%string.
      repeat split; auto.
Qed.

Lemma parse_build_witness :
  exists rest,
    SgaPathResolver.build [Some "art"; Some "a.rgd"]%string (Some "data"%string)
    = inl ("data" ++ ":" ++ rest)%string
    /\ SgaPathResolver.parse ("data" ++ ":" ++ rest) = (Some "data"%string, rest)
    /\ Str.first rest = inl SgaPathResolver.SEP
    /\ (rest = "art/a.rgd"%string
        \/ rest = (SgaPathResolver.ROOT ++ "art/a.rgd")%string).
Proof.
  apply parse_build.
  - discriminate.
  - reflexivity.
  - reflexivity.
Defined.

(** X14.  A parsed path builds back: when [parse] finds a non-empty
    alias and an absolute rest without backslashes, [build] of that rest
    for that alias is the string that was parsed. *)
Theorem build_parse (p alias rest : string) :
  SgaPathResolver.parse p = (Some alias, rest) ->
  alias <> EmptyString ->
  Str.first rest = inl SgaPathResolver.SEP ->
  Str.contains "\"%char rest = false ->
  SgaPathResolver.build [Some rest] (Some alias) = inl p.
Proof.
  unfold SgaPathResolver.parse. intros Hp Ha Hr Hb.
  destruct (Str.contains ":"%char p) eqn:Hc; [|discriminate].
  destruct (Str.split_first ":"%char p) as [a b] eqn:Es.
  injection Hp as -> ->.
  destruct (split_first_inv _ _ _ _ Hc Es) as [-> _].
  unfold SgaPathResolver.build. rewrite join_unfold.
  destruct rest as [|c rest]; [discriminate|].
  cbn [fold_left].
  etransitivity;
    [apply (f_equal (fun r => bind r _));
     exact (step_first (String c rest) ltac:(discriminate) Hb)|].
  cbn [bind]. destruct alias as [|x alias]; [congruence|].
  injection Hr as ->. reflexivity.
Qed.

Lemma build_parse_witness :
  SgaPathResolver.build [Some "/art/a.rgd"%string] (Some "data"%string)
  = inl "data:/art/a.rgd"%string.
Proof.
  apply build_parse.
  - reflexivity.
  - discriminate.
  - reflexivity.
  - reflexivity.
Defined.

(* ================================================================== *)
(** * Further properties of the virtual filesystem *)
(* ================================================================== *)

Section HeapFacts.

Context {A : Type}.

Lemma length_replace_nth (n : nat) (l : list A) (x : A) :
  length (replace_nth n l x) = length l.
Proof.
  revert n. induction l as [|y l IH]; intros [|n]; cbn; auto.
Qed.

Lemma nth_replace_nth (n : nat) (l : list A) (x d : A) :
  (n < length l)%nat -> nth n (replace_nth n l x) d = x.
Proof.
  revert n. induction l as [|y l IH]; intros [|n] H; cbn in *; try lia; auto.
  apply IH. lia.
Qed.

Lemma nth_replace_nth_other (n m : nat) (l : list A) (x d : A) :
  n <> m -> nth m (replace_nth n l x) d = nth m l d.
Proof.
  revert n m. induction l as [|y l IH]; intros [|n] [|m] H; cbn; auto;
    try congruence.
Qed.

Lemma replace_nth_twice (n : nat) (l : list A) (x y : A) :
  replace_nth n (replace_nth n l x) y = replace_nth n l y.
Proof.
  revert n. induction l as [|z l IH]; intros [|n]; cbn; auto.
  now rewrite IH.
Qed.

Lemma replace_nth_same (n : nat) (l : list A) (d : A) :
  replace_nth n l (nth n l d) = l.
Proof.
  revert n. induction l as [|z l IH]; intros [|n]; cbn; auto.
  now rewrite IH.
Qed.

Lemma nth_in_heap (n : nat) (l : list A) (d x : A) :
  nth n l d = x -> x <> d -> (n < length l)%nat.
Proof.
  intros H Hx. destruct (Nat.lt_ge_cases n (length l)) as [Hlt | Hge]; [exact Hlt|].
  rewrite (nth_overflow l d Hge) in H. congruence.
Qed.

End HeapFacts.

Section DictFacts.

Context {V : Type}.

Lemma dict_get_set_other (d : dict V) (k k' : string) (v : V) :
  k <> k' -> Dict.get (Dict.set d k v) k' = Dict.get d k'.
Proof.
  intros Hk. induction d as [|[k0 v0] d IH]; cbn.
  - destruct (String.eqb k k') eqn:E; [apply String.eqb_eq in E; congruence|].
    reflexivity.
  - destruct (String.eqb k0 k) eqn:E; cbn.
    + apply String.eqb_eq in E. subst k0.
      destruct (String.eqb k k') eqn:E'; [apply String.eqb_eq in E'; congruence|].
      reflexivity.
    + rewrite IH. reflexivity.
Qed.

Lemma dict_contains_set (d : dict V) (k k' : string) (v : V) :
  Dict.contains (Dict.set d k v) k' = String.eqb k k' || Dict.contains d k'.
Proof.
  unfold Dict.contains. destruct (String.eqb k k') eqn:E.
  - apply String.eqb_eq in E. subst k'. now rewrite dict_get_set.
  - rewrite dict_get_set_other; [reflexivity|].
    intros ->. now rewrite String.eqb_refl in E.
Qed.

Lemma dict_set_absent (d : dict V) (k : string) (v : V) :
  Dict.contains d k = false -> Dict.set d k v = d ++ [(k, v)].
Proof.
  unfold Dict.contains. induction d as [|[k0 v0] d IH]; cbn; [reflexivity|].
  destruct (String.eqb k0 k); [discriminate|].
  intros H. now rewrite IH.
Qed.

End DictFacts.

(** X15.  [SgaFsFolderV2Mem._add_child] adds and never replaces.  Under
    a name the folder does not have yet, the child is stored in
    [_children] and in the dictionary given, comes last in [scandir],
    and every other name keeps what it had in all three dictionaries.
    Under a name the folder already has, the call raises and the error is
    [FileExists] when a file has the name, else [DirectoryExists] when a
    folder has it. *)
Theorem add_child_spec (m : SgaFsFolderV2Mem) (name : string) (r : ref)
  (alt : alt_lookup) :
  (Dict.contains (dm_children m) name = false ->
   exists m',
     _add_child m name r alt = inl m'
     /\ dm_name m' = dm_name m
     /\ SgaFsFolderV2Mem_scandir m' = SgaFsFolderV2Mem_scandir m ++ [name]
     /\ Dict.get (dm_children m') name = Some r
     /\ Dict.get (alt_dict m' alt) name = Some r
     /\ (forall k, k <> name ->
           Dict.get (dm_children m') k = Dict.get (dm_children m) k
           /\ Dict.get (dm_files m') k = Dict.get (dm_files m) k
           /\ Dict.get (dm_folders m') k = Dict.get (dm_folders m) k))
  /\
  (Dict.contains (dm_children m) name = true ->
   exists e,
     _add_child m name r alt = inr e
     /\ (Dict.contains (dm_files m) name = true -> e = FileExists)
     /\ (Dict.contains (dm_files m) name = false ->
         Dict.contains (dm_folders m) name = true -> e = DirectoryExists)).
Proof.
  split; intros H; unfold _add_child; rewrite H.
  - assert (Hk : forall (d : dict ref) k, k <> name ->
                   Dict.get (Dict.set d name r) k = Dict.get d k)
      by (intros d k Hne; apply dict_get_set_other; congruence).
    destruct alt; eexists; (split; [reflexivity|]);
      cbn [dm_name dm_children dm_files dm_folders alt_dict];
      unfold SgaFsFolderV2Mem_scandir, Dict.keys;
      cbn [dm_children]; rewrite (dict_set_absent _ _ r H), map_app;
      rewrite <- (dict_set_absent _ _ r H), !dict_get_set;
      repeat split; auto.
  - destruct (Dict.contains (dm_files m) name) eqn:Hf.
    + exists FileExists. repeat split; auto. discriminate.
    + destruct (Dict.contains (dm_folders m) name) eqn:Hd.
      * exists DirectoryExists. repeat split; auto. discriminate.
      * destruct (Dict.get (alt_dict m alt) name); eexists;
          (split; [reflexivity|]); split; discriminate.
Qed.

Lemma add_child_spec_witness :
  (exists m',
     _add_child (mkFolderMem "root" [("a"%string, 1%nat)] []
                   [("a"%string, 1%nat)]) "b" 2%nat the_folders = inl m'
     /\ SgaFsFolderV2Mem_scandir m' = ["a"; "b"]%string
     /\ Dict.get (dm_folders m') "b" = Some 2%nat
     /\ Dict.get (dm_files m') "a" = Some 1%nat)
  /\ _add_child (mkFolderMem "root" [("a"%string, 1%nat)] []
                   [("a"%string, 1%nat)]) "a" 2%nat the_folders
     = inr FileExists.
Proof.
  split.
  - destruct (proj1 (add_child_spec
                       (mkFolderMem "root" [("a"%string, 1%nat)] []
                          [("a"%string, 1%nat)]) "b" 2%nat the_folders)
                eq_refl)
      as (m' & H1 & _ & H3 & _ & H5 & H6).
    exists m'. repeat split; auto.
    destruct (H6 "a"%string ltac:(discriminate)) as (_ & -> & _). reflexivity.
  - destruct (proj2 (add_child_spec
                       (mkFolderMem "root" [("a"%string, 1%nat)] []
                          [("a"%string, 1%nat)]) "a" 2%nat the_folders)
                eq_refl)
      as (e & H1 & H2 & _).
    rewrite H1, (H2 eq_refl). reflexivity.
Defined.

(** X16.  [_add_child] keeps the three dictionaries of a folder in
    step: when the names of [_children] are exactly the names of
    [_files] and [_folders] together, they still are after a child was
    added, and a refused call raises [FileExists] or [DirectoryExists],
    never the [ResourceError] of the last branch. *)
Theorem add_child_consistent (m : SgaFsFolderV2Mem) (name : string) (r : ref)
  (alt : alt_lookup) :
  (forall k, Dict.contains (dm_children m) k =
             Dict.contains (dm_files m) k || Dict.contains (dm_folders m) k) ->
  (forall m', _add_child m name r alt = inl m' ->
     forall k, Dict.contains (dm_children m') k =
               Dict.contains (dm_files m') k || Dict.contains (dm_folders m') k)
  /\
  (forall e, _add_child m name r alt = inr e ->
     e = FileExists \/ e = DirectoryExists).
Proof.
  intros Hinv. unfold _add_child. specialize (Hinv name) as Hn.
  destruct (Dict.contains (dm_children m) name) eqn:Hc.
  - split; [intros m' H|intros e H].
    + destruct (Dict.contains (dm_files m) name);
        [discriminate|].
      destruct (Dict.contains (dm_folders m) name); discriminate.
    + destruct (Dict.contains (dm_files m) name);
        [injection H as <-; auto|].
      destruct (Dict.contains (dm_folders m) name);
        [injection H as <-; auto | discriminate].
  - split; [|destruct alt; discriminate].
    intros m' H k. destruct alt; injection H as <-;
      cbn [dm_children dm_files dm_folders];
      rewrite !dict_contains_set, Hinv;
      destruct (String.eqb name k), (Dict.contains (dm_files m) k),
        (Dict.contains (dm_folders m) k); reflexivity.
Qed.

Lemma add_child_consistent_witness :
  exists m',
    _add_child (SgaFsFolderV2Mem_init "root") "b" 2%nat the_folders = inl m'
    /\ Dict.contains (dm_children m') "b" =
       Dict.contains (dm_files m') "b" || Dict.contains (dm_folders m') "b".
Proof.
  eexists. split; [reflexivity|].
  apply (proj1 (add_child_consistent (SgaFsFolderV2Mem_init "root") "b" 2%nat
                  the_folders (fun k => eq_refl))).
  reflexivity.
Defined.

(** One step of a computation over the state, by evaluation. *)
Ltac run_heap :=
  cbv beta iota zeta
      delta [bindM load store new lift ret throw try_except get_drives
             set_drives as_file load_folder store_folder on_node
             heap _drives fst snd negb].

Section WrapperFacts.

Variable toc_file_name : _SgaTocFileV2 -> result string.
Variable crc32_hash : list byte -> Z.
Variable zlib_decompress : list byte -> result (list byte).
Variable time_time : Q.
Variable Mode_valid : string -> bool.

Let convert_ :=
  _convert_to_memfile toc_file_name crc32_hash zlib_decompress time_time
    Mode_valid.

(** The lazy file never delivers the two namespaces the conversion asks
    for. *)
Lemma lazy_getinfo_details (l : SgaFsFileV2Lazy) (rest : list string) :
  exists e,
    SgaFsFileV2Lazy_getinfo toc_file_name l (NsList (NS_DETAILS :: rest)) = inr e
    /\ (e = TypeError \/ toc_file_name (fl_info l) = inr e).
Proof.
  unfold SgaFsFileV2Lazy_getinfo.
  destruct (toc_file_name (fl_info l)) as [n|e]; cbn; eauto.
Qed.

(** The conversion of a lazy wrapper clears [_is_lazy], fails in
    [getinfo] and leaves the lazy backing in place. *)
Lemma convert_lazy_raises (s : state) (self : ref) (l : SgaFsFileV2Lazy) :
  nth self (heap s) ONone = OFile true (FileLazy l) ->
  exists e,
    convert_ self s =
    (inr e, mkState (replace_nth self (heap s) (OFile false (FileLazy l)))
              (_drives s))
    /\ (e = TypeError \/ toc_file_name (fl_info l) = inr e).
Proof.
  intros H.
  assert (Hlt : (self < length (heap s))%nat)
    by (apply (nth_in_heap _ _ _ _ H); discriminate).
  destruct (lazy_getinfo_details l [NS_ESSENCE]) as (e & He & Hor).
  exists e. split; [|exact Hor].
  destruct s as [h d]. cbn [heap _drives] in *.
  unfold convert_, _convert_to_memfile. run_heap. rewrite H. run_heap.
  unfold SgaFsFileV2_getinfo. run_heap.
  rewrite (nth_replace_nth _ _ _ _ Hlt). run_heap.
  change (NsList [NS_DETAILS; NS_ESSENCE]) with (NsList (NS_DETAILS :: [NS_ESSENCE])).
  rewrite He. reflexivity.
Qed.

(** [openbin] starts with the validation of the mode. *)
Lemma openbin_mode (self : ref) (mode : string) (s : state) :
  SgaFsFileV2_openbin toc_file_name crc32_hash zlib_decompress time_time
    Mode_valid self mode s
  = if Mode_valid mode
    then
      match (if Mode_writing mode then convert_ self else ret tt) s with
      | (inl _, s') =>
          match as_file self s' with
          | (inl f, s'') =>
              (match snd f with
               | FileLazy l => SgaFsFileV2Lazy_openbin Mode_valid l mode
               | FileMem m => SgaFsFileV2Mem_openbin Mode_valid m mode
               end, s'')
          | (inr e, s'') => (inr e, s'')
          end
      | (inr e, s') => (inr e, s')
      end
    else (inr ValueError, s).
Proof.
  unfold SgaFsFileV2_openbin, Mode, bindM, lift, convert_.
  destruct (Mode_valid mode); [|reflexivity].
  unfold ok.
  destruct (Mode_writing mode).
  - destruct (_convert_to_memfile _ _ _ _ _ self s) as [[u|e] s'];
      [|reflexivity].
    destruct (as_file self s') as [[f|e] s'']; [|reflexivity].
    destruct (snd f); reflexivity.
  - unfold ret.
    destruct (as_file self s) as [[f|e] s'']; [|reflexivity].
    destruct (snd f); reflexivity.
Qed.

End WrapperFacts.

(** X17.  [SgaFsFileV2._convert_to_memfile] never converts a lazy file.
    On a wrapper created from a lazy file it raises, out of [getinfo]: the
    error of the record's [name], or the [TypeError] of calling the
    header.  It has cleared [_is_lazy] by then and the backing is still
    the lazy file, so that a second call returns at once and converts
    nothing. *)
Theorem convert_to_memfile_lazy
  (toc_file_name : _SgaTocFileV2 -> result string)
  (crc32_hash : list byte -> Z)
  (zlib_decompress : list byte -> result (list byte)) (time_time : Q)
  (Mode_valid : string -> bool)
  (s : state) (self : ref) (l : SgaFsFileV2Lazy) :
  nth self (heap s) ONone = OFile true (FileLazy l) ->
  exists e s',
    _convert_to_memfile toc_file_name crc32_hash zlib_decompress time_time
      Mode_valid self s = (inr e, s')
    /\ (e = TypeError \/ toc_file_name (fl_info l) = inr e)
    /\ nth self (heap s') ONone = OFile false (FileLazy l)
    /\ (forall r, r <> self -> nth r (heap s') ONone = nth r (heap s) ONone)
    /\ _drives s' = _drives s
    /\ _convert_to_memfile toc_file_name crc32_hash zlib_decompress time_time
         Mode_valid self s' = (inl tt, s').
Proof.
  intros H.
  assert (Hlt : (self < length (heap s))%nat)
    by (apply (nth_in_heap _ _ _ _ H); discriminate).
  destruct (convert_lazy_raises toc_file_name crc32_hash zlib_decompress
              time_time Mode_valid s self l H) as (e & He & Hor).
  exists e. eexists. split; [exact He|]. split; [exact Hor|].
  cbn [heap _drives].
  assert (Hn : nth self (replace_nth self (heap s) (OFile false (FileLazy l)))
                 ONone = OFile false (FileLazy l))
    by (apply nth_replace_nth; exact Hlt).
  repeat split.
  - exact Hn.
  - intros r Hr. apply nth_replace_nth_other. congruence.
  - apply convert_to_memfile_mem with (backing := FileLazy l). exact Hn.
Qed.

Lemma convert_to_memfile_lazy_witness :
  exists e s',
    _convert_to_memfile FsExamples.no_name Examples.hash Examples.inflate
      Examples.clock FsExamples.modes 0%nat
      (mkState [OFile true (FileLazy (mkFileLazy Examples.dow_file
                                        (mkFileData Examples.dow_file Examples.names
                                           (window_of_bytes Examples.failure Examples.archive)
                                           (LazyHeader (window_of_bytes Examples.failure Examples.control_header)))))]
               []) = (inr e, s')
    /\ nth 0%nat (heap s') ONone =
       OFile false (FileLazy (mkFileLazy Examples.dow_file
                                (mkFileData Examples.dow_file Examples.names
                                   (window_of_bytes Examples.failure Examples.archive)
                                   (LazyHeader (window_of_bytes Examples.failure Examples.control_header))))).
Proof.
  destruct (convert_to_memfile_lazy FsExamples.no_name Examples.hash
              Examples.inflate Examples.clock FsExamples.modes
              (mkState [OFile true (FileLazy (mkFileLazy Examples.dow_file
                                                (mkFileData Examples.dow_file Examples.names
                                                   (window_of_bytes Examples.failure Examples.archive)
                                                   (LazyHeader (window_of_bytes Examples.failure Examples.control_header)))))]
                       []) 0%nat _ eq_refl)
    as (e & s' & H1 & _ & H3 & _).
  exists e, s'. split; assumption.
Defined.

(** X18.  A file loaded from an archive is read-only.  On a wrapper
    whose backing is a lazy file, [openbin] in a writing mode that
    [Mode] accepts and [recalculate_crc32] both end with an exception,
    whether the failed conversion has been attempted before or not, and
    the backing stays the lazy file with [_is_lazy] cleared.  A mode that
    [Mode] rejects is a [ValueError] before anything else: the wrapper,
    and its [_is_lazy], stay as they were. *)
Theorem lazy_file_read_only
  (toc_file_name : _SgaTocFileV2 -> result string)
  (crc32_hash : list byte -> Z)
  (zlib_decompress : list byte -> result (list byte)) (time_time : Q)
  (Mode_valid : string -> bool)
  (s : state) (self : ref) (is_lazy : bool) (l : SgaFsFileV2Lazy) :
  nth self (heap s) ONone = OFile is_lazy (FileLazy l) ->
  (forall mode, Mode_valid mode = true -> Mode_writing mode = true ->
     exists e s',
       SgaFsFileV2_openbin toc_file_name crc32_hash zlib_decompress time_time
         Mode_valid self mode s = (inr e, s')
       /\ nth self (heap s') ONone = OFile false (FileLazy l))
  /\
  (forall mode, Mode_valid mode = false ->
     SgaFsFileV2_openbin toc_file_name crc32_hash zlib_decompress time_time
       Mode_valid self mode s = (inr ValueError, s))
  /\
  (exists e s',
     SgaFsFileV2_recalculate_crc32 toc_file_name crc32_hash zlib_decompress
       time_time Mode_valid self s = (inr e, s')
     /\ nth self (heap s') ONone = OFile false (FileLazy l)).
Proof.
  intros H.
  assert (Hbad : forall mode, Mode_valid mode = false ->
            SgaFsFileV2_openbin toc_file_name crc32_hash zlib_decompress
              time_time Mode_valid self mode s = (inr ValueError, s)).
  { intros mode Hv. rewrite openbin_mode, Hv. reflexivity. }
  destruct is_lazy.
  - destruct (convert_lazy_raises toc_file_name crc32_hash zlib_decompress
                time_time Mode_valid s self l H) as (e & He & _).
    assert (Hlt : (self < length (heap s))%nat)
      by (apply (nth_in_heap _ _ _ _ H); discriminate).
    split; [intros mode Hv Hm | split; [exact Hbad|]];
      exists e; eexists; split.
    + rewrite openbin_mode, Hv, Hm, He. reflexivity.
    + cbn [heap]. apply nth_replace_nth. exact Hlt.
    + unfold SgaFsFileV2_recalculate_crc32. unfold bindM at 1.
      rewrite He. reflexivity.
    + cbn [heap]. apply nth_replace_nth. exact Hlt.
  - pose proof (convert_to_memfile_mem toc_file_name crc32_hash zlib_decompress
                  time_time Mode_valid s self (FileLazy l) H) as Hc.
    split; [intros mode Hv Hm | split; [exact Hbad|]];
      exists RelicToolError, s; (split; [|exact H]).
    + rewrite openbin_mode, Hv, Hm, Hc.
      unfold as_file, bindM, load. rewrite H. cbn [snd].
      unfold SgaFsFileV2Lazy_openbin, Mode. rewrite Hv. cbn [Py.bind Py.ok].
      unfold Py.ok, Py.bind. rewrite Hm. reflexivity.
    + unfold SgaFsFileV2_recalculate_crc32. unfold bindM at 1.
      rewrite Hc. destruct s as [h d]. cbn [heap] in H. run_heap. rewrite H.
      reflexivity.
Qed.

Lemma lazy_file_read_only_witness :
  let s :=
    mkState [OFile true (FileLazy (mkFileLazy Examples.dow_file
                                     (mkFileData Examples.dow_file Examples.names
                                        (window_of_bytes Examples.failure Examples.archive)
                                        (LazyHeader (window_of_bytes Examples.failure Examples.control_header)))))]
            [] in
  (exists e s',
      SgaFsFileV2_openbin FsExamples.no_name Examples.hash Examples.inflate
        Examples.clock FsExamples.modes 0%nat "w" s = (inr e, s')) /\
  SgaFsFileV2_openbin FsExamples.no_name Examples.hash Examples.inflate
    Examples.clock FsExamples.modes 0%nat "zw" s = (inr ValueError, s).
Proof.
  cbn zeta.
  pose proof (lazy_file_read_only FsExamples.no_name Examples.hash
                Examples.inflate Examples.clock FsExamples.modes
                (mkState [OFile true (FileLazy (mkFileLazy Examples.dow_file
                                                  (mkFileData Examples.dow_file Examples.names
                                                     (window_of_bytes Examples.failure Examples.archive)
                                                     (LazyHeader (window_of_bytes Examples.failure Examples.control_header)))))]
                         []) 0%nat true _ eq_refl) as (Hw & Hbad & _).
  split.
  - destruct (Hw "w"%string eq_refl eq_refl) as (e & s' & H1 & _).
    exists e, s'. exact H1.
  - exact (Hbad "zw"%string eq_refl).
Defined.

(** X19.  [SgaFsFileV2Mem.getinfo] never delivers the details or the
    essence namespace.  Whenever it returns, the raw info has the basic
    namespace with the name of the file and no entry under ["details"]
    or ["essence"], so that [Info.get] answers [None] for every key of
    both: the call raises when details are asked for, and the CRC and the
    storage type are stored under top-level keys. *)
Theorem mem_getinfo_namespaces (m : SgaFsFileV2Mem) (ns : namespaces)
  (info : Info) :
  SgaFsFileV2Mem_getinfo m ns = inl info ->
  Dict.get (raw info) NS_BASIC = Some (Namespace (build_ns_basic (fm_name m) false))
  /\ Dict.get (raw info) NS_DETAILS = None
  /\ Dict.get (raw info) NS_ESSENCE = None
  /\ (forall key, Info_get info NS_DETAILS key = inl PNone
                  /\ Info_get info NS_ESSENCE key = inl PNone)
  /\ (ns_in NS_ESSENCE ns = inl true ->
      Dict.get (raw info) "crc32" = Some (Value (fm_crc32 m))
      /\ Dict.get (raw info) "storage_type" = Some (Value (fm_storage_type m))).
Proof.
  unfold SgaFsFileV2Mem_getinfo.
  destruct (ns_in NS_DETAILS ns) as [[|]|e]; cbn [bind]; try discriminate.
  destruct (ns_in NS_ESSENCE ns) as [[|]|e]; cbn [bind]; try discriminate;
    intros H; injection H as <-; cbn; repeat split; auto; discriminate.
Qed.

Lemma mem_getinfo_namespaces_witness :
  exists info,
    SgaFsFileV2Mem_getinfo FsExamples.mem_file (NsList [NS_BASIC; NS_ESSENCE])
    = inl info
    /\ Info_get info NS_ESSENCE "crc32" = inl PNone.
Proof.
  eexists. split; [reflexivity|].
  apply (mem_getinfo_namespaces FsExamples.mem_file
           (NsList [NS_BASIC; NS_ESSENCE]) _ eq_refl).
Defined.

Section FolderNodeFacts.

(** Conversion of a wrapper that is not lazy does nothing. *)
Lemma convert_to_memfolder_mem (s : state) (self : ref)
  (backing : folder_backing) :
  nth self (heap s) ONone = OFolder false backing ->
  _convert_to_memfolder self s = (inl tt, s).
Proof.
  intros H. destruct s as [h d]. cbn [heap] in H.
  unfold _convert_to_memfolder. run_heap. rewrite H. reflexivity.
Qed.

Lemma folder_setinfo_unwinds (depth : nat) (self : ref)
  (info : dict (dict pyobj)) (s : state) :
  exists e s', SgaFsFolderV2_setinfo depth self info s = (inr e, s').
Proof.
  revert s. induction depth as [|depth IH]; intros s.
  - exists RecursionError, s. reflexivity.
  - cbn [SgaFsFolderV2_setinfo]. unfold bindM at 1.
    destruct (_convert_to_memfolder self s) as [[[]|e] s'].
    + apply IH.
    + exists e, s'. reflexivity.
Qed.

(** The conversion of a lazy wrapper whose name resolves: the backing
    becomes a new in-memory folder of that name, and the two loops find
    nothing to migrate in it. *)
Lemma convert_to_memfolder_lazy (s : state) (self : ref)
  (l : SgaFsFolderV2Lazy) (name : string) :
  nth self (heap s) ONone = OFolder true (FolderLazy l) ->
  SgaFsFolderV2Lazy_name l = inl name ->
  _convert_to_memfolder self s =
  (inl tt,
   mkState (replace_nth self (heap s)
              (OFolder false (FolderMem (SgaFsFolderV2Mem_init name))))
           (_drives s)).
Proof.
  intros H Hname.
  assert (Hlt : (self < length (heap s))%nat)
    by (apply (nth_in_heap _ _ _ _ H); discriminate).
  destruct s as [h d]. cbn [heap _drives] in *.
  unfold _convert_to_memfolder. run_heap. rewrite H. run_heap.
  rewrite Hname. run_heap. rewrite replace_nth_twice.
  unfold folder_folders, folder_files. run_heap.
  rewrite (nth_replace_nth _ _ _ _ Hlt).
  cbn [SgaFsFolderV2Mem_folders SgaFsFolderV2Mem_init dm_folders Dict.values
       map for_each fold_left].
  run_heap. rewrite (nth_replace_nth _ _ _ _ Hlt). reflexivity.
Qed.

End FolderNodeFacts.

(** X20.  [SgaFsFolderV2.setinfo] never returns: it converts the
    wrapper and calls itself, so that for every node, info and stack
    depth it ends with an exception; on a wrapper that is not lazy the
    conversion does nothing and the call runs into the recursion limit,
    with the filesystem as it was. *)
Theorem folder_setinfo_recursion (depth : nat) (self : ref)
  (info : dict (dict pyobj)) (s : state) :
  (exists e s', SgaFsFolderV2_setinfo depth self info s = (inr e, s'))
  /\ (forall backing,
        nth self (heap s) ONone = OFolder false backing ->
        SgaFsFolderV2_setinfo depth self info s = (inr RecursionError, s)).
Proof.
  split; [apply folder_setinfo_unwinds|].
  intros backing H. induction depth as [|depth IH]; [reflexivity|].
  cbn [SgaFsFolderV2_setinfo]. unfold bindM at 1.
  rewrite (convert_to_memfolder_mem _ _ _ H). exact IH.
Qed.

Lemma folder_setinfo_recursion_witness :
  SgaFsFolderV2_setinfo 1000 0%nat []
    (mkState [OFolder false (FolderMem (SgaFsFolderV2Mem_init "root"))] [])
  = (inr RecursionError,
     mkState [OFolder false (FolderMem (SgaFsFolderV2Mem_init "root"))] []).
Proof.
  apply (proj2 (folder_setinfo_recursion 1000 0%nat []
                  (mkState [OFolder false
                              (FolderMem (SgaFsFolderV2Mem_init "root"))] []))
           (FolderMem (SgaFsFolderV2Mem_init "root"))).
  reflexivity.
Defined.

(** X21.  [SgaFsFolderV2._convert_to_memfolder] migrates nothing.  On
    a lazy wrapper whose name resolves, the conversion returns, and the
    backing is then a new in-memory folder with that name and no
    children, whatever files and folders the lazy folder had: the loops
    that should carry them over read the new backing.  Nothing else in
    the filesystem changes. *)
Theorem convert_to_memfolder_empties (s : state) (self : ref)
  (l : SgaFsFolderV2Lazy) (name : string) :
  nth self (heap s) ONone = OFolder true (FolderLazy l) ->
  SgaFsFolderV2Lazy_name l = inl name ->
  exists s',
    _convert_to_memfolder self s = (inl tt, s')
    /\ nth self (heap s') ONone =
       OFolder false (FolderMem (mkFolderMem name [] [] []))
    /\ node_scandir self s' = (inl [], s')
    /\ (forall child, node_get_child self child s' = (inl None, s'))
    /\ (forall r, r <> self -> nth r (heap s') ONone = nth r (heap s) ONone)
    /\ _drives s' = _drives s.
Proof.
  intros H Hname.
  assert (Hlt : (self < length (heap s))%nat)
    by (apply (nth_in_heap _ _ _ _ H); discriminate).
  eexists. split; [exact (convert_to_memfolder_lazy s self l name H Hname)|].
  destruct s as [h d]. cbn [heap _drives] in *.
  assert (Hn : nth self (replace_nth self h
                           (OFolder false (FolderMem (SgaFsFolderV2Mem_init name))))
                 ONone = OFolder false (FolderMem (mkFolderMem name [] [] [])))
    by (apply nth_replace_nth; exact Hlt).
  repeat split.
  - exact Hn.
  - unfold node_scandir, folder_scandir. run_heap. rewrite Hn. run_heap.
    rewrite Hn. reflexivity.
  - intros child. unfold node_get_child, folder_get_child. run_heap.
    rewrite Hn. run_heap. rewrite Hn. reflexivity.
  - intros r Hr. apply nth_replace_nth_other. congruence.
Qed.

Lemma convert_to_memfolder_empties_witness :
  exists s',
    _convert_to_memfolder 0%nat
      (mkState [OFolder true
                  (FolderLazy (mkFolderLazy (mkTocFolder 0 0 0 0 1)
                                 (fun _ => ok "root"%string)
                                 (window_of_bytes Examples.failure []) [1%nat] [0%nat]
                                 None None));
                OFileMem FsExamples.mem_file] [])
    = (inl tt, s')
    /\ node_scandir 0%nat s' = (inl [], s').
Proof.
  destruct (convert_to_memfolder_empties
              (mkState [OFolder true
                          (FolderLazy (mkFolderLazy (mkTocFolder 0 0 0 0 1)
                                         (fun _ => ok "root"%string)
                                         (window_of_bytes Examples.failure []) [1%nat] [0%nat]
                                         None None));
                        OFileMem FsExamples.mem_file] [])
              0%nat _ "root" eq_refl eq_refl)
    as (s' & H1 & _ & H3 & _).
  exists s'. split; assumption.
Defined.

(** X22.  A wrapped file cannot be put into a folder.  [add_file] of an
    in-memory folder asks the file for its [name]; the wrapper
    [SgaFsFileV2] and the lazy file inherit the property that raises
    [NotImplementedError], and the folder is left as it was.  An
    in-memory file, which has a name, is added under it when the name is
    free. *)
Theorem add_file_needs_name (s : state) (self file : ref)
  (m : SgaFsFolderV2Mem) :
  nth self (heap s) ONone = OFolderMem m ->
  (forall is_lazy backing,
     nth file (heap s) ONone = OFile is_lazy backing ->
     backing_add_file self file s = (inr NotImplementedError, s))
  /\ (forall l,
        nth file (heap s) ONone = OFileLazy l ->
        backing_add_file self file s = (inr NotImplementedError, s))
  /\ (forall f,
        nth file (heap s) ONone = OFileMem f ->
        Dict.contains (dm_children m) (fm_name f) = false ->
        exists s',
          backing_add_file self file s = (inl tt, s')
          /\ node_get_child self (fm_name f) s' = (inl (Some file), s')
          /\ node_scandir self s' =
             (inl (SgaFsFolderV2Mem_scandir m ++ [fm_name f]), s')).
Proof.
  intros H. destruct s as [h d]. cbn [heap] in *.
  assert (Hlt : (self < length h)%nat)
    by (apply (nth_in_heap _ _ _ _ H); discriminate).
  split; [|split].
  - intros is_lazy backing Hf. unfold backing_add_file. run_heap. rewrite H.
    unfold node_name. run_heap. rewrite Hf. reflexivity.
  - intros l Hf. unfold backing_add_file. run_heap. rewrite H.
    unfold node_name. run_heap. rewrite Hf. reflexivity.
  - intros f Hf Hfree.
    eexists. split; [|split].
    + unfold backing_add_file. run_heap. rewrite H.
      unfold node_name. run_heap. rewrite Hf, H.
      unfold _add_child. rewrite Hfree. run_heap. rewrite H. reflexivity.
    + unfold node_get_child, folder_get_child. run_heap.
      rewrite (nth_replace_nth _ _ _ _ Hlt). run_heap.
      rewrite (nth_replace_nth _ _ _ _ Hlt). cbn [dm_children].
      rewrite dict_get_set. reflexivity.
    + unfold node_scandir, folder_scandir. run_heap.
      rewrite (nth_replace_nth _ _ _ _ Hlt). run_heap.
      rewrite (nth_replace_nth _ _ _ _ Hlt).
      unfold SgaFsFolderV2Mem_scandir, Dict.keys. cbn [dm_children].
      rewrite (dict_set_absent _ _ file Hfree), map_app. reflexivity.
Qed.

Lemma add_file_needs_name_witness :
  backing_add_file 0%nat 1%nat
    (mkState [OFolderMem (SgaFsFolderV2Mem_init "root");
              OFile false (FileMem FsExamples.mem_file)] [])
  = (inr NotImplementedError,
     mkState [OFolderMem (SgaFsFolderV2Mem_init "root");
              OFile false (FileMem FsExamples.mem_file)] []).
Proof.
  apply (proj1 (add_file_needs_name
                  (mkState [OFolderMem (SgaFsFolderV2Mem_init "root");
                            OFile false (FileMem FsExamples.mem_file)] [])
                  0%nat 1%nat (SgaFsFolderV2Mem_init "root") eq_refl)
           false (FileMem FsExamples.mem_file)).
  reflexivity.
Defined.

Section LookupFacts.

Variable toc_file_name : _SgaTocFileV2 -> result string.

(** A path that starts with a separator has the root and at least one
    more part. *)
Lemma split_parts_absolute (path : string) :
  Str.first (Str.replace "\"%char SgaPathResolver.SEP path)
  = inl SgaPathResolver.SEP ->
  exists p ps,
    SgaPathResolver.split_parts path = inl (SgaPathResolver.ROOT :: p :: ps).
Proof.
  unfold SgaPathResolver.split_parts, SgaPathResolver.fix_seperator.
  cbn [bind ok].
  destruct (Str.replace "\"%char SgaPathResolver.SEP path) as [|c rest];
    [discriminate|].
  intros H. injection H as ->. cbn [Str.split].
  rewrite Ascii.eqb_refl.
  destruct (split_cons SgaPathResolver.SEP rest) as (p & ps & ->).
  exists p, ps. cbn [Str.first bind ok]. rewrite Ascii.eqb_refl. reflexivity.
Qed.

(** [split] raises nothing but [IndexError]. *)
Lemma split_raises_index (path : string) (e : exn) :
  SgaPathResolver.split path = inr e -> e = IndexError.
Proof.
  unfold SgaPathResolver.split, SgaPathResolver.split_parts,
    SgaPathResolver.fix_seperator.
  cbn [bind ok].
  set (s := Str.replace "\"%char SgaPathResolver.SEP path).
  assert (Hj : forall parts e,
             bind (SgaPathResolver.join (map Some (removelast parts)) false)
                  (fun parent => ok (parent, last parts EmptyString))
             = inr e -> e = IndexError).
  { intros parts e0.
    destruct (Exists_dec (fun p => p = EmptyString) (removelast parts)
                (fun p => string_dec p EmptyString)) as [HE | HN].
    - rewrite join_unfold.
      rewrite (proj2 (fold_step_given (removelast parts) EmptyString) HE).
      cbn [bind]. congruence.
    - assert (HF : Forall (fun p => p <> EmptyString) (removelast parts)).
      { apply Forall_forall. intros p Hp Hq. apply HN.
        apply Exists_exists. eauto. }
      rewrite join_unfold.
      destruct (proj1 (fold_step_given (removelast parts) EmptyString) HF)
        as [r ->].
      cbn [bind]. discriminate. }
  destruct (split_cons SgaPathResolver.SEP s) as (p & ps & ->).
  destruct p as [|c p].
  - destruct s as [|c s']; cbn [Str.first bind ok raise]; [congruence|].
    destruct (Ascii.eqb c SgaPathResolver.SEP); cbn [bind]; apply Hj.
  - cbn [bind]. apply Hj.
Qed.

(** The alias goes into [build] as a path component: without one,
    [join] meets [None] first. *)
Lemma build_without_alias (parent : string) :
  SgaPathResolver.build [None; Some parent] None = inr AttributeError.
Proof. reflexivity. Qed.

Lemma get_parent_and_child_needs_alias (path : string) (s : state) :
  Str.contains ":"%char path = false ->
  exists e,
    _get_parent_and_child toc_file_name path s = (inr e, s)
    /\ (e = AttributeError \/ e = IndexError).
Proof.
  intros H. unfold _get_parent_and_child, SgaPathResolver.parse. rewrite H.
  destruct (SgaPathResolver.split path) as [[parent child]|e] eqn:E.
  - exists AttributeError. split; [|now left]. reflexivity.
  - exists e. split; [reflexivity|]. right. exact (split_raises_index _ _ E).
Qed.

(** Once the walk of [_getnode_from_drive] has raised, the remaining
    parts change nothing. *)
Lemma walk_raise (parts : list string) (m : M (option ref)) (s s' : state)
  (e : exn) :
  m s = (inr e, s') ->
  fold_left
    (fun acc part =>
       bindM acc (fun current =>
         match current with
         | None => throw ResourceNotFound
         | Some node =>
             bindM (node_getinfo toc_file_name node (NsStr "basic"))
               (fun info =>
                  bindM (lift (Info_get info "basic" "is_dir"))
                    (fun is_dir =>
                       if negb (truthy is_dir) then throw DirectoryExpected
                       else node_get_child node part))
         end))
    parts m s = (inr e, s').
Proof.
  revert m. induction parts as [|p parts IH]; intros m H; [exact H|].
  cbn [fold_left]. apply IH. unfold bindM at 1. rewrite H. reflexivity.
Qed.

(** The walk over an absolute path: the root folder is asked for a
    child named ["/"], and when it has none the next part finds nothing
    to descend into. *)
Lemma getnode_from_drive_absolute (drive root : ref) (path : string)
  (exists_ : bool) (info : Info) (s s1 s2 s3 : state) :
  drive_root drive s = (inl root, s1) ->
  node_getinfo toc_file_name root (NsStr "basic") s1 = (inl info, s2) ->
  Info_get info "basic" "is_dir" = inl (PBool true) ->
  node_get_child root "/" s2 = (inl None, s3) ->
  Str.first (Str.replace "\"%char SgaPathResolver.SEP path)
  = inl SgaPathResolver.SEP ->
  _getnode_from_drive toc_file_name drive path exists_ s
  = (inr ResourceNotFound, s3).
Proof.
  intros Hroot Hinfo Hdir Hchild Habs.
  destruct (split_parts_absolute path Habs) as (p & ps & Hparts).
  unfold _getnode_from_drive. unfold bindM at 1. rewrite Hroot.
  unfold bindM at 1, lift at 1. rewrite Hparts.
  unfold bindM at 1. cbn [fold_left].
  rewrite (walk_raise ps _ s1 s3 ResourceNotFound); [reflexivity|].
  unfold bindM at 1. unfold bindM at 1. unfold ret at 1.
  unfold bindM at 1. rewrite Hinfo.
  unfold bindM at 1, lift at 1. rewrite Hdir. cbn [truthy negb].
  change SgaPathResolver.ROOT with "/"%string. rewrite Hchild. reflexivity.
Qed.

End LookupFacts.

(** X23.  Absolute paths are never found.  [split_parts] keeps the
    leading separator as a part of its own, so the walk of
    [_getnode_from_drive] asks the root folder for a child named ["/"];
    when the root is a folder without such a child, every path that
    starts with a separator ends in [ResourceNotFound], with or without
    [exists], and so does [_getnode] of the alias, a colon and that
    path, which is what [build] produces. *)
Theorem getnode_absolute_not_found
  (toc_file_name : _SgaTocFileV2 -> result string)
  (drive root : ref) (path : string) (exists_ : bool) (info : Info)
  (s s1 s2 s3 : state) :
  drive_root drive s = (inl root, s1) ->
  node_getinfo toc_file_name root (NsStr "basic") s1 = (inl info, s2) ->
  Info_get info "basic" "is_dir" = inl (PBool true) ->
  node_get_child root "/" s2 = (inl None, s3) ->
  Str.first (Str.replace "\"%char SgaPathResolver.SEP path)
  = inl SgaPathResolver.SEP ->
  _getnode_from_drive toc_file_name drive path exists_ s
  = (inr ResourceNotFound, s3)
  /\ (forall alias,
        Str.contains ":"%char alias = false ->
        Dict.get (_drives s) alias = Some drive ->
        _getnode toc_file_name (alias ++ ":" ++ path) exists_ s
        = (inr ResourceNotFound, s3)).
Proof.
  intros Hroot Hinfo Hdir Hchild Habs.
  pose proof (getnode_from_drive_absolute toc_file_name drive root path
                exists_ info s s1 s2 s3 Hroot Hinfo Hdir Hchild Habs) as H.
  split; [exact H|].
  intros alias Ha Hd. unfold _getnode, SgaPathResolver.parse.
  change (alias ++ ":" ++ path)%string
    with (alias ++ String ":"%char path)%string.
  destruct (split_first_app ":"%char alias path Ha) as [-> ->].
  unfold bindM at 1, get_drives at 1. rewrite Hd. exact H.
Qed.

Lemma getnode_absolute_not_found_witness :
  fst (_getnode FsExamples.no_name ("data" ++ ":" ++ "/a/b") true
         FsExamples.drive_state) = inr ResourceNotFound.
Proof.
  destruct (drive_root 1%nat FsExamples.drive_state) as [[root|] s1] eqn:E1;
    [|vm_compute in E1; discriminate].
  destruct (node_getinfo FsExamples.no_name root (NsStr "basic") s1)
    as [[info|] s2] eqn:E2;
    [|vm_compute in E1; injection E1 as <- <-; vm_compute in E2; discriminate].
  destruct (node_get_child root "/" s2) as [[[c|]|] s3] eqn:E3.
  - vm_compute in E1; injection E1 as <- <-.
    vm_compute in E2; injection E2 as <- <-.
    vm_compute in E3. discriminate.
  - rewrite (proj2 (getnode_absolute_not_found FsExamples.no_name 1%nat root
                      "/a/b" true info FsExamples.drive_state s1 s2 s3
                      E1 E2
                      ltac:(vm_compute in E1; injection E1 as <- <-;
                            vm_compute in E2; injection E2 as <- <-;
                            reflexivity)
                      E3 eq_refl)
               "data"%string eq_refl eq_refl).
    reflexivity.
  - vm_compute in E1; injection E1 as <- <-.
    vm_compute in E2; injection E2 as <- <-.
    vm_compute in E3. discriminate.
Defined.

(** X24.  [add_drive] registers a drive under its alias, once.  For a
    drive whose alias is not taken, the call returns the drive, appends
    the alias to [_drives] and touches no object; [_getnode] of that
    alias, a colon and a path is then the walk from that drive; and a
    second [add_drive] of it raises [DriveExistsError] and changes
    nothing. *)
Theorem add_drive_registers
  (toc_file_name : _SgaTocFileV2 -> result string)
  (drive : ref) (alias : string) (s : state) :
  drive_alias drive s = (inl alias, s) ->
  Dict.contains (_drives s) alias = false ->
  let s' := mkState (heap s) (_drives s ++ [(alias, drive)]) in
  add_drive drive s = (inl drive, s')
  /\ add_drive drive s' = (inr DriveExistsError, s')
  /\ (Str.contains ":"%char alias = false ->
      forall path exists_,
        _getnode toc_file_name (alias ++ ":" ++ path) exists_ s'
        = _getnode_from_drive toc_file_name drive path exists_ s').
Proof.
  intros Ha Hfree s'.
  assert (Ha' : drive_alias drive s' = (inl alias, s')).
  { unfold drive_alias, bindM, load in *. subst s'. cbn [heap] in *.
    destruct (nth drive (heap s) ONone); try discriminate;
      injection Ha as <-; reflexivity. }
  assert (Hget : Dict.get (_drives s') alias = Some drive).
  { subst s'. cbn [_drives]. rewrite <- (dict_set_absent _ _ drive Hfree).
    apply dict_get_set. }
  split; [|split].
  - unfold add_drive. unfold bindM at 1. rewrite Ha.
    unfold bindM at 1, get_drives at 1. rewrite Hfree.
    unfold bindM at 1. rewrite Ha.
    unfold bindM, set_drives, ret. rewrite (dict_set_absent _ _ drive Hfree).
    reflexivity.
  - unfold add_drive. unfold bindM at 1. rewrite Ha'.
    unfold bindM at 1, get_drives at 1. unfold Dict.contains. rewrite Hget.
    reflexivity.
  - intros Hc path exists_. unfold _getnode, SgaPathResolver.parse.
    change (alias ++ ":" ++ path)%string
      with (alias ++ String ":"%char path)%string.
    destruct (split_first_app ":"%char alias path Hc) as [-> ->].
    unfold bindM at 1, get_drives at 1. rewrite Hget. reflexivity.
Qed.

Lemma add_drive_registers_witness :
  add_drive 1%nat
    (mkState [OFolderMem (SgaFsFolderV2Mem_init "root");
              ODriveMem "Data" "data" 0%nat] [])
  = (inl 1%nat,
     mkState [OFolderMem (SgaFsFolderV2Mem_init "root");
              ODriveMem "Data" "data" 0%nat] [("data"%string, 1%nat)]).
Proof.
  apply (add_drive_registers FsExamples.no_name 1%nat "data"
           (mkState [OFolderMem (SgaFsFolderV2Mem_init "root");
                     ODriveMem "Data" "data" 0%nat] [])).
  - reflexivity.
  - reflexivity.
Defined.

(** X25.  [makedir] creates neither a drive nor a folder without an
    alias.  A path that names a drive root fails in the constructor of
    the drive with [RelicToolError]; a path without an alias fails before
    any lookup, with [AttributeError] when [build] is handed [None] as a
    path component, or with the [IndexError] of [split].  Both leave the
    filesystem as it was, with or without [recreate]. *)
Theorem makedir_fails
  (toc_file_name : _SgaTocFileV2 -> result string)
  (opendir : string -> M SubFS) (path : string) (recreate : bool) (s : state) :
  (forall alias,
     SgaPathResolver.parse path = (Some alias, SgaPathResolver.ROOT) ->
     makedir toc_file_name opendir path recreate s = (inr RelicToolError, s))
  /\ (Str.contains ":"%char path = false ->
      exists e,
        makedir toc_file_name opendir path recreate s = (inr e, s)
        /\ (e = AttributeError \/ e = IndexError)).
Proof.
  split.
  - intros alias H. unfold makedir. rewrite H. reflexivity.
  - intros H.
    destruct (get_parent_and_child_needs_alias toc_file_name path s H)
      as (e & He & Hor).
    exists e. split; [|exact Hor].
    unfold makedir, SgaPathResolver.parse. rewrite H.
    unfold bindM at 1. unfold bindM at 1. rewrite He. reflexivity.
Qed.

Lemma makedir_fails_witness :
  makedir FsExamples.no_name (fun p => ret (mkSubFS p)) "art" true
    FsExamples.drive_state
  = (inr AttributeError, FsExamples.drive_state).
Proof.
  destruct (proj2 (makedir_fails FsExamples.no_name (fun p => ret (mkSubFS p))
                     "art" true FsExamples.drive_state) eq_refl)
    as (e & He & _).
  rewrite He. vm_compute in He. injection He as <-. reflexivity.
Defined.

(** X26.  [makedirs] with [recreate] always fails for a path with an
    alias: it hands the root of the drive to [makedir], which fails in
    the constructor of the drive, or, for an empty alias, in [split] of
    the empty path.  The filesystem is left as it was. *)
Theorem makedirs_recreate_raises
  (toc_file_name : _SgaTocFileV2 -> result string)
  (opendir : string -> M SubFS) (path : string) (s : state) :
  Str.contains ":"%char path = true ->
  exists e,
    makedirs toc_file_name opendir path true s = (inr e, s)
    /\ (e = RelicToolError \/ e = IndexError).
Proof.
  intros H. unfold makedirs, SgaPathResolver.parse. rewrite H.
  destruct (Str.split_first ":"%char path) as [alias rest] eqn:Es.
  destruct (split_first_inv _ _ _ _ H Es) as [_ Ha].
  destruct alias as [|a alias].
  - exists IndexError. split; [reflexivity | now right].
  - exists RelicToolError. split; [|now left].
    change (SgaPathResolver.build [] (Some (String a alias)))
      with (@inl string exn (String a alias ++ String ":"%char SgaPathResolver.ROOT)%string).
    unfold bindM at 1, lift at 1. unfold bindM at 1.
    assert (Hp : SgaPathResolver.parse
                   (String a alias ++ String ":"%char SgaPathResolver.ROOT)
                 = (Some (String a alias), SgaPathResolver.ROOT)).
    { unfold SgaPathResolver.parse.
      destruct (split_first_app ":"%char (String a alias) SgaPathResolver.ROOT Ha)
        as [-> ->]. reflexivity. }
    unfold makedir. rewrite Hp. reflexivity.
Qed.

Lemma makedirs_recreate_raises_witness :
  exists e,
    makedirs FsExamples.no_name (fun p => ret (mkSubFS p)) "data:/art/new" true
      FsExamples.drive_state = (inr e, FsExamples.drive_state).
Proof.
  destruct (makedirs_recreate_raises FsExamples.no_name
              (fun p => ret (mkSubFS p)) "data:/art/new"
              FsExamples.drive_state eq_refl) as (e & He & _).
  exists e. exact He.
Defined.

(** X27.  [remove] and [removedir] never return.  The root is refused
    with [FileExpected] and [RemoveRootError]; otherwise the parent is
    looked up and its [remove_file] or [remove_folder] is the inherited
    method that raises.  When nothing is left of the alias after the
    first [parse], the lookup itself fails as for a path without alias,
    and the filesystem is left as it was. *)
Theorem remove_never_returns
  (toc_file_name : _SgaTocFileV2 -> result string) (path : string) (s : state) :
  (exists e s', remove toc_file_name path s = (inr e, s'))
  /\ (exists e s', removedir toc_file_name path s = (inr e, s'))
  /\ (Str.contains ":"%char (snd (SgaPathResolver.parse path)) = false ->
      exists e e',
        remove toc_file_name path s = (inr e, s)
        /\ removedir toc_file_name path s = (inr e', s)
        /\ (e = FileExpected \/ e = AttributeError \/ e = IndexError)
        /\ (e' = RemoveRootError \/ e' = AttributeError \/ e' = IndexError)).
Proof.
  unfold remove, removedir.
  destruct (SgaPathResolver.parse path) as [alias p]. cbn [snd].
  destruct (String.eqb p SgaPathResolver.ROOT) eqn:Er.
  - split; [exists FileExpected, s; reflexivity|].
    split; [exists RemoveRootError, s; reflexivity|].
    intros _. exists FileExpected, RemoveRootError.
    split; [reflexivity|]. split; [reflexivity|]. split; left; reflexivity.
  - assert (Hfile : forall parent child s0,
               exists e, node_remove_file parent child s0 = (inr e, s0)).
    { intros parent child s0. unfold node_remove_file, bindM, load.
      destruct (nth parent (heap s0) ONone); eexists; reflexivity. }
    assert (Hdir : forall parent child s0,
               exists e, node_remove_folder parent child s0 = (inr e, s0)).
    { intros parent child s0. unfold node_remove_folder, bindM, load.
      destruct (nth parent (heap s0) ONone); eexists; reflexivity. }
    split; [|split].
    + unfold bindM at 1.
      destruct (_get_parent_and_child toc_file_name p s)
        as [[[parent child]|e] s'] eqn:E; [|exists e, s'; reflexivity].
      unfold try_except. destruct (Hfile parent child s') as [e ->].
      exists e, s'. reflexivity.
    + unfold bindM at 1.
      destruct (_get_parent_and_child toc_file_name p s)
        as [[[parent child]|e] s'] eqn:E; [|exists e, s'; reflexivity].
      unfold try_except. destruct (Hdir parent child s') as [e ->].
      exists e, s'. reflexivity.
    + intros Hc.
      destruct (get_parent_and_child_needs_alias toc_file_name p s Hc)
        as (e & He & Hor).
      exists e, e. unfold bindM. rewrite He.
      split; [reflexivity|]. split; [reflexivity|]. split; right; exact Hor.
Qed.

Lemma remove_never_returns_witness :
  remove FsExamples.no_name "data:/a.rgd" FsExamples.drive_state
  = (inr AttributeError, FsExamples.drive_state)
  /\ removedir FsExamples.no_name "data:/" FsExamples.drive_state
     = (inr RemoveRootError, FsExamples.drive_state).
Proof.
  destruct (proj2 (proj2 (remove_never_returns FsExamples.no_name
                            "data:/a.rgd" FsExamples.drive_state)) eq_refl)
    as (e & e' & H1 & _).
  split; [|reflexivity].
  rewrite H1. vm_compute in H1. injection H1 as <-. reflexivity.
Defined.

Section ListingFacts.

(** Once [by_name] has raised, the remaining nodes change nothing. *)
Lemma by_name_raise (nodes : list ref) (m : M (dict ref)) (s s' : state)
  (e : exn) :
  m s = (inr e, s') ->
  fold_left
    (fun acc f =>
       bindM acc (fun d => bindM (node_name f) (fun n => ret (Dict.set d n f))))
    nodes m s = (inr e, s').
Proof.
  revert m. induction nodes as [|f nodes IH]; intros m H; [exact H|].
  cbn [fold_left]. apply IH. unfold bindM at 1. rewrite H. reflexivity.
Qed.

End ListingFacts.

(** X28.  A lazy folder cannot look its files up by name.  The first
    [get_child] of a lazy folder builds [_files_lookup] from the [name]
    of every file of its slice; when the first of them is a wrapper
    [SgaFsFileV2], whose [name] is the inherited property that raises,
    [get_child] ends with [NotImplementedError] for every name asked,
    and nothing is memoized. *)
Theorem lazy_get_child_needs_names (s : state) (self : ref) (is_lazy : bool)
  (l : SgaFsFolderV2Lazy) (f : ref) (rest : list ref) (name : string)
  (f_lazy : bool) (f_backing : file_backing) :
  nth self (heap s) ONone = OFolder is_lazy (FolderLazy l) ->
  dl_files l = None ->
  pyslice (dl_all_files l) (tf_first_file (dl_info l)) (tf_last_file (dl_info l))
  = f :: rest ->
  nth f (heap s) ONone = OFile f_lazy f_backing ->
  node_get_child self name s = (inr NotImplementedError, s).
Proof.
  intros H Hmemo Hslice Hf. destruct s as [h d]. cbn [heap] in *.
  unfold node_get_child, folder_get_child. run_heap. rewrite H. run_heap.
  rewrite H. unfold _files_lookup. rewrite Hmemo, Hslice.
  unfold bindM at 1. unfold bindM at 1. unfold by_name. cbn [fold_left].
  rewrite (by_name_raise rest _ (mkState h d) (mkState h d) NotImplementedError);
    [reflexivity|].
  unfold node_name. run_heap. rewrite Hf. reflexivity.
Qed.

Lemma lazy_get_child_needs_names_witness :
  node_get_child 0%nat "hello.txt"
    (mkState [OFolder true
                (FolderLazy (mkFolderLazy (mkTocFolder 0 0 0 0 1)
                               (fun _ => ok "root"%string)
                               (window_of_bytes Examples.failure []) [1%nat] [0%nat]
                               None None));
              OFile false (FileMem FsExamples.mem_file)] [])
  = (inr NotImplementedError,
     mkState [OFolder true
                (FolderLazy (mkFolderLazy (mkTocFolder 0 0 0 0 1)
                               (fun _ => ok "root"%string)
                               (window_of_bytes Examples.failure []) [1%nat] [0%nat]
                               None None));
              OFile false (FileMem FsExamples.mem_file)] []).
Proof.
  apply (lazy_get_child_needs_names _ 0%nat true
           (mkFolderLazy (mkTocFolder 0 0 0 0 1) (fun _ => ok "root"%string)
              (window_of_bytes Examples.failure []) [1%nat] [0%nat] None None)
           1%nat [] "hello.txt" false
           (FileMem FsExamples.mem_file)); reflexivity.
Defined.

(** X29.  [listdir] lists an in-memory folder and no other.  When the
    path leads to an in-memory folder, bare or wrapped, the result is
    the names of its children in the order they were added, and the
    filesystem is not changed by the listing.  When it leads to a
    wrapper of a lazy folder, [listdir] ends with an exception: [scandir]
    of the lazy class multiplies the key views of its memos. *)
Theorem listdir_spec
  (toc_file_name : _SgaTocFileV2 -> result string)
  (path : string) (node : ref) (s s1 : state) :
  _getnode toc_file_name path true s = (inl (Some node), s1) ->
  (forall m,
     nth node (heap s1) ONone = OFolderMem m
     \/ (exists b, nth node (heap s1) ONone = OFolder b (FolderMem m)) ->
     listdir toc_file_name path s = (inl (Dict.keys (dm_children m)), s1))
  /\ (forall b l,
        nth node (heap s1) ONone = OFolder b (FolderLazy l) ->
        exists e, listdir toc_file_name path s = (inr e, s1)).
Proof.
  intros Hnode. unfold listdir.
  destruct s1 as [h d]. cbn [heap] in *. split.
  - intros m [Hm | [b Hm]]; unfold bindM at 1; rewrite Hnode;
      unfold node_getinfo, folder_getinfo, node_scandir, folder_scandir;
      repeat progress (run_heap; rewrite ?Hm);
      change (Info_get _ "basic" "is_dir") with (@inl pyobj exn (PBool true));
      repeat progress (run_heap; cbn [truthy]; rewrite ?Hm); reflexivity.
  - intros b l Hl. unfold bindM at 1. rewrite Hnode.
    unfold node_getinfo, folder_getinfo, node_scandir, folder_scandir.
    repeat progress (run_heap; rewrite ?Hl).
    destruct (SgaFsFolderV2Lazy_name l) as [n|e]; [|eexists; reflexivity].
    change (Info_get _ "basic" "is_dir") with (@inl pyobj exn (PBool true)).
    repeat progress (run_heap; cbn [truthy]; rewrite ?Hl).
    destruct (dl_files l), (dl_folders l); eexists; reflexivity.
Qed.

Lemma listdir_spec_witness :
  listdir FsExamples.no_name "data:docs"
    (mkState [OFolderMem (mkFolderMem "root" [("docs"%string, 2%nat)]
                            [("docs"%string, 2%nat)] []);
              ODriveMem "Data" "data" 0%nat;
              OFolderMem (mkFolderMem "docs"
                            [("b.txt"%string, 3%nat); ("a.txt"%string, 4%nat)]
                            []
                            [("b.txt"%string, 3%nat); ("a.txt"%string, 4%nat)])]
             [("data"%string, 1%nat)])
  = (inl ["b.txt"; "a.txt"]%string,
     mkState [OFolderMem (mkFolderMem "root" [("docs"%string, 2%nat)]
                            [("docs"%string, 2%nat)] []);
              ODriveMem "Data" "data" 0%nat;
              OFolderMem (mkFolderMem "docs"
                            [("b.txt"%string, 3%nat); ("a.txt"%string, 4%nat)]
                            []
                            [("b.txt"%string, 3%nat); ("a.txt"%string, 4%nat)])]
             [("data"%string, 1%nat)]).
Proof.
  set (st := mkState _ _).
  apply (proj1 (listdir_spec FsExamples.no_name "data:docs" 2%nat st st eq_refl)
           (mkFolderMem "docs"
              [("b.txt"%string, 3%nat); ("a.txt"%string, 4%nat)] []
              [("b.txt"%string, 3%nat); ("a.txt"%string, 4%nat)])).
  left. reflexivity.
Defined.

(** X30.  [getinfo] of a path.  When the path leads to an in-memory
    file, bare or wrapped, the call without namespaces (the default
    [None]) raises [TypeError], a list of namespaces that has
    ["details"] raises [AttributeError], and any other list returns an
    info whose basic namespace has the name of the file and
    [is_dir = False].  When it leads to an in-memory folder, every
    namespaces argument returns the basic namespace with the name of the
    folder and [is_dir = True].  The filesystem is not changed. *)
Theorem getinfo_spec
  (toc_file_name : _SgaTocFileV2 -> result string)
  (path : string) (node : ref) (s s1 : state) :
  _getnode toc_file_name path true s = (inl (Some node), s1) ->
  (forall m,
     nth node (heap s1) ONone = OFileMem m
     \/ (exists b, nth node (heap s1) ONone = OFile b (FileMem m)) ->
     getinfo toc_file_name path NsNone s = (inr TypeError, s1)
     /\ (forall l,
           existsb (String.eqb NS_DETAILS) l = true ->
           getinfo toc_file_name path (NsList l) s = (inr AttributeError, s1))
     /\ (forall l,
           existsb (String.eqb NS_DETAILS) l = false ->
           exists info,
             getinfo toc_file_name path (NsList l) s = (inl info, s1)
             /\ Info_get info "basic" "name" = inl (PStr (fm_name m))
             /\ Info_get info "basic" "is_dir" = inl (PBool false)))
  /\ (forall m ns,
        nth node (heap s1) ONone = OFolderMem m
        \/ (exists b, nth node (heap s1) ONone = OFolder b (FolderMem m)) ->
        exists info,
          getinfo toc_file_name path ns s = (inl info, s1)
          /\ Info_get info "basic" "name" = inl (PStr (dm_name m))
          /\ Info_get info "basic" "is_dir" = inl (PBool true)).
Proof.
  intros Hnode. destruct s1 as [h d]. cbn [heap] in *.
  assert (Hfile : forall m ns,
             nth node h ONone = OFileMem m
             \/ (exists b, nth node h ONone = OFile b (FileMem m)) ->
             getinfo toc_file_name path ns s =
             (SgaFsFileV2Mem_getinfo m ns, mkState h d)).
  { intros m ns [Hm | [b Hm]]; unfold getinfo; unfold bindM at 1;
      rewrite Hnode; unfold node_getinfo, SgaFsFileV2_getinfo;
      repeat progress (run_heap; rewrite ?Hm); reflexivity. }
  split.
  - intros m Hm. split; [|split].
    + rewrite (Hfile m NsNone Hm). reflexivity.
    + intros l Hl. rewrite (Hfile m (NsList l) Hm).
      unfold SgaFsFileV2Mem_getinfo. cbn [ns_in bind ok]. rewrite Hl.
      reflexivity.
    + intros l Hl. rewrite (Hfile m (NsList l) Hm).
      unfold SgaFsFileV2Mem_getinfo. cbn [ns_in bind ok]. rewrite Hl.
      destruct (existsb (String.eqb NS_ESSENCE) l);
        eexists; (split; [reflexivity|]); split; reflexivity.
  - intros m ns [Hm | [b Hm]]; eexists;
      (split; [unfold getinfo; unfold bindM at 1; rewrite Hnode;
               unfold node_getinfo, folder_getinfo;
               repeat progress (run_heap; rewrite ?Hm); reflexivity|]);
      split; reflexivity.
Qed.

Lemma getinfo_spec_witness :
  getinfo FsExamples.no_name "data:hello.txt" NsNone
    (mkState [OFolderMem (mkFolderMem "root" [("hello.txt"%string, 2%nat)]
                            [] [("hello.txt"%string, 2%nat)]);
              ODriveMem "Data" "data" 0%nat;
              OFileMem FsExamples.mem_file]
             [("data"%string, 1%nat)])
  = (inr TypeError,
     mkState [OFolderMem (mkFolderMem "root" [("hello.txt"%string, 2%nat)]
                            [] [("hello.txt"%string, 2%nat)]);
              ODriveMem "Data" "data" 0%nat;
              OFileMem FsExamples.mem_file]
             [("data"%string, 1%nat)]).
Proof.
  set (st := mkState _ _).
  apply (proj1 (proj1 (getinfo_spec FsExamples.no_name "data:hello.txt" 2%nat
                         st st eq_refl) FsExamples.mem_file
                  (or_introl eq_refl))).
Defined.

Lemma join_returns_iff_witness :
  returns (SgaPathResolver.join (map Some ["data"; "art"; "a.rgd"]%string) false)
  /\ SgaPathResolver.join (map Some ["data"; ""; "a.rgd"]%string) false
     = inr IndexError.
Proof.
  split.
  - apply (proj1 (proj1 (join_returns_iff ["data"; "art"; "a.rgd"]%string false))).
    repeat constructor; discriminate.
  - apply (proj1 (proj1 (proj2 (join_returns_iff ["data"; ""; "a.rgd"]%string false)))).
    apply Exists_cons_tl, Exists_cons_hd. reflexivity.
Defined.
